(** * FHIR bundle preprocessing script: reference rewriting

    A shallow embedding of
    [miscellaneous/fhir-server/scripts/data-preprocessing-script/script.py]:
    the two index builders, [is_uuid_format], the recursive tree rewriter
    [replace_references] and the Coverage injector [add_coverage_resources].

    Python values are modelled as follows.
    - A parsed JSON document is a [json] tree.  Python's [None] is JSON
      [null], so the rewriter's "return None" is the value [JNull].  The
      numbers are the integers: the script tests a number for truth and
      uses it as a key, and does nothing else with it.
    - A JSON object is a Python [dict]: insertion ordered, keys unique.  It is
      an association list here, because the order of the fields is what
      [json.dump] writes back; uniqueness of the keys is the predicate
      [json_wf].
    - [uuid_map] and [identifier_map] are lookup tables only, and are finite
      maps ([gmap]).
    - A Python [str] is a [string]; its characters are compared, searched and
      split as the source does.
    - The index builders raise on values of the wrong kind; their results are
      in the exception monad [result].  The rewriter raises nowhere; it
      recurses on values that it has just changed or made, so its recursion
      is bounded by a [fuel] argument, and [json_depth obj + 2] is shown
      to be enough.
    - The rendering of a value inside an f-string, the Unicode tables behind
      [\w] and the random UUID generator belong to Python, not to the script:
      they are the parameters [py_repr], [unicode_alnum] and [uuid4]. *)

From Stdlib Require Import String Ascii ZArith List Lia Bool.
From stdpp Require Import base option list strings gmap.

Local Open Scope string_scope.
Local Open Scope list_scope.

(** ** JSON values *)

Unset Elimination Schemes.
Inductive json : Type :=
| JNull
| JBool (b : bool)
| JNum (n : Z)
| JStr (s : string)
| JList (items : list json)
| JObj (fields : list (string * json)).
Set Elimination Schemes.

Abbreviation obj_fields := (list (string * json)) (only parsing).

Definition is_dict (v : json) : bool :=
  match v with JObj _ => true | _ => false end.

Definition is_list (v : json) : bool :=
  match v with JList _ => true | _ => false end.

Definition is_none (v : json) : bool :=
  match v with JNull => true | _ => false end.

(** [v == "lit"] for a value [v] and a string literal. *)
Definition eq_str (v : json) (lit : string) : bool :=
  match v with JStr s => String.eqb s lit | _ => false end.

(** Python truthiness, as used by [if resource_type and resource_id]. *)
Definition truthy (v : json) : bool :=
  match v with
  | JNull => false
  | JBool b => b
  | JNum n => negb (Z.eqb n 0)
  | JStr s => negb (String.eqb s "")
  | JList l => match l with [] => false | _ => true end
  | JObj f => match f with [] => false | _ => true end
  end.

(** Nesting depth, used to bound the recursion of the rewriter. *)
Fixpoint json_depth (v : json) : nat :=
  match v with
  | JList l => S (list_max (map json_depth l))
  | JObj f => S (list_max (map (fun kv => json_depth (snd kv)) f))
  | _ => 0
  end.

(** Keys of every object are pairwise distinct (what [json.load] builds). *)
Fixpoint json_wf (v : json) : bool :=
  match v with
  | JList l => forallb json_wf l
  | JObj f =>
      bool_decide (NoDup (map fst f)) && forallb (fun kv => json_wf (snd kv)) f
  | _ => true
  end.

(** ** Dictionaries with string keys *)

Section Dict.
Context {V : Type}.

(** [d.get(k)]; [None] when the key is missing. *)
Fixpoint dict_get (k : string) (d : list (string * V)) : option V :=
  match d with
  | [] => None
  | (k', v) :: r => if String.eqb k' k then Some v else dict_get k r
  end.

(** [k in d]. *)
Definition dict_mem (k : string) (d : list (string * V)) : bool :=
  match dict_get k d with Some _ => true | None => false end.

(** [d[k] = v]: an existing key keeps its place, a new one goes last. *)
Fixpoint dict_set (k : string) (v : V) (d : list (string * V))
  : list (string * V) :=
  match d with
  | [] => [(k, v)]
  | (k', v') :: r =>
      if String.eqb k' k then (k', v) :: r else (k', v') :: dict_set k v r
  end.

(** [del d[k]].  Every [del] of the source is on a key that is present, so
    the [KeyError] of a missing key is never raised. *)
Definition dict_del (k : string) (d : list (string * V))
  : list (string * V) :=
  List.filter (fun kv => negb (String.eqb (fst kv) k)) d.

Definition dict_keys (d : list (string * V)) : list string := map fst d.
End Dict.

(** [obj.get(k)] with Python's default [None]. *)
Definition py_get (k : string) (d : obj_fields) : json :=
  match dict_get k d with Some v => v | None => JNull end.

(** [obj.get(k, dflt)]. *)
Definition py_get_default (k : string) (dflt : json) (d : obj_fields) : json :=
  match dict_get k d with Some v => v | None => dflt end.

(** ** Strings *)

(** [s.startswith(p)]. *)
Definition startswith (s p : string) : bool := String.prefix p s.

(** [sub in s]. *)
Fixpoint str_contains (sub s : string) : bool :=
  String.prefix sub s ||
  match s with
  | EmptyString => false
  | String _ r => str_contains sub r
  end.

(** [s.replace(old, new)] for a non-empty [old]: the occurrences of [old] are
    replaced from left to right, without overlap.  [skip] counts the
    characters of a matched occurrence that are still to be dropped. *)
Fixpoint str_replace_from (old new : string) (skip : nat) (s : string) : string :=
  match s with
  | EmptyString => EmptyString
  | String c r =>
      match skip with
      | S n => str_replace_from old new n r
      | O =>
          if String.prefix old s
          then new +:+ str_replace_from old new (String.length old - 1) r
          else String c (str_replace_from old new 0 r)
      end
  end.

Definition str_replace (old new s : string) : string :=
  str_replace_from old new 0 s.

(** [s.split(sep, 1)] for a one-character separator: the parts before and
    after the first occurrence, or the string alone. *)
Fixpoint split_once (sep : ascii) (s : string) : list string :=
  match s with
  | EmptyString => [EmptyString]
  | String c r =>
      if Ascii.eqb c sep then [EmptyString; r]
      else match split_once sep r with
           | [a; b] => [String c a; b]
           | _ => [s]
           end
  end.

Definition in_range (lo hi : nat) (c : ascii) : bool :=
  Nat.leb lo (nat_of_ascii c) && Nat.leb (nat_of_ascii c) hi.

(** The class [[0-9a-fA-F]]. *)
Definition is_hex (c : ascii) : bool :=
  in_range 48 57 c || in_range 97 102 c || in_range 65 70 c.

(** [n] characters of the class [[0-9a-fA-F]] in front of [s]; the rest. *)
Fixpoint take_hex (n : nat) (s : string) : option string :=
  match n with
  | O => Some s
  | S m =>
      match s with
      | String c r => if is_hex c then take_hex m r else None
      | EmptyString => None
      end
  end.

Definition take_hyphen (s : string) : option string :=
  match s with
  | String c r => if Ascii.eqb c "-" then Some r else None
  | EmptyString => None
  end.

(** The five groups of hexadecimal digits with their hyphens in front of
    [s]; what follows them. *)
Definition uuid_groups (s : string) : option string :=
  s ← take_hex 8 s; s ← take_hyphen s;
  s ← take_hex 4 s; s ← take_hyphen s;
  s ← take_hex 4 s; s ← take_hyphen s;
  s ← take_hex 4 s; s ← take_hyphen s;
  take_hex 12 s.

(** The strict shape: 8-4-4-4-12 hexadecimal digits and nothing else. *)
Definition strict_uuid (s : string) : bool :=
  match uuid_groups s with
  | Some EmptyString => true
  | _ => false
  end.

(** [is_uuid_format]: [re.match] of
    [^[0-9a-fA-F]{8}-[0-9a-fA-F]{4}-[0-9a-fA-F]{4}-[0-9a-fA-F]{4}-[0-9a-fA-F]{12}$].
    In Python [$] also matches just before a final newline. *)
Definition is_uuid_format (id_str : string) : bool :=
  match uuid_groups id_str with
  | Some EmptyString => true
  | Some (String c EmptyString) => Ascii.eqb c "010"
  | _ => false
  end.

(** The longest prefix of [s] whose characters satisfy [p], and the rest. *)
Fixpoint span (p : ascii -> bool) (s : string) : string * string :=
  match s with
  | EmptyString => (EmptyString, EmptyString)
  | String c r =>
      if p c then let '(a, b) := span p r in (String c a, b)
      else (EmptyString, s)
  end.

(** [s] without the prefix [p], when it starts with [p]. *)
Fixpoint strip_prefix (p s : string) : option string :=
  match p, s with
  | EmptyString, _ => Some s
  | String a p', String b s' =>
      if Ascii.eqb a b then strip_prefix p' s' else None
  | String _ _, EmptyString => None
  end.

(** ** Exceptions of the index builders *)

Inductive exn : Type := AttributeError | TypeError.

Inductive result (A : Type) : Type :=
| Ok (a : A)
| Raise (e : exn).
Arguments Ok {A} a.
Arguments Raise {A} e.

#[global] Instance result_ret : MRet result := fun _ a => Ok a.
#[global] Instance result_bind : MBind result := fun _ _ f m =>
  match m with Ok a => f a | Raise e => Raise e end.

(** The receiver of [.get] must be a dict. *)
Definition as_dict (v : json) : result obj_fields :=
  match v with JObj f => Ok f | _ => Raise AttributeError end.

(** The receiver of [.startswith] must be a str. *)
Definition as_str (v : json) : result string :=
  match v with JStr s => Ok s | _ => Raise AttributeError end.

Fixpoint chars (s : string) : list json :=
  match s with
  | EmptyString => []
  | String c r => JStr (String c EmptyString) :: chars r
  end.

(** [for x in v]: a list gives its items, a dict its keys, a str its
    characters; nothing else is iterable. *)
Definition py_iter (v : json) : result (list json) :=
  match v with
  | JList l => Ok l
  | JObj f => Ok (map (fun kv => JStr (fst kv)) f)
  | JStr s => Ok (chars s)
  | _ => Raise TypeError
  end.

(** Keys of [identifier_map]: the hashable values up to Python's equality of
    keys, under which [True] and [1] are one key. *)
Inductive hkey : Type := HStr (s : string) | HInt (n : Z) | HNone.

#[global] Instance hkey_eq_dec : EqDecision hkey.
Proof. solve_decision. Defined.

#[global] Instance hkey_countable : Countable hkey.
Proof.
  refine (inj_countable'
    (fun k => match k with HStr s => inl s | HInt n => inr (Some n) | HNone => inr None end)
    (fun x => match x with inl s => HStr s | inr (Some n) => HInt n | inr None => HNone end) _).
  intros []; reflexivity.
Defined.

(** The key under which [d[v] = ...] stores; lists and dicts are unhashable. *)
Definition hash_key (v : json) : result hkey :=
  match v with
  | JStr s => Ok (HStr s)
  | JNum n => Ok (HInt n)
  | JBool b => Ok (HInt (if b then 1 else 0))
  | JNull => Ok HNone
  | JList _ | JObj _ => Raise TypeError
  end.

(** ** Reference Index Builder *)

(** Lines 45-50 and 402-407: the loop over [identifiers].  The map is updated
    in place, so the bindings made before an exception stay in it. *)
Fixpoint record_identifiers (resource_type resource_id : json)
    (identifiers : list json) (identifier_map : gmap hkey (json * json))
  : gmap hkey (json * json) * option exn :=
  match identifiers with
  | [] => (identifier_map, None)
  | identifier :: rest =>
      match identifier with
      | JObj f =>
          let value := py_get "value" f in
          if truthy value then
            match hash_key value with
            | Ok k =>
                record_identifiers resource_type resource_id rest
                  (<[k := (resource_type, resource_id)]> identifier_map)
            | Raise e => (identifier_map, Some e)
            end
          else record_identifiers resource_type resource_id rest identifier_map
      | _ => record_identifiers resource_type resource_id rest identifier_map
      end
  end.

(** Lines 43-50 and 400-407: [if resource_type and resource_id: ...]. *)
Definition resource_identifiers (resource_type resource_id : json)
    (resource : obj_fields) (identifier_map : gmap hkey (json * json))
  : gmap hkey (json * json) * option exn :=
  if truthy resource_type && truthy resource_id then
    match py_iter (py_get_default "identifier" (JList []) resource) with
    | Ok identifiers =>
        record_identifiers resource_type resource_id identifiers identifier_map
    | Raise e => (identifier_map, Some e)
    end
  else (identifier_map, None).

(** One turn of the loop of [build_uuid_to_resource_type_map] (lines 31-50).
    An exception leaves the function, and the two maps with it. *)
Definition index_entry
    (st : gmap string json * gmap hkey (json * json)) (entry : json)
  : result (gmap string json * gmap hkey (json * json)) :=
  let '(uuid_map, identifier_map) := st in
  e ← as_dict entry;
  let full_url := py_get_default "fullUrl" (JStr "") e in
  let resource := py_get_default "resource" (JObj []) e in
  full_url ← as_str full_url;
  if startswith full_url "urn:uuid:" then
    let uuid := str_replace "urn:uuid:" "" full_url in
    r ← as_dict resource;
    let resource_type := py_get "resourceType" r in
    let resource_id := py_get "id" r in
    let uuid_map :=
      if truthy resource_type then <[uuid := resource_type]> uuid_map
      else uuid_map in
    match resource_identifiers resource_type resource_id r identifier_map with
    | (identifier_map, None) => Ok (uuid_map, identifier_map)
    | (_, Some err) => Raise err
    end
  else Ok (uuid_map, identifier_map).

Fixpoint index_entries
    (st : gmap string json * gmap hkey (json * json)) (entries : list json)
  : result (gmap string json * gmap hkey (json * json)) :=
  match entries with
  | [] => Ok st
  | entry :: rest => st' ← index_entry st entry; index_entries st' rest
  end.

Definition build_uuid_to_resource_type_map (data : json)
  : result (gmap string json * gmap hkey (json * json)) :=
  d ← as_dict data;
  if eq_str (py_get "resourceType" d) "Bundle" && dict_mem "entry" d then
    entries ← py_iter (py_get "entry" d);
    index_entries (∅, ∅) entries
  else Ok (∅, ∅).

(** ** Global Identifier Aggregator *)

(** One turn of the inner loop of [build_global_identifier_map]
    (lines 395-407). *)
Definition aggregate_entry (global_identifier_map : gmap hkey (json * json))
    (entry : json) : gmap hkey (json * json) * option exn :=
  match as_dict entry with
  | Ok e =>
      match as_dict (py_get_default "resource" (JObj []) e) with
      | Ok r =>
          resource_identifiers (py_get "resourceType" r) (py_get "id" r) r
            global_identifier_map
      | Raise err => (global_identifier_map, Some err)
      end
  | Raise err => (global_identifier_map, Some err)
  end.

Fixpoint aggregate_entries (global_identifier_map : gmap hkey (json * json))
    (entries : list json) : gmap hkey (json * json) * option exn :=
  match entries with
  | [] => (global_identifier_map, None)
  | entry :: rest =>
      match aggregate_entry global_identifier_map entry with
      | (m, None) => aggregate_entries m rest
      | (m, Some err) => (m, Some err)
      end
  end.

(** The body of the [try] for one file that was read and parsed. *)
Definition aggregate_document (global_identifier_map : gmap hkey (json * json))
    (data : json) : gmap hkey (json * json) * option exn :=
  match as_dict data with
  | Ok d =>
      if eq_str (py_get "resourceType" d) "Bundle" && dict_mem "entry" d then
        match py_iter (py_get "entry" d) with
        | Ok entries => aggregate_entries global_identifier_map entries
        | Raise err => (global_identifier_map, Some err)
        end
      else (global_identifier_map, None)
  | Raise err => (global_identifier_map, Some err)
  end.

(** [build_global_identifier_map]; a file is the document it parses to, or
    [None] when reading or parsing it fails.  Every exception is caught and
    the loop goes on with the map as it stands. *)
Fixpoint build_global_identifier_map_from
    (global_identifier_map : gmap hkey (json * json))
    (json_files : list (option json)) : gmap hkey (json * json) :=
  match json_files with
  | [] => global_identifier_map
  | None :: rest => build_global_identifier_map_from global_identifier_map rest
  | Some data :: rest =>
      build_global_identifier_map_from
        (fst (aggregate_document global_identifier_map data)) rest
  end.

Definition build_global_identifier_map (json_files : list (option json))
  : gmap hkey (json * json) :=
  build_global_identifier_map_from ∅ json_files.

(** ** Tree Rewriter *)

(** Outcome of the reference checks at the head of [replace_references]:
    [Remove] is the source's early [return None]. *)
Inductive resolved : Type :=
| Remove
| Keep (obj : list (string * json)).

(** Lines 203-208: [del dosage_item["additionalInstruction"]] on the items of
    a [dosageInstruction] list that are dicts and have the key. *)
Definition strip_additional_instruction (value : json) : json :=
  match value with
  | JList items =>
      JList (map (fun dosage_item =>
                    match dosage_item with
                    | JObj f =>
                        if dict_mem "additionalInstruction" f
                        then JObj (dict_del "additionalInstruction" f)
                        else dosage_item
                    | _ => dosage_item
                    end) items)
  | _ => value
  end.

Section Rewriter.
(** [py_repr v] is Python's [str(v)] for a value that is not a str, as an
    f-string inserts it; [unicode_alnum] is Python's classification of the
    characters above 127 as alphanumeric, which [\w] consults.  Both are
    built into Python and not part of the script. *)
Variable py_repr : json -> string.
Variable unicode_alnum : ascii -> bool.

(** The arguments that every recursive call passes on unchanged. *)
Variable uuid_map : gmap string json.
Variable identifier_map : gmap hkey (json * json).
Variable organization_id : option string.
Variable practitioner_id : option string.

(** [f"{v}"]. *)
Definition format_value (v : json) : string :=
  match v with JStr s => s | _ => py_repr v end.

(** The class [\w] of a Python 3 str pattern. *)
Definition is_word_char (c : ascii) : bool :=
  in_range 48 57 c || in_range 65 90 c || in_range 97 122 c ||
  Ascii.eqb c "_" || (Nat.leb 128 (nat_of_ascii c) && unicode_alnum c).

(** [re.match(r'(\w+)\?identifier=([^|]+)\|(.+)', ref_value)]: the three
    groups.  Each greedy group is followed by a character outside its
    class, so the match, when there is one, takes the longest run. *)
Definition match_identifier_reference (ref_value : string)
  : option (string * string * string) :=
  let '(g1, r1) := span is_word_char ref_value in
  if String.eqb g1 "" then None else
  match strip_prefix "?identifier=" r1 with
  | None => None
  | Some r2 =>
      let '(g2, r3) := span (fun c => negb (Ascii.eqb c "|")) r2 in
      if String.eqb g2 "" then None else
      match r3 with
      | EmptyString => None
      | String _ r4 =>
          let '(g3, _) := span (fun c => negb (Ascii.eqb c "010")) r4 in
          if String.eqb g3 "" then None else Some (g1, g2, g3)
      end
  end.

(** Lines 108-160. *)
Definition resolve_reference (obj : obj_fields) : resolved :=
  match dict_get "reference" obj with
  | Some (JStr ref_value) =>
      if startswith ref_value "urn:uuid:" then
        let uuid := str_replace "urn:uuid:" "" ref_value in
        match uuid_map !! uuid with
        | Some resource_type =>
            Keep (dict_set "reference"
                    (JStr (format_value resource_type +:+ "/" +:+ uuid)) obj)
        | None => Keep obj
        end
      else if str_contains "?identifier=" ref_value
              && str_contains "|" ref_value then
        match match_identifier_reference ref_value with
        | Some (resource_type, _, identifier_value) =>
            match identifier_map !! HStr identifier_value with
            | Some (mapped_resource_type, mapped_uuid) =>
                Keep (dict_set "reference"
                        (JStr (format_value mapped_resource_type +:+ "/"
                               +:+ format_value mapped_uuid)) obj)
            | None => Remove
            end
        | None => Keep obj
        end
      else if startswith ref_value "#" then Remove
      else if str_contains "/" ref_value then
        match split_once "/" ref_value with
        | [resource_type; id_part] =>
            if is_uuid_format id_part then Keep obj
            else
              match identifier_map !! HStr id_part with
              | Some (mapped_resource_type, mapped_uuid) =>
                  Keep (dict_set "reference"
                          (JStr (format_value mapped_resource_type +:+ "/"
                                 +:+ format_value mapped_uuid)) obj)
              | None => Remove
              end
        | _ => Keep obj
        end
      else Keep obj
  | _ => Keep obj
  end.

(** Lines 163-167.  [if ... and organization_id and ...]: the id is
    neither [None] nor the empty string. *)
Definition add_provider (in_eob_care_team : bool) (obj : obj_fields)
  : obj_fields :=
  match organization_id with
  | Some org =>
      if in_eob_care_team && negb (String.eqb org "")
         && negb (dict_mem "provider" obj)
      then dict_set "provider"
             (JObj [("reference", JStr ("Organization/" +:+ org))]) obj
      else obj
  | None => obj
  end.

(** Lines 170-178. *)
Definition clean_careplan_care_team (in_careplan_care_team : bool)
    (obj : obj_fields) : obj_fields :=
  if in_careplan_care_team && dict_mem "reference" obj then
    let keys_to_remove :=
      List.filter
        (fun k => negb (String.eqb k "reference" || String.eqb k "display"))
        (dict_keys obj) in
    fold_left (fun o k => dict_del k o) keys_to_remove obj
  else obj.

(** Lines 181-185. *)
Definition add_who (in_provenance_agent : bool) (obj : obj_fields)
  : obj_fields :=
  match practitioner_id with
  | Some prac =>
      if in_provenance_agent && negb (String.eqb prac "")
         && negb (dict_mem "who" obj)
      then dict_set "who"
             (JObj [("reference", JStr ("Practitioner/" +:+ prac))]) obj
      else obj
  | None => obj
  end.

(** The recursive call, as the body sees it: value, [parent_key],
    [in_eob_care_team], [in_provenance_agent], [in_careplan_care_team].
    [None] is a call that ran out of fuel. *)
Definition rec_call : Type :=
  json -> option string -> bool -> bool -> bool -> option json.

(** One turn of the loop of lines 189-229, on the state made of the dict
    [obj], which the loop updates in place, and [keys_to_delete]. *)
Definition field_step (rec : rec_call)
    (is_observation is_careplan is_medication_request : bool)
    (st : obj_fields * list string) (kv : string * json)
  : option (obj_fields * list string) :=
  let '(obj, keys_to_delete) := st in
  let '(key, value) := kv in
  if String.eqb key "period" then Some (obj, keys_to_delete ++ [key])
  else if is_observation && String.eqb key "valueCodeableConcept"
  then Some (obj, keys_to_delete ++ [key])
  else
    (* the dosage items are changed in place: [obj] sees the change *)
    let '(value, obj) :=
      if is_medication_request && String.eqb key "dosageInstruction"
         && is_list value
      then (strip_additional_instruction value,
            dict_set key (strip_additional_instruction value) obj)
      else (value, obj) in
    let is_eob :=
      eq_str (py_get "resourceType" obj) "ExplanationOfBenefit" in
    let entering_eob_care_team :=
      String.eqb key "careTeam" && is_list value && is_eob in
    let entering_careplan_care_team :=
      String.eqb key "careTeam" && is_list value && is_careplan in
    let entering_provenance_agent :=
      String.eqb key "agent" && is_list value
      && eq_str (py_get "resourceType" obj) "Provenance" in
    result ← rec value (Some key) entering_eob_care_team
               entering_provenance_agent entering_careplan_care_team;
    if is_none result then Some (obj, keys_to_delete ++ [key])
    else Some (dict_set key result obj, keys_to_delete).

(** The loop over the snapshot [list(obj.items())]. *)
Fixpoint fields_loop (rec : rec_call)
    (is_observation is_careplan is_medication_request : bool)
    (snapshot : obj_fields) (st : obj_fields * list string)
  : option (obj_fields * list string) :=
  match snapshot with
  | [] => Some st
  | kv :: rest =>
      st' ← field_step rec is_observation is_careplan
              is_medication_request st kv;
      fields_loop rec is_observation is_careplan is_medication_request
        rest st'
  end.

(** Lines 236-243: the loop that builds [new_list]. *)
Fixpoint list_loop (rec1 : json -> option json) (items new_list : list json)
  : option (list json) :=
  match items with
  | [] => Some new_list
  | item :: rest =>
      result ← rec1 item;
      list_loop rec1 rest
        (if is_none result then new_list else new_list ++ [result])
  end.

(** The body of [replace_references], with the recursive calls as [rec]. *)
Definition replace_references_body (rec : rec_call) (obj : json)
    (parent_key : option string)
    (in_eob_care_team in_provenance_agent in_careplan_care_team : bool)
  : option json :=
  match obj with
  | JObj fields =>
      let is_observation :=
        eq_str (py_get "resourceType" fields) "Observation" in
      let is_careplan := eq_str (py_get "resourceType" fields) "CarePlan" in
      let is_medication_request :=
        eq_str (py_get "resourceType" fields) "MedicationRequest" in
      match resolve_reference fields with
      | Remove => Some JNull
      | Keep fields =>
          let fields := add_provider in_eob_care_team fields in
          let fields :=
            clean_careplan_care_team in_careplan_care_team fields in
          let fields := add_who in_provenance_agent fields in
          '(fields, keys_to_delete) ←
            fields_loop rec is_observation is_careplan
              is_medication_request fields (fields, []);
          Some (JObj (fold_left (fun o k => dict_del k o)
                        keys_to_delete fields))
      end
  | JList items =>
      new_list ←
        list_loop (fun item => rec item parent_key in_eob_care_team
                                 in_provenance_agent in_careplan_care_team)
          items [];
      Some (JList new_list)
  | _ => Some obj
  end.

(** [replace_references]; [fuel] bounds the depth of the recursion, and
    [None] is a call that ran out of it. *)
Fixpoint replace_references (fuel : nat) (obj : json)
    (parent_key : option string)
    (in_eob_care_team in_provenance_agent in_careplan_care_team : bool)
  : option json :=
  match fuel with
  | O => None
  | S n =>
      replace_references_body (replace_references n) obj parent_key
        in_eob_care_team in_provenance_agent in_careplan_care_team
  end.
End Rewriter.

(** ** Synthetic Resource Injector *)

Section Injector.
Variable py_repr : json -> string.

(** [uuid4 n] is [str(uuid.uuid4())] as drawn when [coverage_counter] is
    [n]: the random generator is outside the script. *)
Variable uuid4 : nat -> string.

(** Lines 264-267: the scan for the first Patient; [JNull] is the initial
    [patient_id = None]. *)
Fixpoint find_patient_id (entries : list json) : result json :=
  match entries with
  | [] => Ok JNull
  | entry :: rest =>
      e ← as_dict entry;
      resource ← as_dict (py_get_default "resource" (JObj []) e);
      if eq_str (py_get "resourceType" resource) "Patient"
      then Ok (py_get "id" resource)
      else find_patient_id rest
  end.

(** Lines 286-305. *)
Definition coverage_entry (coverage_id : string) (patient_id : json)
    (organization_id : string) : json :=
  JObj [
    ("fullUrl", JStr ("urn:uuid:" +:+ coverage_id));
    ("resource", JObj [
       ("resourceType", JStr "Coverage");
       ("id", JStr coverage_id);
       ("status", JStr "active");
       ("beneficiary", JObj [
          ("reference",
           JStr ("Patient/" +:+ format_value py_repr patient_id))]);
       ("payor", JList [
          JObj [("reference", JStr ("Organization/" +:+ organization_id))]])
     ]);
    ("request", JObj [("method", JStr "POST"); ("url", JStr "Coverage")])
  ].

(** Lines 311-318. *)
Definition insurance (coverage_id : string) : json :=
  JList [JObj [("focal", JBool true);
               ("coverage",
                JObj [("reference", JStr ("Coverage/" +:+ coverage_id))])]].

(** Lines 276-322: the loop that builds [new_entries]. *)
Fixpoint insert_coverage (patient_id : json) (organization_id : string)
    (entries new_entries : list json) (coverage_counter : nat)
  : result (list json) :=
  match entries with
  | [] => Ok new_entries
  | entry :: rest =>
      e ← as_dict entry;
      resource ← as_dict (py_get_default "resource" (JObj []) e);
      if eq_str (py_get "resourceType" resource) "ExplanationOfBenefit" then
        let coverage_id := uuid4 coverage_counter in
        let new_entries :=
          new_entries ++ [coverage_entry coverage_id patient_id organization_id] in
        (* [resource] is [entry["resource"]], changed in place *)
        let resource := dict_set "insurance" (insurance coverage_id) resource in
        let entry := JObj (dict_set "resource" (JObj resource) e) in
        insert_coverage patient_id organization_id rest
          (new_entries ++ [entry]) (S coverage_counter)
      else
        insert_coverage patient_id organization_id rest
          (new_entries ++ [entry]) coverage_counter
  end.

Definition add_coverage_resources (data : json) (organization_id : string)
  : result json :=
  d ← as_dict data;
  if negb (eq_str (py_get "resourceType" d) "Bundle")
     || negb (dict_mem "entry" d)
  then Ok data
  else
    entries ← py_iter (py_get "entry" d);
    patient_id ← find_patient_id entries;
    if negb (truthy patient_id) then Ok data
    else
      new_entries ← insert_coverage patient_id organization_id entries [] 1;
      Ok (JObj (dict_set "entry" (JList new_entries) d)).
End Injector.

(** ** Predicates of the statements *)

(** The entry is a dict whose [fullUrl] is a str that starts with
    [urn:uuid:]. *)
Definition has_urn_full_url (entry : json) : bool :=
  match entry with
  | JObj e =>
      match py_get_default "fullUrl" (JStr "") e with
      | JStr full_url => startswith full_url "urn:uuid:"
      | _ => false
      end
  | _ => false
  end.

(** The document restricted to the entries with a [urn:uuid:] address. *)
Definition urn_entries (data : json) : json :=
  match data with
  | JObj d =>
      match dict_get "entry" d with
      | Some (JList entries) =>
          JObj (dict_set "entry"
                  (JList (List.filter has_urn_full_url entries)) d)
      | _ => data
      end
  | _ => data
  end.

(** Every entry of the document has a [urn:uuid:] address. *)
Definition all_entries_urn (data : json) : bool :=
  match data with
  | JObj d =>
      match dict_get "entry" d with
      | Some (JList entries) => forallb has_urn_full_url entries
      | _ => true
      end
  | _ => true
  end.

(** The embedded resource of an entry, as [entry.get("resource", {})]. *)
Definition entry_resource (entry : json) : json :=
  match entry with
  | JObj e => py_get_default "resource" (JObj []) e
  | _ => JNull
  end.

(** The entry is a dict and its resource is a dict: what the loops of the
    injector read without an exception. *)
Definition well_shaped_entry (entry : json) : bool :=
  is_dict entry && is_dict (entry_resource entry).

(** The entry holds a resource of type [ty]. *)
Definition is_resource_of (ty : string) (entry : json) : bool :=
  match entry_resource entry with
  | JObj r => eq_str (py_get "resourceType" r) ty
  | _ => false
  end.

(** The [id] of the embedded resource. *)
Definition entry_resource_id (entry : json) : json :=
  match entry_resource entry with
  | JObj r => py_get "id" r
  | _ => JNull
  end.

(** The id of the first Patient resource of the entry list. *)
Definition first_patient_id (entries : list json) : option json :=
  entry_resource_id <$> List.find (is_resource_of "Patient") entries.

(** The value found by following [path] through nested objects. *)
Fixpoint get_path (path : list string) (v : json) : json :=
  match path with
  | [] => v
  | k :: rest =>
      match v with
      | JObj f => get_path rest (py_get k f)
      | _ => JNull
      end
  end.

(** [c] is a Coverage entry with id [u] for the patient and organization. *)
Definition is_coverage_for (u patient organization : string) (c : json) : Prop :=
  get_path ["fullUrl"] c = JStr ("urn:uuid:" +:+ u) /\
  get_path ["resource"; "resourceType"] c = JStr "Coverage" /\
  get_path ["resource"; "id"] c = JStr u /\
  get_path ["resource"; "status"] c = JStr "active" /\
  get_path ["resource"; "beneficiary"; "reference"] c
  = JStr ("Patient/" +:+ patient) /\
  (exists others,
     get_path ["resource"; "payor"] c
     = JList (JObj [("reference", JStr ("Organization/" +:+ organization))]
              :: others)) /\
  get_path ["request"; "method"] c = JStr "POST".

(** [e'] is the entry [e] with the [insurance] of its resource overwritten
    by the single focal link to the Coverage [u]. *)
Definition linked_to (u : string) (e e' : json) : Prop :=
  exists ef r,
    e = JObj ef /\ entry_resource e = JObj r /\
    e' = JObj (dict_set "resource"
                 (JObj (dict_set "insurance"
                          (JList [JObj [("focal", JBool true);
                                        ("coverage",
                                         JObj [("reference",
                                                JStr ("Coverage/" +:+ u))])]])
                          r)) ef).

(** [injected uuid4 patient organization n entries out]: [out] is [entries]
    in their order, with a Coverage entry put immediately before each
    ExplanationOfBenefit entry and that entry linked to it; [uuid4 n] is the
    id of the first Coverage, [uuid4 (n+1)] of the next, and so on. *)
Inductive injected (uuid4 : nat -> string) (patient organization : string)
  : nat -> list json -> list json -> Prop :=
| injected_nil n : injected uuid4 patient organization n [] []
| injected_other n e es out :
    is_resource_of "ExplanationOfBenefit" e = false ->
    injected uuid4 patient organization n es out ->
    injected uuid4 patient organization n (e :: es) (e :: out)
| injected_eob n e es c e' out :
    is_resource_of "ExplanationOfBenefit" e = true ->
    is_coverage_for (uuid4 n) patient organization c ->
    linked_to (uuid4 n) e e' ->
    injected uuid4 patient organization (S n) es out ->
    injected uuid4 patient organization n (e :: es) (c :: e' :: out).

(** *** The loop over the fields, field by field *)

(** What the loop of lines 189-232 makes of one field of the snapshot, as a
    function of the field alone: [Some None] when the key is deleted,
    [Some (Some (key, result))] when it stays with the rewritten value, and
    [None] when the recursive call ran out of fuel.  [is_eob] and
    [is_provenance] are the tests on [obj.get("resourceType")] that the loop
    makes at each turn. *)
(** The value that the loop passes to the recursive call: the dosage items
    of a MedicationRequest without their [additionalInstruction]. *)
Definition passed_value (is_medication_request : bool) (key : string)
    (value : json) : json :=
  if is_medication_request && String.eqb key "dosageInstruction"
     && is_list value
  then strip_additional_instruction value else value.

Definition field_result (rec : rec_call)
    (is_observation is_careplan is_medication_request is_eob is_provenance : bool)
    (kv : string * json) : option (option (string * json)) :=
  let '(key, value) := kv in
  if String.eqb key "period" then Some None
  else if is_observation && String.eqb key "valueCodeableConcept"
  then Some None
  else
    let value := passed_value is_medication_request key value in
    result ← rec value (Some key)
               (String.eqb key "careTeam" && is_list value && is_eob)
               (String.eqb key "agent" && is_list value && is_provenance)
               (String.eqb key "careTeam" && is_list value && is_careplan);
    Some (if is_none result then None else Some (key, result)).

Fixpoint rewrite_fields (rec : rec_call)
    (is_observation is_careplan is_medication_request is_eob is_provenance : bool)
    (fields : obj_fields) : option obj_fields :=
  match fields with
  | [] => Some []
  | kv :: rest =>
      o ← field_result rec is_observation is_careplan is_medication_request
            is_eob is_provenance kv;
      rest' ← rewrite_fields rec is_observation is_careplan
                is_medication_request is_eob is_provenance rest;
      Some (match o with Some kv' => kv' :: rest' | None => rest' end)
  end.

(** The items that the list loop keeps. *)
Fixpoint rewrite_items (rec1 : json -> option json) (items : list json)
  : option (list json) :=
  match items with
  | [] => Some []
  | item :: rest =>
      result ← rec1 item;
      rest' ← rewrite_items rec1 rest;
      Some (if is_none result then rest' else result :: rest')
  end.

(** No object of the tree, at any depth, has a field [period]. *)
Fixpoint no_period (v : json) : bool :=
  match v with
  | JList l => forallb no_period l
  | JObj f =>
      negb (dict_mem "period" f) && forallb (fun kv => no_period (snd kv)) f
  | _ => true
  end.

(** The two fields that a CarePlan.careTeam reference may keep. *)
Definition care_team_keys (f : obj_fields) : bool :=
  forallb (fun k => String.eqb k "reference" || String.eqb k "display")
    (dict_keys f).

(** The items of a list that are objects have no field [k]. *)
Definition items_lack (k : string) (items : list json) : bool :=
  forallb (fun item => match item with
                       | JObj f => negb (dict_mem k f)
                       | _ => true
                       end) items.

(** Lines 163-185 in one step: the fields as the loop finds them. *)
Definition prepare_fields (organization_id practitioner_id : option string)
    (in_eob_care_team in_provenance_agent in_careplan_care_team : bool)
    (obj : obj_fields) : obj_fields :=
  add_who practitioner_id in_provenance_agent
    (clean_careplan_care_team in_careplan_care_team
       (add_provider organization_id in_eob_care_team obj)).

(** Keys pairwise distinct, here and below. *)
Definition fields_wf (f : obj_fields) : Prop :=
  NoDup (map fst f) /\ Forall (fun kv => json_wf (snd kv) = true) f.

(** The object that the rewriter injects as [provider] or [who]. *)
Definition reference_object (ref_value : string) : json :=
  JObj [("reference", JStr ref_value)].

(** The reference string reaches the identifier branch (line 121). *)
Definition identifier_shaped (ref_value : string) : bool :=
  negb (startswith ref_value "urn:uuid:")
  && (str_contains "?identifier=" ref_value && str_contains "|" ref_value).

(** The reference string reaches the ResourceType/ID branch (line 141). *)
Definition bare_reference (ref_value : string) : bool :=
  negb (startswith ref_value "urn:uuid:")
  && negb (str_contains "?identifier=" ref_value && str_contains "|" ref_value)
  && negb (startswith ref_value "#")
  && str_contains "/" ref_value.

(** What the reference checks make of the one-field object with the
    reference [ref_value] = ["<Type>/" +:+ id], for a type name without
    [?], [|] or [/]: the identifier branch is entered, without a match,
    when [id] holds both [?identifier=] and [|]; the ResourceType/ID branch
    otherwise. *)
Definition resolve_bare_id (py_repr : json -> string)
    (identifier_map : gmap hkey (json * json)) (ref_value id : string)
  : resolved :=
  if str_contains "?identifier=" id && str_contains "|" id
  then Keep [("reference", JStr ref_value)]
  else if is_uuid_format id then Keep [("reference", JStr ref_value)]
  else match identifier_map !! HStr id with
       | Some (mapped_type, mapped_id) =>
           Keep [("reference",
                  JStr (format_value py_repr mapped_type +:+ "/"
                        +:+ format_value py_repr mapped_id))]
       | None => Remove
       end.

(** The item without its field [k], when it is an object. *)
Definition without_field (k : string) (item : json) : json :=
  match item with
  | JObj f => JObj (dict_del k f)
  | _ => item
  end.

(** ** Instances for the examples *)

(** The examples format strings only, and hold ASCII characters only: the
    rendering of the other values and the classification of the characters
    above 127 play no part in them. *)
Definition repr_unused (v : json) : string := "".
Definition ascii_only (c : ascii) : bool := false.

(** Two draws of the UUID generator. *)
Definition sample_uuid4 (coverage_counter : nat) : string :=
  match coverage_counter with
  | 1 => "0f8fad5b-d9cb-469f-a165-70867728950e"
  | _ => "7c9e6679-7425-40de-944b-e07fc1f90ae7"
  end.

Definition sample_uuid : string := "6c0b7f20-5c92-efd9-779b-c9ac40656b44".

(** [rec'] answers wherever [rec] does, and the same. *)
Definition extends (rec rec' : rec_call) : Prop :=
  forall v pk e p c r, rec v pk e p c = Some r -> rec' v pk e p c = Some r.

(** An ASCII letter or digit, as in the name of a resource type. *)
Definition ascii_alnum (c : ascii) : bool :=
  in_range 48 57 c || in_range 65 90 c || in_range 97 122 c.

Fixpoint all_chars (p : ascii -> bool) (s : string) : bool :=
  match s with
  | EmptyString => true
  | String c r => p c && all_chars p r
  end.

Fixpoint has_char (c : ascii) (s : string) : bool :=
  match s with
  | EmptyString => false
  | String a r => Ascii.eqb a c || has_char c r
  end.

(** ** The identifier rule, in the words of the statement *)

(** The entries of a Bundle; a document that is no Bundle, or has no
    [entry] list, has none. *)
Definition document_entries (data : json) : list json :=
  match data with
  | JObj d =>
      if eq_str (py_get "resourceType" d) "Bundle" then
        match dict_get "entry" d with
        | Some (JList entries) => entries
        | _ => []
        end
      else []
  | _ => []
  end.

(** What one entry contributes: when its resource has both a type and an
    id, the pair (value, (type, id)) for each object of its [identifier]
    list that has a non-empty [value], in the order of the list. *)
Definition entry_identifiers (entry : json)
  : list (json * (json * json)) :=
  match entry_resource entry with
  | JObj resource =>
      let resource_type := py_get "resourceType" resource in
      let resource_id := py_get "id" resource in
      if truthy resource_type && truthy resource_id then
        match dict_get "identifier" resource with
        | Some (JList identifiers) =>
            flat_map
              (fun identifier =>
                 match identifier with
                 | JObj f =>
                     if truthy (py_get "value" f)
                     then [(py_get "value" f, (resource_type, resource_id))]
                     else []
                 | _ => []
                 end)
              identifiers
        | _ => []
        end
      else []
  | _ => []
  end.

(** The map that holds value ↦ (type, id) for each contribution, a later
    one replacing an earlier one with the same value. *)
Definition add_identifier_bindings
    (contributions : list (json * (json * json)))
    (m : gmap hkey (json * json)) : gmap hkey (json * json) :=
  fold_left (fun m c =>
               match hash_key (fst c) with
               | Ok k => <[k := snd c]> m
               | Raise _ => m
               end) contributions m.

Definition identifier_bindings
    (contributions : list (json * (json * json)))
  : gmap hkey (json * json) :=
  add_identifier_bindings contributions ∅.

(** ** Further predicates *)

(** No field and no list item of the tree, at any depth, is [null]. *)
Fixpoint no_null_inside (v : json) : bool :=
  match v with
  | JList l => forallb (fun x => negb (is_none x) && no_null_inside x) l
  | JObj f =>
      forallb (fun kv => negb (is_none (snd kv)) && no_null_inside (snd kv)) f
  | _ => true
  end.

(** *** The UUID shape, character by character *)

(** The sixteen hexadecimal digits, the letters in both cases. *)
Definition hex_digits : list ascii :=
  list_ascii_of_string "0123456789abcdefABCDEF".

(** [s] is made of exactly [n] hexadecimal digits. *)
Definition hex_group (n : nat) (s : string) : bool :=
  Nat.eqb (String.length s) n
  && forallb (fun c => existsb (Ascii.eqb c) hex_digits)
       (list_ascii_of_string s).

(** Five groups of 8, 4, 4, 4 and 12 hexadecimal digits, joined by
    hyphens. *)
Definition uuid_shaped (u : string) : Prop :=
  exists g1 g2 g3 g4 g5,
    hex_group 8 g1 = true /\ hex_group 4 g2 = true /\
    hex_group 4 g3 = true /\ hex_group 4 g4 = true /\
    hex_group 12 g5 = true /\
    u = g1 +:+ "-" +:+ g2 +:+ "-" +:+ g3 +:+ "-" +:+ g4 +:+ "-" +:+ g5.

(** A key that a truthy value hashes to: not [None], not the empty string,
    not zero. *)
Definition truthy_key (k : hkey) : Prop :=
  match k with
  | HStr s => s <> EmptyString
  | HInt n => n <> 0%Z
  | HNone => False
  end.

(** Every binding of an identifier map has a truthy key, resource type and
    resource id. *)
Definition identifier_bindings_truthy (m : gmap hkey (json * json)) : Prop :=
  map_Forall (fun k v => truthy_key k /\ truthy (fst v) = true
                         /\ truthy (snd v) = true) m.

(** The binding [uuid ↦ resource_type] is what the builder records for
    [entry]. *)
Definition uuid_binding_of (entry : json) (uuid : string)
    (resource_type : json) : Prop :=
  exists e full_url r,
    entry = JObj e /\
    py_get_default "fullUrl" (JStr "") e = JStr full_url /\
    startswith full_url "urn:uuid:" = true /\
    uuid = str_replace "urn:uuid:" "" full_url /\
    py_get_default "resource" (JObj []) e = JObj r /\
    py_get "resourceType" r = resource_type /\
    truthy resource_type = true.

(** *** Trees with nothing to rewrite *)

(** The object is not of one of the five resource types that the loop
    treats apart. *)
Definition plain_resource (fields : obj_fields) : bool :=
  let resource_type := py_get "resourceType" fields in
  negb (eq_str resource_type "Observation"
        || eq_str resource_type "CarePlan"
        || eq_str resource_type "MedicationRequest"
        || eq_str resource_type "ExplanationOfBenefit"
        || eq_str resource_type "Provenance").

Section Inert.
Variable py_repr : json -> string.
Variable unicode_alnum : ascii -> bool.
Variable uuid_map : gmap string json.
Variable identifier_map : gmap hkey (json * json).

(** Nothing in the tree is [null]; every object of it, at any depth, is of
    a plain type, has no field [period], and the reference checks leave it
    as it is. *)
Fixpoint inert (v : json) : Prop :=
  match v with
  | JNull => False
  | JList l => fold_right (fun item P => inert item /\ P) True l
  | JObj f =>
      resolve_reference py_repr unicode_alnum uuid_map identifier_map f
      = Keep f /\
      plain_resource f = true /\
      dict_mem "period" f = false /\
      fold_right (fun kv P => inert (snd kv) /\ P) True f
  | _ => True
  end.
End Inert.

(** ** One file, from reading to writing back *)

(** The number of entries that hold a resource of type [ty]. *)
Definition count_resources (ty : string) (entries : list json) : nat :=
  length (List.filter (is_resource_of ty) entries).

Section Pipeline.
Variable py_repr : json -> string.
Variable unicode_alnum : ascii -> bool.
Variable uuid4 : nat -> string.

(** Lines 351-355: [{**global_identifier_map, **local_identifier_map}] when
    the global map is given and not empty, the local map otherwise. *)
Definition merged_identifier_map
    (global_identifier_map local_identifier_map : gmap hkey (json * json))
  : gmap hkey (json * json) :=
  if decide (size global_identifier_map = 0) then local_identifier_map
  else local_identifier_map ∪ global_identifier_map.

(** [process_json_file], lines 340-372.  The file is the document that it
    parses to, or [None] when reading or parsing it fails; the result is the
    document that is written back, or [None] when an exception ends the
    [try] and nothing is written.  The two maps hold the types and ids of
    the resources by value, which is what the source formats as long as no
    [resourceType] or [id] of a resource is itself a dict or a list.  The
    keys of a parsed document are distinct, for which [json_depth data + 2]
    is fuel enough. *)
Definition process_json_file (file : option json)
    (global_identifier_map : gmap hkey (json * json))
    (organization_id practitioner_id : string) : option json :=
  match file with
  | None => None
  | Some data =>
      match build_uuid_to_resource_type_map data with
      | Raise _ => None
      | Ok (uuid_map, local_identifier_map) =>
          let identifier_map :=
            merged_identifier_map global_identifier_map
              local_identifier_map in
          match add_coverage_resources py_repr uuid4 data organization_id with
          | Raise _ => None
          | Ok data =>
              replace_references py_repr unicode_alnum uuid_map
                identifier_map (Some organization_id) (Some practitioner_id)
                (json_depth data + 2) data None false false false
          end
      end
  end.
End Pipeline.

(** ** The Organization file *)

(** Lines 431-460. *)
Definition organization_bundle (organization_id : string) : json :=
  JObj [
    ("resourceType", JStr "Bundle");
    ("type", JStr "batch");
    ("entry", JList [
       JObj [
         ("fullUrl", JStr ("urn:uuid:" +:+ organization_id));
         ("resource", JObj [
            ("resourceType", JStr "Organization");
            ("id", JStr organization_id);
            ("active", JBool true);
            ("type", JList [
               JObj [("coding", JList [
                  JObj [("system",
                         JStr "http://terminology.hl7.org/CodeSystem/organization-type");
                        ("code", JStr "prov");
                        ("display", JStr "Healthcare Provider")]])]]);
            ("name", JStr "Healthcare Organization")]);
         ("request", JObj [("method", JStr "POST");
                           ("url", JStr "Organization")])]])
  ].

(** [create_organization_file], lines 423-464: what is written to
    [organizationInformation.json], or [None] when the file exists and is
    left as it is. *)
Definition create_organization_file (file_exists : bool)
    (organization_id : string) : option json :=
  if file_exists then None else Some (organization_bundle organization_id).

(** ** A small bundle for the examples *)

Definition sample_patient_entry : json :=
  JObj [("fullUrl", JStr ("urn:uuid:" +:+ sample_uuid));
        ("resource",
         JObj [("resourceType", JStr "Patient");
               ("id", JStr sample_uuid);
               ("identifier",
                JList [JObj [("system", JStr "http://hospital.example/mrn");
                             ("value", JStr "MRN-1")]])])].

Definition sample_claim_entry : json :=
  JObj [("fullUrl", JStr "urn:uuid:3fa85f64-5717-4562-b3fc-2c963f66afa6");
        ("resource",
         JObj [("resourceType", JStr "ExplanationOfBenefit");
               ("id", JStr "3fa85f64-5717-4562-b3fc-2c963f66afa6");
               ("patient",
                JObj [("reference", JStr ("urn:uuid:" +:+ sample_uuid))]);
               ("billablePeriod",
                JObj [("period", JObj [("start", JStr "2020-01-01")])])])].

Definition sample_bundle_fields : list (string * json) :=
  [("resourceType", JStr "Bundle");
   ("type", JStr "transaction");
   ("entry", JList [sample_patient_entry; sample_claim_entry])].

Definition sample_bundle : json := JObj sample_bundle_fields.

(** * Properties *)

(** ** Dictionaries *)

Section DictFacts.
Context {V : Type}.
Implicit Types (d : list (string * V)) (k : string) (v : V).

Lemma dict_get_set_eq k v d : dict_get k (dict_set k v d) = Some v.
Proof.
  induction d as [|[k' v'] d IH]; simpl.
  - now rewrite String.eqb_refl.
  - destruct (String.eqb_spec k' k) as [->|Hne]; simpl.
    + now rewrite String.eqb_refl.
    + destruct (String.eqb_spec k' k); [contradiction|exact IH].
Qed.

Lemma dict_get_set_ne k k' v d :
  k <> k' -> dict_get k (dict_set k' v d) = dict_get k d.
Proof.
  intros Hne. induction d as [|[k0 v0] d IH]; simpl.
  - destruct (String.eqb_spec k' k); [congruence|reflexivity].
  - destruct (String.eqb_spec k0 k') as [->|Hne']; simpl.
    + destruct (String.eqb_spec k' k); [congruence|reflexivity].
    + destruct (String.eqb_spec k0 k); [reflexivity|exact IH].
Qed.

Lemma dict_set_same k v d : dict_get k d = Some v -> dict_set k v d = d.
Proof.
  induction d as [|[k' v'] d IH]; simpl; [discriminate|].
  destruct (String.eqb_spec k' k) as [->|Hne].
  - now intros [= ->].
  - intros H. now rewrite IH.
Qed.

Lemma dict_mem_set_ne k k' v d :
  k <> k' -> dict_mem k (dict_set k' v d) = dict_mem k d.
Proof. intros H. unfold dict_mem. now rewrite dict_get_set_ne. Qed.

Lemma dict_mem_set_eq k v d : dict_mem k (dict_set k v d) = true.
Proof. unfold dict_mem. now rewrite dict_get_set_eq. Qed.

Lemma dict_get_del_eq k d : dict_get k (dict_del k d) = None.
Proof.
  induction d as [|[k' v'] d IH]; simpl; [reflexivity|].
  destruct (String.eqb_spec k' k) as [->|Hne]; simpl; [exact IH|].
  destruct (String.eqb_spec k' k); [contradiction|exact IH].
Qed.

Lemma dict_get_del_ne k k' d :
  k <> k' -> dict_get k (dict_del k' d) = dict_get k d.
Proof.
  intros Hne. induction d as [|[k0 v0] d IH]; simpl; [reflexivity|].
  destruct (String.eqb_spec k0 k') as [->|Hne']; simpl.
  - destruct (String.eqb_spec k' k); [congruence|exact IH].
  - destruct (String.eqb_spec k0 k); [reflexivity|exact IH].
Qed.

Lemma dict_get_none_keys k d : dict_get k d = None <-> ~ In k (map fst d).
Proof.
  induction d as [|[k' v'] d IH]; simpl; [tauto|].
  destruct (String.eqb_spec k' k) as [->|Hne].
  - split; [discriminate|]. intros H. exfalso. apply H. now left.
  - rewrite IH. split; [intros H [?|?]; tauto | tauto].
Qed.

Lemma dict_get_some_in k v d : dict_get k d = Some v -> In (k, v) d.
Proof.
  induction d as [|[k' v'] d IH]; simpl; [discriminate|].
  destruct (String.eqb_spec k' k) as [->|Hne].
  - intros [= ->]. now left.
  - intros H. right. now apply IH.
Qed.

Lemma dict_get_app_notin k d1 d2 :
  ~ In k (map fst d1) -> dict_get k (d1 ++ d2) = dict_get k d2.
Proof.
  induction d1 as [|[k' v'] d1 IH]; simpl; [reflexivity|].
  intros H. destruct (String.eqb_spec k' k) as [->|Hne]; [tauto|].
  apply IH. tauto.
Qed.

Lemma dict_set_app_notin k v d1 d2 :
  ~ In k (map fst d1) -> dict_set k v (d1 ++ d2) = d1 ++ dict_set k v d2.
Proof.
  induction d1 as [|[k' v'] d1 IH]; simpl; [reflexivity|].
  intros H. destruct (String.eqb_spec k' k) as [->|Hne]; [tauto|].
  rewrite IH; tauto.
Qed.

Lemma dict_set_keys_present k v d :
  In k (map fst d) -> map fst (dict_set k v d) = map fst d.
Proof.
  induction d as [|[k' v'] d IH]; simpl; [tauto|].
  destruct (String.eqb_spec k' k) as [->|Hne]; [reflexivity|].
  intros [?|H]; [contradiction|]. simpl. now rewrite IH.
Qed.

Lemma dict_set_keys_absent k v d :
  ~ In k (map fst d) -> dict_set k v d = d ++ [(k, v)].
Proof.
  induction d as [|[k' v'] d IH]; simpl; [reflexivity|].
  intros H. destruct (String.eqb_spec k' k) as [->|Hne]; [tauto|].
  rewrite IH; tauto.
Qed.
End DictFacts.

(** ** Index builder and aggregator *)

(** Reduction of the exception monad on a known outcome. *)
Ltac result_simpl :=
  cbn [as_dict as_str mbind result_bind mret result_ret].

Lemma filter_all_id {A} (p : A -> bool) (l : list A) :
  forallb p l = true -> List.filter p l = l.
Proof.
  induction l as [|a l IH]; simpl; [reflexivity|].
  destruct (p a); simpl; [|discriminate]. intros H. now rewrite IH.
Qed.

Lemma urn_entries_all data :
  all_entries_urn data = true -> urn_entries data = data.
Proof.
  destruct data as [| | | | |d]; try reflexivity. simpl.
  destruct (dict_get "entry" d) as [[| | | |entries|]|] eqn:E; try reflexivity.
  intros H. rewrite filter_all_id by exact H. now rewrite dict_set_same.
Qed.

(** What one turn of the builder's loop does to the identifier map is what
    the aggregator does on the same entry, when its address starts with
    [urn:uuid:]; otherwise the builder leaves the map as it is. *)
Lemma index_entry_aggregate um im entry um' im' :
  index_entry (um, im) entry = Ok (um', im') ->
  if has_urn_full_url entry then aggregate_entry im entry = (im', None)
  else im' = im.
Proof.
  unfold index_entry, aggregate_entry, has_urn_full_url, mbind, result_bind.
  destruct entry as [| | | | |e]; try discriminate. simpl.
  destruct (py_get_default "fullUrl" (JStr "") e) as [| | |u| |];
    try discriminate. simpl.
  destruct (startswith u "urn:uuid:"); [|now intros [= _ ->]].
  destruct (py_get_default "resource" (JObj []) e) as [| | | | |r];
    try discriminate. simpl.
  destruct (resource_identifiers _ _ r im) as [m [err|]]; [discriminate|].
  now intros [= _ ->].
Qed.

Lemma index_entries_aggregate entries : forall um im um' im',
  index_entries (um, im) entries = Ok (um', im') ->
  aggregate_entries im (List.filter has_urn_full_url entries) = (im', None).
Proof.
  induction entries as [|entry rest IH]; intros um im um' im'.
  - now intros [= _ ->].
  - change (index_entries (um, im) (entry :: rest))
      with (match index_entry (um, im) entry with
            | Ok st' => index_entries st' rest
            | Raise e => Raise e
            end).
    destruct (index_entry (um, im) entry) as [[um1 im1]|err] eqn:E;
      [|discriminate].
    intros H. apply index_entry_aggregate in E.
    cbn [List.filter]. destruct (has_urn_full_url entry).
    + change (aggregate_entries im (entry :: List.filter has_urn_full_url rest))
        with (match aggregate_entry im entry with
              | (m, None) =>
                  aggregate_entries m (List.filter has_urn_full_url rest)
              | (m, Some err) => (m, Some err)
              end).
      rewrite E. eapply IH, H.
    + subst im1. eapply IH, H.
Qed.

Lemma aggregate_document_entry m d entries :
  dict_mem "entry" d = true ->
  aggregate_document m (JObj (dict_set "entry" (JList entries) d))
  = if eq_str (py_get "resourceType" d) "Bundle"
    then aggregate_entries m entries else (m, None).
Proof.
  intros _. unfold aggregate_document. cbn [as_dict].
  rewrite dict_mem_set_eq. unfold py_get.
  rewrite (dict_get_set_ne "resourceType" "entry") by discriminate.
  rewrite dict_get_set_eq.
  now destruct (eq_str _ "Bundle").
Qed.

(** *** The builder and the aggregator against the rule of the statement *)

Lemma add_identifier_bindings_app c1 c2 m :
  add_identifier_bindings (c1 ++ c2) m
  = add_identifier_bindings c2 (add_identifier_bindings c1 m).
Proof. apply fold_left_app. Qed.

(** What an object of the [identifier] list contributes. *)
Lemma record_identifiers_bindings resource_type resource_id identifiers :
  forall m m',
  record_identifiers resource_type resource_id identifiers m = (m', None) ->
  m' = add_identifier_bindings
         (flat_map
            (fun identifier =>
               match identifier with
               | JObj f =>
                   if truthy (py_get "value" f)
                   then [(py_get "value" f, (resource_type, resource_id))]
                   else []
               | _ => []
               end) identifiers) m.
Proof.
  induction identifiers as [|identifier rest IH]; intros m m';
    cbn [record_identifiers flat_map].
  - now intros [= <-].
  - destruct identifier as [| | | | |f]; try (cbn [app]; now apply IH).
    destruct (truthy (py_get "value" f)); [|cbn [app]; now apply IH].
    destruct (hash_key (py_get "value" f)) as [k|err] eqn:Ek;
      [|discriminate].
    intros H%IH. rewrite H. cbn [app].
    unfold add_identifier_bindings at 2. cbn [fold_left fst snd].
    now rewrite Ek.
Qed.

(** A list without objects contributes nothing. *)
Lemma record_identifiers_no_object resource_type resource_id identifiers m :
  Forall (fun identifier => is_dict identifier = false) identifiers ->
  record_identifiers resource_type resource_id identifiers m = (m, None).
Proof.
  induction 1 as [|identifier rest Hi _ IH]; [reflexivity|].
  cbn [record_identifiers]. now destruct identifier.
Qed.

Lemma chars_no_object s :
  Forall (fun v => is_dict v = false) (chars s).
Proof. induction s; cbn [chars]; constructor; auto. Qed.

Lemma keys_no_object (f : list (string * json)) :
  Forall (fun v => is_dict v = false) (map (fun kv => JStr (fst kv)) f).
Proof. induction f; cbn [map]; constructor; auto. Qed.

Lemma aggregate_entry_bindings m entry m' :
  aggregate_entry m entry = (m', None) ->
  m' = add_identifier_bindings (entry_identifiers entry) m.
Proof.
  unfold aggregate_entry, entry_identifiers, entry_resource.
  destruct entry as [| | | | |e]; try discriminate. cbn [as_dict].
  destruct (py_get_default "resource" (JObj []) e) as [| | | | |r];
    try discriminate. cbn [as_dict].
  unfold resource_identifiers.
  destruct (truthy (py_get "resourceType" r) && truthy (py_get "id" r));
    [|now intros [= <-]].
  unfold py_get_default.
  destruct (dict_get "identifier" r) as [[| | |s|identifiers|f]|];
    cbn [py_iter]; try discriminate.
  - rewrite record_identifiers_no_object by apply chars_no_object.
    now intros [= <-].
  - apply record_identifiers_bindings.
  - rewrite record_identifiers_no_object by apply keys_no_object.
    now intros [= <-].
  - now intros [= <-].
Qed.

Lemma aggregate_entries_bindings entries : forall m m',
  aggregate_entries m entries = (m', None) ->
  m' = add_identifier_bindings (flat_map entry_identifiers entries) m.
Proof.
  induction entries as [|entry rest IH]; intros m m';
    cbn [aggregate_entries flat_map].
  - now intros [= <-].
  - destruct (aggregate_entry m entry) as [m1 [err|]] eqn:E;
      [discriminate|].
    intros H%IH. apply aggregate_entry_bindings in E.
    now rewrite add_identifier_bindings_app, <- E.
Qed.

(** Iterating over something that is no list of objects: nothing, or an
    exception at the first item. *)
Lemma aggregate_entries_no_object entries m m' :
  Forall (fun v => is_dict v = false) entries ->
  aggregate_entries m entries = (m', None) -> entries = [].
Proof.
  intros H. destruct H as [|entry rest He _]; [reflexivity|].
  cbn [aggregate_entries]. unfold aggregate_entry.
  destruct entry; try discriminate.
Qed.

Lemma aggregate_document_bindings m data m' :
  aggregate_document m data = (m', None) ->
  m' = add_identifier_bindings
         (flat_map entry_identifiers (document_entries data)) m.
Proof.
  unfold aggregate_document, document_entries.
  destruct data as [| | | | |d]; try discriminate. cbn [as_dict].
  unfold dict_mem, py_get at 2.
  destruct (eq_str (py_get "resourceType" d) "Bundle");
    [|now intros [= <-]]. cbn [andb].
  destruct (dict_get "entry" d) as [[| | |s|entries|f]|];
    cbn [py_iter]; try discriminate.
  - intros H.
    rewrite (aggregate_entries_no_object _ _ _ (chars_no_object s) H) in H.
    now injection H as <-.
  - apply aggregate_entries_bindings.
  - intros H.
    rewrite (aggregate_entries_no_object _ _ _ (keys_no_object f) H) in H.
    now injection H as <-.
  - now intros [= <-].
Qed.

Lemma document_entries_urn data :
  document_entries (urn_entries data)
  = List.filter has_urn_full_url (document_entries data).
Proof.
  destruct data as [| | | | |d]; try reflexivity.
  unfold urn_entries.
  destruct (dict_get "entry" d) as [[| | | |entries|]|] eqn:E;
    cbn [document_entries]; rewrite ?E;
    try (now destruct (eq_str _ "Bundle")).
  unfold py_get.
  rewrite (dict_get_set_ne "resourceType" "entry") by discriminate.
  rewrite dict_get_set_eq.
  now destruct (eq_str _ "Bundle").
Qed.

(** C1 fails as stated: an entry addressed otherwise than by [urn:uuid:]
    gives its identifiers to the aggregator and not to the builder. *)
Lemma identifier_maps_differ :
  let data :=
    JObj [("resourceType", JStr "Bundle");
          ("entry", JList [
             JObj [("fullUrl", JStr "http://example.org/Patient/1");
                   ("resource", JObj [
                      ("resourceType", JStr "Patient");
                      ("id", JStr "1");
                      ("identifier", JList [JObj [("value", JStr "MRN-1")]])])]])] in
  build_uuid_to_resource_type_map data = Ok (∅, ∅) /\
  build_global_identifier_map [Some data]
  = {[ HStr "MRN-1" := (JStr "Patient", JStr "1") ]}.
Proof. split; reflexivity. Qed.

(** C1, as amended: the builder extracts identifiers only from the entries
    whose [fullUrl] starts with [urn:uuid:].  For a document that the builder
    accepts, its local identifier map holds value ↦ (type, id) for each
    identifier object with a non-empty value of each such entry whose
    resource has a type and an id, and nothing else; it is the aggregator's
    map of the document restricted to those entries, and is the aggregator's
    map of the document itself when all entries are of that kind.  The
    aggregator, when it meets no exception, holds the same bindings for
    all the entries, whatever their [fullUrl]. *)
Theorem local_identifiers_are_urn_entries data uuid_map identifier_map :
  build_uuid_to_resource_type_map data = Ok (uuid_map, identifier_map) ->
  identifier_map
  = identifier_bindings
      (flat_map entry_identifiers
         (List.filter has_urn_full_url (document_entries data))) /\
  build_global_identifier_map [Some (urn_entries data)] = identifier_map /\
  (all_entries_urn data = true ->
   build_global_identifier_map [Some data] = identifier_map) /\
  (snd (aggregate_document ∅ data) = None ->
   build_global_identifier_map [Some data]
   = identifier_bindings
       (flat_map entry_identifiers (document_entries data))).
Proof.
  intros H.
  assert (Hagg : aggregate_document ∅ (urn_entries data)
                 = (identifier_map, None)).
  { unfold build_uuid_to_resource_type_map, mbind, result_bind in H.
    destruct data as [| | | | |d]; try discriminate. cbn [as_dict] in H.
    unfold urn_entries.
    destruct (dict_get "entry" d) as [[| | | |entries|fs]|] eqn:E.
    5: { rewrite aggregate_document_entry by (unfold dict_mem; now rewrite E).
         unfold dict_mem, py_get in H. rewrite E in H.
         destruct (eq_str _ "Bundle"); cbn in H.
         - now apply index_entries_aggregate in H.
         - now injection H as _ <-. }
    all: unfold aggregate_document; cbn [as_dict].
    all: unfold dict_mem, py_get at 2 in H; unfold dict_mem, py_get at 2.
    all: rewrite E in *.
    all: destruct (eq_str _ "Bundle"); cbn in H |- *; try congruence.
    - destruct s; cbn in H |- *; [congruence|discriminate].
    - destruct fs as [|[k v] fs]; cbn in H |- *; [congruence|discriminate]. }
  assert (Hmain : build_global_identifier_map [Some (urn_entries data)]
                  = identifier_map).
  { unfold build_global_identifier_map.
    cbn [build_global_identifier_map_from]. now rewrite Hagg. }
  split; [|split; [exact Hmain|split]].
  - apply aggregate_document_bindings in Hagg.
    now rewrite document_entries_urn in Hagg.
  - intros Hall. now rewrite <- (urn_entries_all data Hall).
  - unfold build_global_identifier_map.
    cbn [build_global_identifier_map_from].
    destruct (aggregate_document ∅ data) as [m o] eqn:Ea. cbn [fst snd].
    intros ->. now apply aggregate_document_bindings in Ea.
Qed.

Lemma local_identifiers_are_urn_entries_witness :
  let data :=
    JObj [("resourceType", JStr "Bundle");
          ("entry", JList [
             JObj [("fullUrl", JStr "urn:uuid:7");
                   ("resource", JObj [
                      ("resourceType", JStr "Patient");
                      ("id", JStr "7");
                      ("identifier", JList [JObj [("value", JStr "MRN-7")]])])];
             JObj [("fullUrl", JStr "Patient/8");
                   ("resource", JObj [
                      ("resourceType", JStr "Patient");
                      ("id", JStr "8");
                      ("identifier", JList [JObj [("value", JStr "MRN-8")]])])]])] in
  ({[ HStr "MRN-7" := (JStr "Patient", JStr "7") ]}
   : gmap hkey (json * json))
  = identifier_bindings
      (flat_map entry_identifiers
         (List.filter has_urn_full_url (document_entries data))) /\
  build_global_identifier_map [Some (urn_entries data)]
  = {[ HStr "MRN-7" := (JStr "Patient", JStr "7") ]} /\
  build_global_identifier_map [Some data]
  = identifier_bindings
      (flat_map entry_identifiers (document_entries data)).
Proof.
  intros data.
  destruct (local_identifiers_are_urn_entries data
              {[ "7" := JStr "Patient" ]}
              {[ HStr "MRN-7" := (JStr "Patient", JStr "7") ]} eq_refl)
    as (H1 & H2 & _ & H4).
  split; [exact H1|]. split; [exact H2|]. exact (H4 eq_refl).
Defined.

(** ** Coverage injector *)

Section InjectorFacts.
Variable py_repr : json -> string.
Variable uuid4 : nat -> string.

Lemma well_shaped_entry_inv entry :
  well_shaped_entry entry = true ->
  exists e r, entry = JObj e /\ py_get_default "resource" (JObj []) e = JObj r.
Proof.
  unfold well_shaped_entry. destruct entry as [| | | | |e]; try discriminate.
  cbn. destruct (py_get_default "resource" (JObj []) e) as [| | | | |r] eqn:E;
    try discriminate.
  intros _. now exists e, r.
Qed.

Lemma is_resource_of_obj ty e r :
  py_get_default "resource" (JObj []) e = JObj r ->
  is_resource_of ty (JObj e) = eq_str (py_get "resourceType" r) ty.
Proof. intros H. unfold is_resource_of. cbn. now rewrite H. Qed.

Lemma entry_resource_id_obj e r :
  py_get_default "resource" (JObj []) e = JObj r ->
  entry_resource_id (JObj e) = py_get "id" r.
Proof. intros H. unfold entry_resource_id. cbn. now rewrite H. Qed.

(** The scan of the source finds the id of the first Patient. *)
Lemma find_patient_id_first entries :
  forallb well_shaped_entry entries = true ->
  find_patient_id entries
  = Ok (match first_patient_id entries with Some id => id | None => JNull end).
Proof.
  unfold first_patient_id.
  induction entries as [|entry rest IH]; [reflexivity|].
  cbn [forallb find_patient_id List.find]. intros [Hw Hr]%andb_prop.
  destruct (well_shaped_entry_inv _ Hw) as (e & r & -> & Hres).
  rewrite (is_resource_of_obj _ _ _ Hres).
  result_simpl. rewrite Hres. result_simpl.
  destruct (eq_str (py_get "resourceType" r) "Patient") eqn:Ep.
  - cbn [fmap option_fmap option_map]. now rewrite (entry_resource_id_obj _ _ Hres).
  - now apply IH.
Qed.

(** The scan looks at nothing behind the first Patient. *)
Lemma find_patient_id_stops pre patient post :
  forallb well_shaped_entry pre = true ->
  forallb (fun e => negb (is_resource_of "Patient" e)) pre = true ->
  well_shaped_entry patient = true ->
  is_resource_of "Patient" patient = true ->
  find_patient_id (pre ++ patient :: post) = Ok (entry_resource_id patient).
Proof.
  intros Hw Hn Hp Hip.
  induction pre as [|entry rest IH]; cbn [app find_patient_id].
  - destruct (well_shaped_entry_inv _ Hp) as (e & r & -> & Hres).
    rewrite (is_resource_of_obj _ _ _ Hres) in Hip.
    rewrite (entry_resource_id_obj _ _ Hres).
    result_simpl. rewrite Hres. result_simpl.
    now rewrite Hip.
  - cbn [forallb] in Hw, Hn.
    apply andb_prop in Hw as [Hw Hw'], Hn as [Hn Hn'].
    destruct (well_shaped_entry_inv _ Hw) as (e & r & -> & Hres).
    rewrite (is_resource_of_obj _ _ _ Hres) in Hn.
    result_simpl. rewrite Hres. result_simpl.
    apply negb_true_iff in Hn. rewrite Hn. now apply IH.
Qed.

Lemma coverage_entry_shape u patient_id organization_id :
  is_coverage_for u (format_value py_repr patient_id) organization_id
    (coverage_entry py_repr u patient_id organization_id).
Proof. unfold is_coverage_for. repeat split. now exists []. Qed.

(** The loop of the source appends to [new_entries] what the relation
    [injected] describes. *)
Lemma insert_coverage_injected patient_id organization_id entries :
  forall new_entries n,
  forallb well_shaped_entry entries = true ->
  exists out,
    insert_coverage py_repr uuid4 patient_id organization_id entries
      new_entries n = Ok (new_entries ++ out) /\
    injected uuid4 (format_value py_repr patient_id) organization_id
      n entries out.
Proof.
  induction entries as [|entry rest IH]; intros new_entries n Hw.
  - exists []. split; [cbn; now rewrite app_nil_r|constructor].
  - cbn [forallb] in Hw. apply andb_prop in Hw as [Hw Hw'].
    destruct (well_shaped_entry_inv _ Hw) as (e & r & -> & Hres).
    cbn [insert_coverage]. result_simpl. rewrite Hres. result_simpl.
    destruct (eq_str (py_get "resourceType" r) "ExplanationOfBenefit") eqn:Ee.
    + destruct (IH ((new_entries
                      ++ [coverage_entry py_repr (uuid4 n) patient_id organization_id])
                      ++ [JObj (dict_set "resource"
                                  (JObj (dict_set "insurance"
                                           (insurance (uuid4 n)) r)) e)])
                   (S n) Hw') as (out & -> & Hinj).
      eexists (_ :: _ :: out). split.
      * now rewrite <- !app_assoc.
      * apply injected_eob; [| apply coverage_entry_shape | | exact Hinj].
        -- now rewrite (is_resource_of_obj _ _ _ Hres).
        -- exists e, r. repeat split. cbn. exact Hres.
    + destruct (IH (new_entries ++ [JObj e]) n Hw') as (out & -> & Hinj).
      exists (JObj e :: out). split.
      * now rewrite <- app_assoc.
      * apply injected_other; [|exact Hinj].
        now rewrite (is_resource_of_obj _ _ _ Hres).
Qed.

Lemma add_coverage_resources_bundle d entries organization_id :
  eq_str (py_get "resourceType" d) "Bundle" = true ->
  dict_get "entry" d = Some (JList entries) ->
  add_coverage_resources py_repr uuid4 (JObj d) organization_id
  = match find_patient_id entries with
    | Ok patient_id =>
        if truthy patient_id then
          match insert_coverage py_repr uuid4 patient_id organization_id
                  entries [] 1 with
          | Ok new_entries =>
              Ok (JObj (dict_set "entry" (JList new_entries) d))
          | Raise e => Raise e
          end
        else Ok (JObj d)
    | Raise e => Raise e
    end.
Proof.
  intros Hb He. unfold add_coverage_resources. result_simpl.
  unfold dict_mem. rewrite Hb. unfold py_get. rewrite He.
  cbn [negb orb py_iter]. result_simpl.
  destruct (find_patient_id entries) as [patient_id|]; [|reflexivity].
  result_simpl. now destruct (truthy patient_id).
Qed.

(** C7, as amended: in a Bundle whose first Patient resource has the
    non-empty id [patient_id], the injector puts a fresh Coverage entry
    (status active, beneficiary the patient, payor the organization,
    request POST, one new UUID as its id and in its fullUrl) immediately
    before each ExplanationOfBenefit entry and overwrites that resource's
    insurance by the link to it; the other entries stay, in their order.
    With no Patient resource the document comes back as it was. *)
Theorem coverage_before_each_eob d entries organization_id :
  eq_str (py_get "resourceType" d) "Bundle" = true ->
  dict_get "entry" d = Some (JList entries) ->
  forallb well_shaped_entry entries = true ->
  (forall patient_id,
     first_patient_id entries = Some patient_id ->
     truthy patient_id = true ->
     exists out,
       add_coverage_resources py_repr uuid4 (JObj d) organization_id
       = Ok (JObj (dict_set "entry" (JList out) d)) /\
       injected uuid4 (format_value py_repr patient_id) organization_id
         1 entries out) /\
  (first_patient_id entries = None ->
   add_coverage_resources py_repr uuid4 (JObj d) organization_id
   = Ok (JObj d)).
Proof.
  intros Hb He Hw.
  rewrite (add_coverage_resources_bundle _ _ _ Hb He).
  rewrite (find_patient_id_first _ Hw).
  split.
  - intros patient_id -> Ht. rewrite Ht.
    destruct (insert_coverage_injected patient_id organization_id entries
                [] 1 Hw) as (out & -> & Hinj).
    now exists out.
  - now intros ->.
Qed.

(** C10: the scan for the patient stops at the first Patient resource.
    When that resource has no id (or an empty one), the injector returns
    the document as it is, whatever follows it in the entry list, a
    Patient with an id included; and so it does each time it gives up:
    the document is not a Bundle with entries, or the scan ends without a
    usable id. *)
Theorem first_patient_decides d pre patient post organization_id :
  (eq_str (py_get "resourceType" d) "Bundle" = true ->
   dict_get "entry" d = Some (JList (pre ++ patient :: post)) ->
   forallb well_shaped_entry pre = true ->
   forallb (fun e => negb (is_resource_of "Patient" e)) pre = true ->
   well_shaped_entry patient = true ->
   is_resource_of "Patient" patient = true ->
   truthy (entry_resource_id patient) = false ->
   add_coverage_resources py_repr uuid4 (JObj d) organization_id
   = Ok (JObj d)) /\
  (eq_str (py_get "resourceType" d) "Bundle" && dict_mem "entry" d = false ->
   add_coverage_resources py_repr uuid4 (JObj d) organization_id
   = Ok (JObj d)) /\
  (forall entries patient_id,
     py_iter (py_get "entry" d) = Ok entries ->
     find_patient_id entries = Ok patient_id ->
     truthy patient_id = false ->
     add_coverage_resources py_repr uuid4 (JObj d) organization_id
     = Ok (JObj d)).
Proof.
  assert (Hscan : forall entries patient_id,
     py_iter (py_get "entry" d) = Ok entries ->
     find_patient_id entries = Ok patient_id ->
     truthy patient_id = false ->
     add_coverage_resources py_repr uuid4 (JObj d) organization_id
     = Ok (JObj d)).
  { intros entries patient_id Hi Hf Ht.
    unfold add_coverage_resources. result_simpl.
    destruct (negb _ || negb _); [reflexivity|].
    rewrite Hi. result_simpl. rewrite Hf. result_simpl. now rewrite Ht. }
  split; [|split; [|exact Hscan]].
  - intros Hb He Hw Hn Hp Hip Ht.
    apply (Hscan (pre ++ patient :: post) (entry_resource_id patient)).
    + unfold py_get. now rewrite He.
    + now apply find_patient_id_stops.
    + exact Ht.
  - intros Hb. unfold add_coverage_resources. result_simpl.
    destruct (eq_str _ "Bundle"), (dict_mem "entry" d); try discriminate;
      reflexivity.
Qed.
End InjectorFacts.

(** ** Tree rewriter: the loops *)

Lemma purge_filter {V} (dels : list string) : forall (obj : list (string * V)),
  fold_left (fun o k => dict_del k o) dels obj
  = List.filter (fun kv => negb (existsb (String.eqb (fst kv)) dels)) obj.
Proof.
  induction dels as [|k dels IH]; intros obj; cbn [fold_left existsb].
  - induction obj as [|kv obj IHo]; [reflexivity|]. cbn. now f_equal.
  - rewrite IH. unfold dict_del.
    induction obj as [|kv obj IHo]; [reflexivity|]. cbn [List.filter].
    destruct (String.eqb (fst kv) k) eqn:E; cbn [negb orb].
    + exact IHo.
    + cbn [List.filter]. now rewrite IHo.
Qed.

Lemma existsb_eqb_In k (l : list string) :
  existsb (String.eqb k) l = true <-> In k l.
Proof.
  rewrite existsb_exists. split.
  - intros (x & Hx & ->%String.eqb_eq). exact Hx.
  - intros H. exists k. split; [exact H|apply String.eqb_refl].
Qed.

Lemma existsb_eqb_not_In k (l : list string) :
  ~ In k l -> existsb (String.eqb k) l = false.
Proof.
  intros H. destruct (existsb (String.eqb k) l) eqn:E; [|reflexivity].
  now apply existsb_eqb_In in E.
Qed.

(** Deleting [dels ++ [k]] from [pre ++ [(k, x)]] is deleting [dels] from
    [pre], when [k] is not a key of [pre]. *)
Lemma purge_dropped {V} (dels : list string) (pre : list (string * V)) k x :
  ~ In k (map fst pre) ->
  fold_left (fun o k => dict_del k o) (dels ++ [k]) (pre ++ [(k, x)])
  = fold_left (fun o k => dict_del k o) dels pre.
Proof.
  intros Hk. rewrite !purge_filter, List.filter_app. cbn [List.filter fst].
  rewrite existsb_app. cbn [existsb]. rewrite String.eqb_refl, orb_true_r.
  cbn [negb orb]. rewrite app_nil_r.
  apply List.filter_ext_in. intros [k' v'] Hin. cbn [fst].
  rewrite existsb_app. cbn [existsb]. rewrite orb_false_r.
  destruct (String.eqb_spec k' k) as [->|Hne]; [|now rewrite orb_false_r].
  exfalso. apply Hk. now apply (in_map fst) in Hin.
Qed.

(** A kept field stays when [dels] holds keys of [pre] only. *)
Lemma purge_kept {V} (dels : list string) (pre : list (string * V)) k x :
  ~ In k dels ->
  fold_left (fun o k => dict_del k o) dels (pre ++ [(k, x)])
  = fold_left (fun o k => dict_del k o) dels pre ++ [(k, x)].
Proof.
  intros Hk. rewrite !purge_filter, List.filter_app. cbn [List.filter fst].
  now rewrite (existsb_eqb_not_In _ _ Hk).
Qed.

Lemma eq_str_get_mid s key (pre : obj_fields) k x x' rest :
  (k = key -> eq_str x' s = eq_str x s) ->
  eq_str (py_get key (pre ++ (k, x') :: rest)) s
  = eq_str (py_get key (pre ++ (k, x) :: rest)) s.
Proof.
  intros H. unfold py_get.
  induction pre as [|[k0 v0] pre IH]; cbn [app dict_get].
  - destruct (String.eqb_spec k key) as [->|Hne]; [now apply H|reflexivity].
  - destruct (String.eqb k0 key); [reflexivity|exact IH].
Qed.

Lemma dict_set_mid {V} (pre : list (string * V)) k x x' rest :
  ~ In k (map fst pre) ->
  dict_set k x' (pre ++ (k, x) :: rest) = pre ++ (k, x') :: rest.
Proof.
  intros H. rewrite dict_set_app_notin by exact H.
  cbn. now rewrite String.eqb_refl.
Qed.

Section LoopFacts.
Variable rec : rec_call.
Variables is_observation is_careplan is_medication_request : bool.

(** The recursive call gives a str for a str and for nothing else. *)
Hypothesis rec_eq_str : forall v pk e p c r s,
  rec v pk e p c = Some r -> eq_str r s = eq_str v s.

Let purge (dels : list string) (obj : obj_fields) : obj_fields :=
  fold_left (fun o k => dict_del k o) dels obj.

(** The loop, from any point of the snapshot on: [pre] is the part of the
    dict that the loop has gone through, [post] what is left of the
    snapshot. *)
Lemma fields_loop_from post : forall pre dels,
  NoDup (map fst (pre ++ post)) ->
  (forall k, In k dels -> In k (map fst pre)) ->
  match fields_loop rec is_observation is_careplan is_medication_request
          post (pre ++ post, dels) with
  | Some (obj, dels') =>
      exists out,
        rewrite_fields rec is_observation is_careplan is_medication_request
          (eq_str (py_get "resourceType" (pre ++ post)) "ExplanationOfBenefit")
          (eq_str (py_get "resourceType" (pre ++ post)) "Provenance")
          post = Some out /\
        purge dels' obj = purge dels pre ++ out
  | None =>
      rewrite_fields rec is_observation is_careplan is_medication_request
        (eq_str (py_get "resourceType" (pre ++ post)) "ExplanationOfBenefit")
        (eq_str (py_get "resourceType" (pre ++ post)) "Provenance")
        post = None
  end.
Proof.
  induction post as [|[key value] rest IH]; intros pre dels Hnd Hdels.
  - cbn. exists []. now rewrite !app_nil_r.
  - assert (Hkey : ~ In key (map fst pre)).
    { rewrite map_app in Hnd. apply NoDup_app in Hnd as (_ & Hd & _).
      intros Hin. apply (Hd key); [now apply list_elem_of_In|].
      apply list_elem_of_In. now left. }
    assert (Hkd : ~ In key dels) by (intros Hin; apply Hkey, Hdels, Hin).
    assert (Hsplit : forall x, pre ++ (key, x) :: rest
                               = (pre ++ [(key, x)]) ++ rest)
      by (intros x; now rewrite <- app_assoc).
    assert (Hnd' : forall x, NoDup (map fst ((pre ++ [(key, x)]) ++ rest))).
    { intros x. rewrite <- Hsplit. rewrite map_app in Hnd |- *. exact Hnd. }
    assert (Hdrop : forall k, In k (dels ++ [key]) ->
                              In k (map fst (pre ++ [(key, value)]))).
    { intros k [Hin|[<-|[]]]%in_app_or; rewrite map_app; apply in_or_app;
        [left; now apply Hdels|right; now left]. }
    cbn [fields_loop rewrite_fields field_step field_result].
    unfold passed_value.
    destruct (String.eqb key "period") eqn:Eperiod.
    { cbn [mbind option_bind]. rewrite Hsplit.
      specialize (IH (pre ++ [(key, value)]) (dels ++ [key])
                    (Hnd' value) Hdrop).
      destruct (fields_loop _ _ _ _ rest _) as [[obj dels']|].
      - destruct IH as (out & -> & Hout). exists out. split; [reflexivity|].
        rewrite Hout. unfold purge. now rewrite purge_dropped.
      - now rewrite IH. }
    destruct (is_observation && String.eqb key "valueCodeableConcept")
      eqn:Evcc.
    { cbn [mbind option_bind]. rewrite Hsplit.
      specialize (IH (pre ++ [(key, value)]) (dels ++ [key])
                    (Hnd' value) Hdrop).
      destruct (fields_loop _ _ _ _ rest _) as [[obj dels']|].
      - destruct IH as (out & -> & Hout). exists out. split; [reflexivity|].
        rewrite Hout. unfold purge. now rewrite purge_dropped.
      - now rewrite IH. }
    set (strip := is_medication_request
                  && String.eqb key "dosageInstruction" && is_list value).
    set (value1 := if strip then strip_additional_instruction value
                   else value).
    assert (Hobj1 :
      (if strip
       then (strip_additional_instruction value,
             dict_set key (strip_additional_instruction value)
               (pre ++ (key, value) :: rest))
       else (value, pre ++ (key, value) :: rest))
      = (value1, pre ++ (key, value1) :: rest)).
    { unfold value1. destruct strip; [|reflexivity].
      now rewrite dict_set_mid. }
    rewrite Hobj1. clear Hobj1.
    assert (Hrt : forall s,
      eq_str (py_get "resourceType" (pre ++ (key, value1) :: rest)) s
      = eq_str (py_get "resourceType" (pre ++ (key, value) :: rest)) s).
    { intros s. apply eq_str_get_mid. intros ->. unfold value1, strip.
      now rewrite andb_false_r. }
    rewrite !Hrt.
    destruct (rec value1 (Some key) _ _ _) as [result|] eqn:Erec;
      cbn [mbind option_bind]; [|reflexivity].
    destruct (is_none result) eqn:Enone; cbn [mbind option_bind].
    + rewrite Hsplit.
      assert (Hdrop1 : forall k, In k (dels ++ [key]) ->
                                 In k (map fst (pre ++ [(key, value1)]))).
      { intros k Hin. apply Hdrop in Hin.
        now rewrite map_app in Hin |- *. }
      specialize (IH (pre ++ [(key, value1)]) (dels ++ [key])
                    (Hnd' value1) Hdrop1).
      rewrite <- Hsplit, !Hrt in IH. rewrite Hsplit in IH.
      destruct (fields_loop _ _ _ _ rest _) as [[obj dels']|].
      * destruct IH as (out & -> & Hout). exists out. split; [reflexivity|].
        rewrite Hout. unfold purge. now rewrite purge_dropped.
      * now rewrite IH.
    + rewrite dict_set_mid by exact Hkey. rewrite Hsplit.
      assert (Hkeep : forall k, In k dels ->
                                In k (map fst (pre ++ [(key, result)]))).
      { intros k Hin. rewrite map_app. apply in_or_app. left.
        now apply Hdels. }
      specialize (IH (pre ++ [(key, result)]) dels (Hnd' result) Hkeep).
      assert (Hrt' : forall s,
        eq_str (py_get "resourceType" (pre ++ (key, result) :: rest)) s
        = eq_str (py_get "resourceType" (pre ++ (key, value) :: rest)) s).
      { intros s. rewrite <- Hrt. apply eq_str_get_mid. intros _.
        eapply rec_eq_str, Erec. }
      rewrite <- Hsplit, !Hrt' in IH. rewrite Hsplit in IH.
      destruct (fields_loop _ _ _ _ rest _) as [[obj dels']|].
      * destruct IH as (out & -> & Hout).
        exists ((key, result) :: out). split; [reflexivity|].
        rewrite Hout. unfold purge. rewrite purge_kept by exact Hkd.
        now rewrite <- app_assoc.
      * now rewrite IH.
Qed.

(** The loop and the deletions that follow it, as one pass over the
    fields. *)
Lemma fields_loop_rewrite fields :
  NoDup (map fst fields) ->
  ('(obj, dels) ←
     fields_loop rec is_observation is_careplan is_medication_request
       fields (fields, []);
   Some (fold_left (fun o k => dict_del k o) dels obj))
  = rewrite_fields rec is_observation is_careplan is_medication_request
      (eq_str (py_get "resourceType" fields) "ExplanationOfBenefit")
      (eq_str (py_get "resourceType" fields) "Provenance") fields.
Proof.
  intros Hnd.
  assert (Hnil : forall k : string, In k [] -> In k (map fst (@nil (string * json))))
    by (intros k []).
  pose proof (fields_loop_from fields [] [] Hnd Hnil) as H.
  cbn [app] in H.
  destruct (fields_loop _ _ _ _ fields _) as [[obj dels]|];
    cbn [mbind option_bind].
  - destruct H as (out & -> & Hout). unfold purge in Hout.
    now rewrite Hout.
  - now rewrite H.
Qed.

(** The list loop keeps the results that are not [None], in order. *)
Lemma list_loop_rewrite rec1 items : forall new_list,
  list_loop rec1 items new_list
  = (out ← rewrite_items rec1 items; Some (new_list ++ out)).
Proof.
  induction items as [|item rest IH]; intros new_list;
    cbn [list_loop rewrite_items mbind option_bind].
  - now rewrite app_nil_r.
  - destruct (rec1 item) as [result|]; cbn [mbind option_bind];
      [|reflexivity].
    rewrite IH. destruct (rewrite_items rec1 rest) as [rest'|];
      cbn [mbind option_bind]; [|reflexivity].
    destruct (is_none result); [reflexivity|]. now rewrite <- app_assoc.
Qed.
End LoopFacts.

(** ** Tree rewriter: one call *)

Lemma json_wf_obj f : json_wf (JObj f) = true <-> fields_wf f.
Proof.
  cbn [json_wf]. rewrite andb_true_iff, bool_decide_eq_true, forallb_forall.
  unfold fields_wf. rewrite List.Forall_forall. tauto.
Qed.

Lemma json_wf_list l :
  json_wf (JList l) = true <-> Forall (fun v => json_wf v = true) l.
Proof. cbn [json_wf]. now rewrite forallb_forall, List.Forall_forall. Qed.

Lemma NoDup_keys_set {V} k (v : V) d :
  NoDup (map fst d) -> NoDup (map fst (dict_set k v d)).
Proof.
  intros H. destruct (in_dec string_dec k (map fst d)) as [Hin|Hnin].
  - now rewrite dict_set_keys_present.
  - rewrite dict_set_keys_absent by exact Hnin. rewrite map_app. cbn.
    apply NoDup_app. repeat split; [exact H| |apply NoDup_singleton].
    intros x Hx ->%list_elem_of_singleton. now apply list_elem_of_In in Hx.
Qed.

Lemma keys_filter {V} (p : string * V -> bool) d :
  NoDup (map fst d) -> NoDup (map fst (List.filter p d)).
Proof.
  induction d as [|[k v] d IH]; cbn; [constructor|].
  intros [Hk Hd]%NoDup_cons. destruct (p (k, v)); [|now apply IH].
  cbn. apply NoDup_cons. split; [|now apply IH].
  intros Hin. apply Hk. apply list_elem_of_In in Hin. apply list_elem_of_In.
  apply in_map_iff in Hin as (x & <- & Hx%List.filter_In).
  apply in_map. tauto.
Qed.

Lemma Forall_dict_set {V} (P : string * V -> Prop) k v d :
  (forall k', P (k', v)) -> Forall P d -> Forall P (dict_set k v d).
Proof.
  intros Hv. induction 1 as [|[k0 v0] d H0 Hd IH]; cbn.
  - constructor; [apply Hv|constructor].
  - destruct (String.eqb k0 k); constructor; auto.
Qed.

Lemma Forall_filter {A} (P : A -> Prop) p (l : list A) :
  Forall P l -> Forall P (List.filter p l).
Proof.
  induction 1 as [|a l Ha Hl IH]; cbn; [constructor|].
  destruct (p a); [constructor|]; auto.
Qed.

Lemma fields_wf_set k v f :
  json_wf v = true -> fields_wf f -> fields_wf (dict_set k v f).
Proof.
  intros Hv [Hnd Hall]. split; [now apply NoDup_keys_set|].
  now apply Forall_dict_set.
Qed.

Lemma fields_wf_purge dels f :
  fields_wf f -> fields_wf (fold_left (fun o k => dict_del k o) dels f).
Proof.
  intros [Hnd Hall]. rewrite purge_filter.
  split; [now apply keys_filter|now apply Forall_filter].
Qed.

Lemma strip_additional_instruction_wf v :
  json_wf v = true -> json_wf (strip_additional_instruction v) = true.
Proof.
  destruct v as [| | | |items|]; try (intros; assumption).
  rewrite !json_wf_list. cbn [strip_additional_instruction].
  intros H. rewrite json_wf_list. apply List.Forall_map.
  eapply List.Forall_impl; [|exact H]. intros [| | | | |f]; try tauto.
  intros Hf. destruct (dict_mem _ f); [|exact Hf].
  apply json_wf_obj. apply json_wf_obj in Hf.
  apply (fields_wf_purge ["additionalInstruction"] f Hf).
Qed.

Lemma list_max_filter {A} (g : A -> nat) p (l : list A) :
  list_max (map g (List.filter p l)) <= list_max (map g l).
Proof.
  induction l as [|a l IH]; simpl; [lia|].
  destruct (p a); simpl; lia.
Qed.

Lemma strip_additional_instruction_depth v :
  json_depth (strip_additional_instruction v) <= json_depth v.
Proof.
  destruct v as [| | | |items|]; try (cbn; lia).
  cbn [strip_additional_instruction json_depth]. apply le_n_S.
  rewrite map_map.
  induction items as [|item items IH]; simpl; [lia|].
  assert (json_depth match item with
                     | JObj f => if dict_mem "additionalInstruction" f
                                 then JObj (dict_del "additionalInstruction" f)
                                 else item
                     | _ => item
                     end <= json_depth item); [|lia].
  destruct item as [| | | | |f]; try lia.
  destruct (dict_mem _ f); [|lia].
  cbn [json_depth]. apply le_n_S. apply list_max_filter.
Qed.

Lemma list_max_In n l : In n l -> n <= list_max l.
Proof.
  unfold list_max. induction l as [|m l IH]; cbn; [tauto|].
  intros [->|H]; [lia|]. apply IH in H. lia.
Qed.

Lemma json_depth_item item items :
  In item items -> json_depth item < json_depth (JList items).
Proof.
  intros H. cbn [json_depth]. apply (in_map json_depth) in H.
  apply list_max_In in H. lia.
Qed.

Lemma json_depth_field k v f :
  In (k, v) f -> json_depth v < json_depth (JObj f).
Proof.
  intros H. cbn [json_depth].
  apply (in_map (fun kv => json_depth (snd kv))) in H.
  apply list_max_In in H. cbn in H. lia.
Qed.

Section RewriterFacts.
Variable py_repr : json -> string.
Variable unicode_alnum : ascii -> bool.
Variable uuid_map : gmap string json.
Variable identifier_map : gmap hkey (json * json).
Variable organization_id : option string.
Variable practitioner_id : option string.

Abbreviation rr :=
  (replace_references py_repr unicode_alnum uuid_map identifier_map
     organization_id practitioner_id).
Abbreviation resolve :=
  (resolve_reference py_repr unicode_alnum uuid_map identifier_map).
Abbreviation prepare := (prepare_fields organization_id practitioner_id).

(** The reference checks remove the object, leave it, or set its
    [reference], which it has, to a new string. *)
Lemma resolve_reference_cases fields :
  resolve fields = Remove \/
  resolve fields = Keep fields \/
  exists old new,
    dict_get "reference" fields = Some (JStr old) /\
    resolve fields = Keep (dict_set "reference" (JStr new) fields).
Proof.
  unfold resolve_reference.
  destruct (dict_get "reference" fields) as [[| | |ref| |]|] eqn:E; auto.
  repeat match goal with
         | |- context [if ?b then _ else _] => destruct b
         | |- context [match ?x with _ => _ end] =>
             destruct x
         end;
    first [ now left | now (right; left)
          | right; right; eexists _, _; split; reflexivity ].
Qed.

Lemma resolve_reference_wf fields f1 :
  fields_wf fields -> resolve fields = Keep f1 -> fields_wf f1.
Proof.
  intros Hwf H.
  destruct (resolve_reference_cases fields) as [H'|[H'|(old & new & _ & H')]];
    rewrite H' in H; try discriminate; injection H as <-; [exact Hwf|].
  now apply fields_wf_set.
Qed.

Lemma prepare_fields_wf e p c f :
  fields_wf f -> fields_wf (prepare e p c f).
Proof.
  intros Hwf. unfold prepare_fields, add_who, clean_careplan_care_team,
    add_provider.
  assert (H1 : fields_wf
    match organization_id with
    | Some org =>
        if e && negb (String.eqb org "") && negb (dict_mem "provider" f)
        then dict_set "provider"
               (JObj [("reference", JStr ("Organization/" +:+ org))]) f
        else f
    | None => f
    end).
  { destruct organization_id; [|exact Hwf].
    destruct (_ && _); [|exact Hwf]. apply fields_wf_set; [reflexivity|exact Hwf]. }
  revert H1. generalize (match organization_id with
    | Some org =>
        if e && negb (String.eqb org "") && negb (dict_mem "provider" f)
        then dict_set "provider"
               (JObj [("reference", JStr ("Organization/" +:+ org))]) f
        else f
    | None => f
    end). intros f1 H1.
  assert (H2 : fields_wf
    (if c && dict_mem "reference" f1
     then fold_left (fun o k => dict_del k o)
            (List.filter
               (fun k => negb (String.eqb k "reference" || String.eqb k "display"))
               (dict_keys f1)) f1
     else f1)).
  { destruct (_ && _); [|exact H1]. now apply fields_wf_purge. }
  revert H2. generalize (if c && dict_mem "reference" f1
     then fold_left (fun o k => dict_del k o)
            (List.filter
               (fun k => negb (String.eqb k "reference" || String.eqb k "display"))
               (dict_keys f1)) f1
     else f1). intros f2 H2.
  destruct practitioner_id; [|exact H2].
  destruct (_ && _); [|exact H2]. apply fields_wf_set; [reflexivity|exact H2].
Qed.

(** A call gives a str for a str and for nothing else. *)
Lemma rr_eq_str n v pk e p c r s :
  rr n v pk e p c = Some r -> eq_str r s = eq_str v s.
Proof.
  destruct n as [|n]; [discriminate|]. cbn [replace_references].
  destruct v as [| | | |items|fields]; cbn [replace_references_body];
    try (now intros [= <-]).
  - destruct (list_loop _ items []); cbn [mbind option_bind];
      [now intros [= <-]|discriminate].
  - destruct (resolve fields); [now intros [= <-]|].
    destruct (fields_loop _ _ _ _ _ _) as [[obj' dels]|];
      cbn [mbind option_bind]; [now intros [= <-]|discriminate].
Qed.

(** A call on a list: the results that are not [None], in order. *)
Lemma rr_list n items pk e p c :
  rr (S n) (JList items) pk e p c
  = (out ← rewrite_items (fun item => rr n item pk e p c) items;
     Some (JList out)).
Proof.
  cbn [replace_references replace_references_body].
  rewrite list_loop_rewrite.
  now destruct (rewrite_items _ items).
Qed.

(** A call on an object whose keys are distinct: the reference checks,
    the injections, and one pass over the fields. *)
Lemma rr_obj n fields pk e p c :
  NoDup (map fst fields) ->
  rr (S n) (JObj fields) pk e p c
  = match resolve fields with
    | Remove => Some JNull
    | Keep f1 =>
        out ← rewrite_fields (rr n)
                (eq_str (py_get "resourceType" fields) "Observation")
                (eq_str (py_get "resourceType" fields) "CarePlan")
                (eq_str (py_get "resourceType" fields) "MedicationRequest")
                (eq_str (py_get "resourceType" (prepare e p c f1))
                   "ExplanationOfBenefit")
                (eq_str (py_get "resourceType" (prepare e p c f1))
                   "Provenance")
                (prepare e p c f1);
        Some (JObj out)
    end.
Proof.
  intros Hnd. cbn [replace_references replace_references_body].
  destruct (resolve fields) as [|f1] eqn:Er; [reflexivity|].
  assert (Hnd1 : NoDup (map fst f1)).
  { destruct (resolve_reference_cases fields)
      as [H'|[H'|(old & new & _ & H')]];
      rewrite H' in Er; try discriminate; injection Er as <-;
      [exact Hnd|now apply NoDup_keys_set]. }
  assert (Hnd2 : NoDup (map fst (prepare e p c f1))).
  { unfold prepare_fields, add_who, clean_careplan_care_team, add_provider.
    repeat match goal with
           | |- context [match ?x with Some _ => _ | None => _ end] =>
               destruct x
           | |- context [if ?b then _ else _] => destruct b
           end;
      repeat first [ apply NoDup_keys_set
                   | rewrite purge_filter; apply keys_filter ];
      exact Hnd1. }
  change (add_who practitioner_id p
            (clean_careplan_care_team c (add_provider organization_id e f1)))
    with (prepare e p c f1).
  rewrite <- (fields_loop_rewrite (rr n) _ _ _ (rr_eq_str n) _ Hnd2).
  destruct (fields_loop _ _ _ _ _ _) as [[obj' dels]|]; reflexivity.
Qed.
End RewriterFacts.

(** ** The pass over the fields and over the items *)

Section PassFacts.
Variable rec : rec_call.
Variables io icp imr ie ip : bool.

Abbreviation fresult := (field_result rec io icp imr ie ip).
Abbreviation rfields := (rewrite_fields rec io icp imr ie ip).

Lemma field_result_kept key value kv' :
  fresult (key, value) = Some (Some kv') ->
  fst kv' = key /\ key <> "period" /\
  is_none (snd kv') = false /\
  rec (passed_value imr key value) (Some key)
    (String.eqb key "careTeam" && is_list (passed_value imr key value) && ie)
    (String.eqb key "agent" && is_list (passed_value imr key value) && ip)
    (String.eqb key "careTeam" && is_list (passed_value imr key value) && icp)
  = Some (snd kv').
Proof.
  unfold field_result, passed_value.
  destruct (String.eqb_spec key "period"); [discriminate|].
  destruct (io && _); [discriminate|].
  destruct (rec _ _ _ _ _) as [result|]; cbn [mbind option_bind];
    [|discriminate].
  destruct (is_none result) eqn:E; [discriminate|].
  intros [= <-]. cbn. auto.
Qed.

Lemma field_result_total key value :
  (exists r, rec (passed_value imr key value) (Some key)
    (String.eqb key "careTeam" && is_list (passed_value imr key value) && ie)
    (String.eqb key "agent" && is_list (passed_value imr key value) && ip)
    (String.eqb key "careTeam" && is_list (passed_value imr key value) && icp)
    = Some r) ->
  exists o, fresult (key, value) = Some o.
Proof.
  intros [r Hr]. unfold field_result. fold (passed_value imr key value).
  destruct (String.eqb key "period"); [eauto|].
  destruct (io && _); [eauto|].
  rewrite Hr. cbn. eauto.
Qed.

Lemma rewrite_fields_total f :
  Forall (fun kv => exists o, fresult kv = Some o) f ->
  exists out, rfields f = Some out.
Proof.
  induction 1 as [|kv f [o Ho] Hf [out IH]]; cbn [rewrite_fields]; [eauto|].
  rewrite Ho, IH. cbn. eauto.
Qed.

(** Each field of the result is a field of the object that the loop kept,
    with the result of the recursive call on its value. *)
Lemma rewrite_fields_kept f : forall out,
  rfields f = Some out ->
  Forall (fun kv' => exists value,
            In (fst kv', value) f /\
            fresult (fst kv', value) = Some (Some kv')) out.
Proof.
  induction f as [|[key value] f IH]; intros out; cbn [rewrite_fields].
  - intros [= <-]. constructor.
  - destruct (fresult (key, value)) as [o|] eqn:Eo;
      cbn [mbind option_bind]; [|discriminate].
    destruct (rfields f) as [rest'|]; cbn [mbind option_bind];
      [|discriminate].
    intros [= <-]. specialize (IH rest' eq_refl).
    assert (Hrest : Forall (fun kv' => exists value0,
              In (fst kv', value0) ((key, value) :: f) /\
              fresult (fst kv', value0) = Some (Some kv')) rest').
    { eapply List.Forall_impl; [|exact IH].
      intros kv' (x & Hin & Hx). exists x. split; [now right|exact Hx]. }
    destruct o as [kv'|]; [|exact Hrest].
    constructor; [|exact Hrest].
    destruct (field_result_kept _ _ _ Eo) as (Hk & _).
    exists value. rewrite Hk. split; [now left|exact Eo].
Qed.

Lemma rewrite_fields_keys f out k :
  rfields f = Some out -> In k (map fst out) ->
  In k (map fst f) /\ k <> "period".
Proof.
  intros H Hin. apply rewrite_fields_kept in H.
  apply in_map_iff in Hin as (kv' & <- & Hin).
  rewrite List.Forall_forall in H.
  destruct (H kv' Hin) as (value & Hv & Hr).
  apply field_result_kept in Hr as (_ & Hp & _).
  split; [|exact Hp]. now apply (in_map fst) in Hv.
Qed.

(** The value of a key in the result. *)
Lemma rewrite_fields_get f : forall out k,
  NoDup (map fst f) ->
  rfields f = Some out ->
  dict_get k out
  = match dict_get k f with
    | Some value =>
        match fresult (k, value) with
        | Some (Some kv') => Some (snd kv')
        | _ => None
        end
    | None => None
    end.
Proof.
  induction f as [|[key value] f IH]; intros out k Hnd; cbn [rewrite_fields].
  - now intros [= <-].
  - cbn [map fst] in Hnd. apply NoDup_cons in Hnd as [Hkey Hnd].
    destruct (fresult (key, value)) as [o|] eqn:Eo;
      cbn [mbind option_bind]; [|discriminate].
    destruct (rfields f) as [rest'|] eqn:Er; cbn [mbind option_bind];
      [|discriminate].
    intros [= <-]. specialize (IH rest' k Hnd eq_refl).
    cbn [dict_get]. destruct (String.eqb_spec key k) as [->|Hne].
    + rewrite Eo. destruct o as [kv'|].
      * destruct (field_result_kept _ _ _ Eo) as (Hk & _).
        destruct kv' as [k' r]. cbn in Hk. subst k'. cbn [dict_get snd].
        now rewrite String.eqb_refl.
      * apply dict_get_none_keys. intros Hin.
        apply (rewrite_fields_keys f rest' k Er) in Hin as [Hin _].
        apply Hkey. now apply list_elem_of_In.
    + destruct o as [[k' r]|]; [|exact IH].
      destruct (field_result_kept _ _ _ Eo) as (Hk & _). cbn in Hk. subst k'.
      cbn [dict_get]. destruct (String.eqb_spec key k); [contradiction|].
      exact IH.
Qed.

Lemma rewrite_fields_NoDup f : forall out,
  NoDup (map fst f) -> rfields f = Some out -> NoDup (map fst out).
Proof.
  induction f as [|[key value] f IH]; intros out Hnd; cbn [rewrite_fields].
  - intros [= <-]. constructor.
  - cbn [map fst] in Hnd. apply NoDup_cons in Hnd as [Hkey Hnd].
    destruct (fresult (key, value)) as [o|] eqn:Eo;
      cbn [mbind option_bind]; [|discriminate].
    destruct (rfields f) as [rest'|] eqn:Er; cbn [mbind option_bind];
      [|discriminate].
    intros [= <-]. specialize (IH rest' Hnd eq_refl).
    destruct o as [[k' r]|]; [|exact IH].
    destruct (field_result_kept _ _ _ Eo) as (Hk & _). cbn in Hk. subst k'.
    cbn [map fst]. apply NoDup_cons. split; [|exact IH].
    intros Hin%list_elem_of_In.
    apply (rewrite_fields_keys f rest' key Er) in Hin as [Hin _].
    apply Hkey. now apply list_elem_of_In.
Qed.
End PassFacts.

Section ItemFacts.
Variable rec1 : json -> option json.

Lemma rewrite_items_total items :
  Forall (fun item => exists r, rec1 item = Some r) items ->
  exists out, rewrite_items rec1 items = Some out.
Proof.
  induction 1 as [|item items [r Hr] Hf [out IH]]; cbn [rewrite_items];
    [eauto|].
  rewrite Hr, IH. cbn. eauto.
Qed.

(** The result holds, in order, the results of the calls on the items
    that are not [None]. *)
Lemma rewrite_items_results items : forall out,
  rewrite_items rec1 items = Some out ->
  exists results,
    Forall2 (fun item r => rec1 item = Some r) items results /\
    out = List.filter (fun r => negb (is_none r)) results.
Proof.
  induction items as [|item items IH]; intros out; cbn [rewrite_items].
  - intros [= <-]. exists []. split; [constructor|reflexivity].
  - destruct (rec1 item) as [r|] eqn:Er; cbn [mbind option_bind];
      [|discriminate].
    destruct (rewrite_items rec1 items) as [rest'|];
      cbn [mbind option_bind]; [|discriminate].
    intros [= <-]. destruct (IH rest' eq_refl) as (results & Hres & ->).
    exists (r :: results). split; [now constructor|].
    cbn [List.filter]. now destruct (is_none r).
Qed.

Lemma rewrite_items_kept items out :
  rewrite_items rec1 items = Some out ->
  Forall (fun r => is_none r = false /\
                   exists item, In item items /\ rec1 item = Some r) out.
Proof.
  intros (results & Hres & ->)%rewrite_items_results.
  apply List.Forall_forall. intros r [Hin Hn]%List.filter_In.
  split; [now apply negb_true_iff|].
  clear Hn. induction Hres as [|item r' items results Hr Hres IH];
    [destruct Hin|].
  destruct Hin as [->|Hin].
  - exists item. split; [now left|exact Hr].
  - destruct (IH Hin) as (item' & Hi & Hr'). exists item'.
    split; [now right|exact Hr'].
Qed.
End ItemFacts.

(** ** Tree rewriter: termination and the fields of the result *)

Lemma dict_set_In {V} k (v : V) d k' x :
  In (k', x) (dict_set k v d) -> In (k', x) d \/ (k' = k /\ x = v).
Proof.
  induction d as [|[k0 v0] d IH]; cbn.
  - intros [[= <- <-]|[]]. now right.
  - destruct (String.eqb_spec k0 k) as [->|Hne]; cbn.
    + intros [[= <- <-]|H]; [now right|left; now right].
    + intros [H|H]; [left; now left|].
      destruct (IH H) as [?|?]; [left; now right|now right].
Qed.

Lemma passed_value_wf imr key value :
  json_wf value = true -> json_wf (passed_value imr key value) = true.
Proof.
  intros H. unfold passed_value. destruct (_ && _); [|exact H].
  now apply strip_additional_instruction_wf.
Qed.

Lemma passed_value_depth imr key value :
  json_depth (passed_value imr key value) <= json_depth value.
Proof.
  unfold passed_value. destruct (_ && _); [|lia].
  apply strip_additional_instruction_depth.
Qed.

Lemma passed_value_other imr key value :
  key <> "dosageInstruction" -> passed_value imr key value = value.
Proof.
  intros H. unfold passed_value.
  destruct (String.eqb_spec key "dosageInstruction"); [contradiction|].
  now rewrite andb_false_r.
Qed.

Section RewriterTotal.
Variable py_repr : json -> string.
Variable unicode_alnum : ascii -> bool.
Variable uuid_map : gmap string json.
Variable identifier_map : gmap hkey (json * json).
Variable organization_id : option string.
Variable practitioner_id : option string.

Abbreviation rr :=
  (replace_references py_repr unicode_alnum uuid_map identifier_map
     organization_id practitioner_id).
Abbreviation resolve :=
  (resolve_reference py_repr unicode_alnum uuid_map identifier_map).
Abbreviation prepare := (prepare_fields organization_id practitioner_id).

Lemma prepare_fields_plain f : prepare false false false f = f.
Proof.
  unfold prepare_fields, add_who, clean_careplan_care_team, add_provider.
  cbn [andb]. now destruct organization_id, practitioner_id.
Qed.

(** Where the fields come from that the loop goes through. *)
Lemma prepare_fields_In e p c f k x :
  In (k, x) (prepare e p c f) ->
  In (k, x) f \/
  (k = "provider" /\ exists s, x = reference_object s) \/
  (k = "who" /\ exists s, x = reference_object s).
Proof.
  unfold prepare_fields, add_who, clean_careplan_care_team, add_provider.
  intros H.
  assert (Hw : In (k, x)
    (if c && dict_mem "reference"
               match organization_id with
               | Some org =>
                   if e && negb (String.eqb org "")
                      && negb (dict_mem "provider" f)
                   then dict_set "provider"
                          (JObj [("reference",
                                  JStr ("Organization/" +:+ org))]) f
                   else f
               | None => f
               end
     then fold_left (fun o k => dict_del k o)
            (List.filter
               (fun k => negb (String.eqb k "reference"
                               || String.eqb k "display"))
               (dict_keys
                  match organization_id with
                  | Some org =>
                      if e && negb (String.eqb org "")
                         && negb (dict_mem "provider" f)
                      then dict_set "provider"
                             (JObj [("reference",
                                     JStr ("Organization/" +:+ org))]) f
                      else f
                  | None => f
                  end))
            match organization_id with
            | Some org =>
                if e && negb (String.eqb org "")
                   && negb (dict_mem "provider" f)
                then dict_set "provider"
                       (JObj [("reference",
                               JStr ("Organization/" +:+ org))]) f
                else f
            | None => f
            end
     else match organization_id with
          | Some org =>
              if e && negb (String.eqb org "")
                 && negb (dict_mem "provider" f)
              then dict_set "provider"
                     (JObj [("reference",
                             JStr ("Organization/" +:+ org))]) f
              else f
          | None => f
          end) \/
    (k = "who" /\ exists s, x = reference_object s)).
  { destruct practitioner_id as [prac|]; [|now left].
    destruct (p && _ && _); [|now left].
    apply dict_set_In in H as [H|[-> ->]]; [now left|right].
    split; [reflexivity|now eexists]. }
  destruct Hw as [Hw|Hw]; [|now (right; right)].
  assert (Hp : In (k, x)
    match organization_id with
    | Some org =>
        if e && negb (String.eqb org "") && negb (dict_mem "provider" f)
        then dict_set "provider"
               (JObj [("reference", JStr ("Organization/" +:+ org))]) f
        else f
    | None => f
    end).
  { destruct (c && _); [|exact Hw].
    rewrite purge_filter in Hw. now apply List.filter_In in Hw. }
  destruct organization_id as [org|]; [|now left].
  destruct (e && _ && _); [|now left].
  apply dict_set_In in Hp as [Hp|[-> ->]]; [now left|right; left].
  split; [reflexivity|now eexists].
Qed.

Lemma resolve_reference_In fields f1 k x :
  resolve fields = Keep f1 -> In (k, x) f1 ->
  In (k, x) fields \/ (k = "reference" /\ exists s, x = JStr s).
Proof.
  intros H Hin.
  destruct (resolve_reference_cases py_repr unicode_alnum uuid_map
              identifier_map fields) as [H'|[H'|(old & new & _ & H')]];
    rewrite H' in H; try discriminate; injection H as <-; [now left|].
  apply dict_set_In in Hin as [Hin|[-> ->]]; [now left|right].
  split; [reflexivity|now eexists].
Qed.

(** The injected object goes through the reference checks and nothing
    else. *)
Lemma rr_reference_object m s pk :
  rr (S (S m)) (reference_object s) pk false false false
  = Some match resolve [("reference", JStr s)] with
         | Remove => JNull
         | Keep f1 => JObj f1
         end.
Proof.
  unfold reference_object.
  rewrite (rr_obj py_repr unicode_alnum uuid_map identifier_map
             organization_id practitioner_id)
    by (cbn; apply NoDup_singleton).
  destruct (resolve [("reference", JStr s)]) as [|f1] eqn:Er; [reflexivity|].
  rewrite prepare_fields_plain.
  assert (Hf1 : exists s', f1 = [("reference", JStr s')]).
  { destruct (resolve_reference_cases py_repr unicode_alnum uuid_map
                identifier_map [("reference", JStr s)])
      as [H'|[H'|(old & new & _ & H')]];
      rewrite H' in Er; try discriminate; injection Er as <-; eauto. }
  destruct Hf1 as [s' ->].
  cbn [rewrite_fields field_result String.eqb Ascii.eqb Bool.eqb].
  rewrite andb_false_r. unfold passed_value.
  cbn [String.eqb Ascii.eqb Bool.eqb]. rewrite !andb_false_r.
  reflexivity.
Qed.

(** Enough fuel gives a result: two more than the nesting depth, the two
    being the depth of an injected object. *)
Lemma rr_total n : forall v pk e p c,
  json_wf v = true -> json_depth v + 2 <= n ->
  exists r, rr n v pk e p c = Some r.
Proof.
  induction n as [|n IH]; intros v pk e p c Hwf Hd; [lia|].
  destruct v as [| | | |items|fields]; try (cbn; eauto; fail).
  - rewrite (rr_list py_repr unicode_alnum uuid_map identifier_map
               organization_id practitioner_id).
    destruct (rewrite_items_total (fun item => rr n item pk e p c) items)
      as [out ->]; [|cbn; eauto].
    apply List.Forall_forall. intros item Hin. apply IH.
    + apply json_wf_list in Hwf. rewrite List.Forall_forall in Hwf. auto.
    + apply json_depth_item in Hin. lia.
  - apply json_wf_obj in Hwf.
    rewrite (rr_obj py_repr unicode_alnum uuid_map identifier_map
               organization_id practitioner_id) by apply Hwf.
    destruct (resolve fields) as [|f1] eqn:Er; [eauto|].
    match goal with
    | |- context [rewrite_fields ?r ?a ?b ?c' ?d ?e' ?f] =>
        destruct (rewrite_fields_total r a b c' d e' f) as [out ->];
          [|cbn; eauto]
    end.
    apply List.Forall_forall. intros [k x] Hin.
    apply field_result_total.
    assert (Hn : 2 <= n) by (cbn [json_depth] in Hd; lia).
    destruct n as [|[|n']]; try lia.
    apply prepare_fields_In in Hin as [Hin|[[-> [s ->]]|[-> [s ->]]]].
    + apply (resolve_reference_In _ _ _ _ Er) in Hin
        as [Hin|[-> [s ->]]];
        [|rewrite passed_value_other by discriminate; cbn; eauto].
      apply IH.
      * apply passed_value_wf. destruct Hwf as [_ Hall].
        rewrite List.Forall_forall in Hall. apply (Hall (k, x) Hin).
      * pose proof (passed_value_depth
                      (eq_str (py_get "resourceType" fields)
                         "MedicationRequest") k x).
        apply json_depth_field in Hin. lia.
    + rewrite passed_value_other by discriminate. cbn [String.eqb Ascii.eqb Bool.eqb andb].
      rewrite rr_reference_object. eauto.
    + rewrite passed_value_other by discriminate. cbn [String.eqb Ascii.eqb Bool.eqb andb].
      rewrite rr_reference_object. eauto.
Qed.

(** No field [period] is left, at any depth. *)
Lemma rr_no_period n : forall v pk e p c r,
  json_wf v = true -> rr n v pk e p c = Some r -> no_period r = true.
Proof.
  induction n as [|n IH]; intros v pk e p c r Hwf; [discriminate|].
  destruct v as [| | | |items|fields];
    try (cbn; now intros [= <-]).
  - rewrite (rr_list py_repr unicode_alnum uuid_map identifier_map
               organization_id practitioner_id).
    destruct (rewrite_items _ items) as [out|] eqn:Eo;
      cbn [mbind option_bind]; [|discriminate].
    intros [= <-]. cbn [no_period]. apply forallb_forall. intros r Hin.
    apply rewrite_items_kept in Eo. rewrite List.Forall_forall in Eo.
    destruct (Eo r Hin) as (_ & item & Hitem & Hr).
    apply (IH _ _ _ _ _ _) in Hr; [exact Hr|].
    apply json_wf_list in Hwf. rewrite List.Forall_forall in Hwf. auto.
  - apply json_wf_obj in Hwf.
    rewrite (rr_obj py_repr unicode_alnum uuid_map identifier_map
               organization_id practitioner_id) by apply Hwf.
    destruct (resolve fields) as [|f1] eqn:Er; [now intros [= <-]|].
    destruct (rewrite_fields _ _ _ _ _ _ _) as [out|] eqn:Eo;
      cbn [mbind option_bind]; [|discriminate].
    intros [= <-]. cbn [no_period]. apply andb_true_intro. split.
    + apply negb_true_iff. unfold dict_mem.
      replace (dict_get "period" out) with (@None json); [reflexivity|].
      symmetry. apply dict_get_none_keys. intros Hin.
      now apply (rewrite_fields_keys _ _ _ _ _ _ _ _ _ Eo) in Hin as [_ Hp].
    + apply forallb_forall. intros kv' Hin.
      apply rewrite_fields_kept in Eo. rewrite List.Forall_forall in Eo.
      destruct (Eo kv' Hin) as (value & Hv & Hr).
      apply field_result_kept in Hr as (_ & _ & _ & Hr).
      apply IH in Hr; [exact Hr|].
      apply passed_value_wf.
      pose proof (prepare_fields_wf organization_id practitioner_id e p c f1
                    (resolve_reference_wf py_repr unicode_alnum uuid_map
                       identifier_map fields f1 Hwf Er)) as [_ Hall].
      rewrite List.Forall_forall in Hall. apply (Hall _ Hv).
Qed.

(** C8: whatever the document, the rewrite returns, and no object of what
    it returns has a field [period], at any depth. *)
Theorem period_removed_everywhere fuel obj pk e p c :
  json_wf obj = true ->
  json_depth obj + 2 <= fuel ->
  exists r, rr fuel obj pk e p c = Some r /\ no_period r = true.
Proof.
  intros Hwf Hd. destruct (rr_total fuel obj pk e p c Hwf Hd) as [r Hr].
  exists r. split; [exact Hr|]. eapply rr_no_period; eassumption.
Qed.
End RewriterTotal.

(** ** Tree rewriter: reference nodes *)

Lemma dict_get_filter_keep {V} (q : string * V -> bool) k d :
  (forall v, q (k, v) = true) ->
  dict_get k (List.filter q d) = dict_get k d.
Proof.
  intros Hq. induction d as [|[k0 v0] d IH]; cbn [List.filter dict_get];
    [reflexivity|].
  destruct (String.eqb_spec k0 k) as [->|Hne].
  - rewrite Hq. cbn [dict_get]. now rewrite String.eqb_refl.
  - destruct (q (k0, v0)); [|exact IH]. cbn [dict_get].
    destruct (String.eqb_spec k0 k); [contradiction|exact IH].
Qed.

Lemma strict_uuid_is_uuid_format s :
  strict_uuid s = true -> is_uuid_format s = true.
Proof.
  unfold strict_uuid, is_uuid_format.
  destruct (uuid_groups s) as [[|c r]|]; try discriminate. reflexivity.
Qed.

(** *** Canonical references *)

Lemma prefix_empty s : String.prefix "" s = true.
Proof. now destruct s. Qed.

Lemma prefix_cons a p b s :
  String.prefix (String a p) (String b s) = Ascii.eqb a b && String.prefix p s.
Proof.
  cbn [String.prefix]. destruct (ascii_dec a b) as [->|Hne].
  - now rewrite Ascii.eqb_refl.
  - destruct (Ascii.eqb_spec a b); [contradiction|reflexivity].
Qed.

Lemma append_cons a r s : String a r +:+ s = String a (r +:+ s).
Proof. reflexivity. Qed.

Lemma str_contains_char c s :
  str_contains (String c EmptyString) s = has_char c s.
Proof.
  induction s as [|a r IH]; [reflexivity|].
  cbn [str_contains has_char String.prefix]. rewrite IH.
  destruct (ascii_dec c a) as [->|Hne].
  - now rewrite prefix_empty, Ascii.eqb_refl.
  - destruct (Ascii.eqb_spec a c); [congruence|reflexivity].
Qed.

Lemma has_char_app c s1 s2 :
  has_char c (s1 +:+ s2) = has_char c s1 || has_char c s2.
Proof.
  induction s1 as [|a r IH]; [reflexivity|].
  simpl. now rewrite IH, orb_assoc.
Qed.

Lemma all_chars_lack p c s :
  p c = false -> all_chars p s = true -> has_char c s = false.
Proof.
  intros Hc. induction s as [|a r IH]; [reflexivity|].
  cbn [all_chars has_char]. intros [Ha Hr]%andb_prop.
  rewrite (IH Hr), orb_false_r.
  destruct (Ascii.eqb_spec a c); [congruence|reflexivity].
Qed.

Lemma take_hex_has_char c n : forall s r,
  is_hex c = false -> take_hex n s = Some r -> has_char c s = has_char c r.
Proof.
  induction n as [|n IH]; intros s r Hc; cbn [take_hex].
  - now intros [= ->].
  - destruct s as [|a s]; [discriminate|].
    destruct (is_hex a) eqn:Ea; [|discriminate].
    intros H. cbn [has_char]. rewrite (IH _ _ Hc H).
    destruct (Ascii.eqb_spec a c); [congruence|reflexivity].
Qed.

Lemma take_hyphen_has_char c s r :
  Ascii.eqb "-" c = false ->
  take_hyphen s = Some r -> has_char c s = has_char c r.
Proof.
  intros Hc. destruct s as [|a s]; [discriminate|]. cbn [take_hyphen].
  destruct (Ascii.eqb_spec a "-") as [->|]; [|discriminate].
  intros [= ->]. cbn [has_char]. now rewrite Hc.
Qed.

(** A string of the UUID shape holds no [|]. *)
Lemma is_uuid_format_no_pipe u :
  is_uuid_format u = true -> has_char "|" u = false.
Proof.
  unfold is_uuid_format, uuid_groups.
  repeat match goal with
         | |- context [take_hex ?n ?s] =>
             let E := fresh "E" in
             destruct (take_hex n s) eqn:E; cbn [mbind option_bind];
             [apply (take_hex_has_char "|") in E as ->; [|reflexivity]
             |discriminate]
         | |- context [take_hyphen ?s] =>
             let E := fresh "E" in
             destruct (take_hyphen s) eqn:E; cbn [mbind option_bind];
             [apply (take_hyphen_has_char "|") in E as ->; [|reflexivity]
             |discriminate]
         end.
  destruct s7 as [|c [|? ?]]; try discriminate; [reflexivity|].
  intros ->%Ascii.eqb_eq. reflexivity.
Qed.

Lemma split_once_app t u :
  has_char "/" t = false ->
  split_once "/" (t +:+ String "/" u) = [t; u].
Proof.
  induction t as [|a r IH]; simpl.
  - reflexivity.
  - intros [Ha Hr]%orb_false_elim. rewrite Ha, (IH Hr). reflexivity.
Qed.

(** A reference [<type>/<uuid>] whose type name is made of ASCII letters
    and digits reaches the ResourceType/ID branch. *)
Lemma canonical_is_bare t u :
  all_chars ascii_alnum t = true ->
  is_uuid_format u = true ->
  bare_reference (t +:+ String "/" u) = true /\
  split_once "/" (t +:+ String "/" u) = [t; u].
Proof.
  intros Ht Hu. split.
  2: { apply split_once_app. now apply (all_chars_lack ascii_alnum). }
  unfold bare_reference.
  assert (Hpipe : str_contains "|" (t +:+ String "/" u) = false).
  { rewrite str_contains_char, has_char_app.
    rewrite (all_chars_lack ascii_alnum "|" t eq_refl Ht).
    cbn [has_char orb Ascii.eqb Bool.eqb].
    now apply is_uuid_format_no_pipe. }
  assert (Hslash : str_contains "/" (t +:+ String "/" u) = true).
  { rewrite str_contains_char, has_char_app. cbn [has_char].
    rewrite Ascii.eqb_refl. cbn [orb]. apply orb_true_r. }
  assert (Hhash : startswith (t +:+ String "/" u) "#" = false).
  { unfold startswith. destruct t as [|a r]; [reflexivity|].
    rewrite append_cons, prefix_cons.
    destruct (Ascii.eqb_spec "#" a) as [<-|]; [|reflexivity].
    cbn in Ht. discriminate. }
  assert (Hurn : startswith (t +:+ String "/" u) "urn:uuid:" = false).
  { unfold startswith.
    destruct t as [|a [|b [|c [|d r]]]];
      rewrite ?append_cons; change (EmptyString +:+ String "/" u)
                              with (String "/" u);
      rewrite !prefix_cons;
      repeat match goal with
             | |- context [Ascii.eqb ?x ?y] =>
                 is_var y;
                 destruct (Ascii.eqb_spec x y) as [<-|]; cbn [andb];
                 try reflexivity
             end;
      try reflexivity.
    cbn in Ht. discriminate. }
  now rewrite Hurn, Hpipe, Hhash, Hslash, andb_false_r.
Qed.

Section ReferenceFacts.
Variable py_repr : json -> string.
Variable unicode_alnum : ascii -> bool.
Variable uuid_map : gmap string json.
Variable identifier_map : gmap hkey (json * json).
Variable organization_id : option string.
Variable practitioner_id : option string.

Abbreviation rr :=
  (replace_references py_repr unicode_alnum uuid_map identifier_map
     organization_id practitioner_id).
Abbreviation resolve :=
  (resolve_reference py_repr unicode_alnum uuid_map identifier_map).
Abbreviation prepare := (prepare_fields organization_id practitioner_id).
Abbreviation fmt := (format_value py_repr).

(** The injections and the CarePlan cleaning leave [reference] alone. *)
Lemma prepare_fields_reference e p c f :
  dict_get "reference" (prepare e p c f) = dict_get "reference" f.
Proof.
  unfold prepare_fields, add_who, clean_careplan_care_team, add_provider.
  transitivity (dict_get "reference"
    match organization_id with
    | Some org =>
        if e && negb (String.eqb org "") && negb (dict_mem "provider" f)
        then dict_set "provider"
               (JObj [("reference", JStr ("Organization/" +:+ org))]) f
        else f
    | None => f
    end).
  2: { destruct organization_id; [|reflexivity].
       destruct (_ && _ && _); [|reflexivity].
       now rewrite dict_get_set_ne by discriminate. }
  generalize (match organization_id with
    | Some org =>
        if e && negb (String.eqb org "") && negb (dict_mem "provider" f)
        then dict_set "provider"
               (JObj [("reference", JStr ("Organization/" +:+ org))]) f
        else f
    | None => f
    end). intros f1.
  transitivity (dict_get "reference"
    (if c && dict_mem "reference" f1
     then fold_left (fun o k => dict_del k o)
            (List.filter
               (fun k => negb (String.eqb k "reference"
                               || String.eqb k "display"))
               (dict_keys f1)) f1
     else f1)).
  2: { destruct (_ && _); [|reflexivity]. rewrite purge_filter.
       apply dict_get_filter_keep. intros v. cbn [fst].
       apply negb_true_iff. apply existsb_eqb_not_In.
       intros [_ H]%List.filter_In. discriminate. }
  generalize (if c && dict_mem "reference" f1
     then fold_left (fun o k => dict_del k o)
            (List.filter
               (fun k => negb (String.eqb k "reference"
                               || String.eqb k "display"))
               (dict_keys f1)) f1
     else f1). intros f2.
  destruct practitioner_id; [|reflexivity].
  destruct (_ && _ && _); [|reflexivity].
  now rewrite dict_get_set_ne by discriminate.
Qed.

(** An object that the reference checks remove is [None]. *)
Lemma rr_removed n fields pk e p c :
  resolve fields = Remove -> rr (S n) (JObj fields) pk e p c = Some JNull.
Proof.
  intros H. cbn [replace_references replace_references_body].
  now rewrite H.
Qed.

(** An object that the reference checks keep stays, with the reference
    string that they gave it. *)
Lemma rr_reference_kept fuel fields f1 s pk e p c :
  json_wf (JObj fields) = true ->
  json_depth (JObj fields) + 2 <= fuel ->
  resolve fields = Keep f1 ->
  dict_get "reference" f1 = Some (JStr s) ->
  exists out,
    rr fuel (JObj fields) pk e p c = Some (JObj out) /\
    dict_get "reference" out = Some (JStr s).
Proof.
  intros Hwf Hd Hr Hs.
  destruct (rr_total py_repr unicode_alnum uuid_map identifier_map
              organization_id practitioner_id fuel (JObj fields) pk e p c
              Hwf Hd) as [r Hrr].
  destruct fuel as [|[|n]]; try (cbn [json_depth] in Hd; lia).
  apply json_wf_obj in Hwf.
  rewrite (rr_obj py_repr unicode_alnum uuid_map identifier_map
             organization_id practitioner_id) in Hrr |- * by apply Hwf.
  rewrite Hr in Hrr |- *.
  destruct (rewrite_fields _ _ _ _ _ _ _) as [out|] eqn:Eo;
    cbn [mbind option_bind] in Hrr |- *; [|discriminate].
  exists out. split; [reflexivity|].
  assert (Hwf1 := prepare_fields_wf organization_id practitioner_id e p c f1
                    (resolve_reference_wf py_repr unicode_alnum uuid_map
                       identifier_map fields f1 Hwf Hr)).
  rewrite (rewrite_fields_get _ _ _ _ _ _ _ _ _ (proj1 Hwf1) Eo).
  rewrite prepare_fields_reference, Hs.
  cbn [field_result String.eqb Ascii.eqb Bool.eqb].
  rewrite andb_false_r, passed_value_other by discriminate.
  reflexivity.
Qed.

(** C5: an object whose reference starts with [urn:uuid:] and whose UUID
    is not in the UUID map stays, with its reference string as it was;
    whereas an unresolved identifier reference, an internal [#] reference
    and an unresolved bare-ID reference make the object [None]. *)
Theorem unresolved_urn_uuid_kept fuel fields ref_value pk e p c :
  json_wf (JObj fields) = true ->
  json_depth (JObj fields) + 2 <= fuel ->
  dict_get "reference" fields = Some (JStr ref_value) ->
  (startswith ref_value "urn:uuid:" = true ->
   uuid_map !! str_replace "urn:uuid:" "" ref_value = None ->
   exists out,
     rr fuel (JObj fields) pk e p c = Some (JObj out) /\
     dict_get "reference" out = Some (JStr ref_value)) /\
  (identifier_shaped ref_value = true ->
   (forall resource_type system value,
      match_identifier_reference unicode_alnum ref_value
      = Some (resource_type, system, value) ->
      identifier_map !! HStr value = None ->
      rr fuel (JObj fields) pk e p c = Some JNull)) /\
  (startswith ref_value "urn:uuid:" = false ->
   identifier_shaped ref_value = false ->
   startswith ref_value "#" = true ->
   rr fuel (JObj fields) pk e p c = Some JNull) /\
  (bare_reference ref_value = true ->
   forall resource_type id_part,
     split_once "/" ref_value = [resource_type; id_part] ->
     is_uuid_format id_part = false ->
     identifier_map !! HStr id_part = None ->
     rr fuel (JObj fields) pk e p c = Some JNull).
Proof.
  intros Hwf Hd Href.
  assert (Hfuel : exists n, fuel = S n)
    by (destruct fuel; [lia|eauto]).
  destruct Hfuel as [n ->].
  repeat split.
  - intros Hurn Hmiss.
    apply (rr_reference_kept (S n) fields fields ref_value); auto.
    unfold resolve_reference. now rewrite Href, Hurn, Hmiss.
  - unfold identifier_shaped. intros [Hurn Hid]%andb_prop rt sys v Hm Hv.
    apply negb_true_iff in Hurn.
    apply rr_removed. unfold resolve_reference.
    now rewrite Href, Hurn, Hid, Hm, Hv.
  - unfold identifier_shaped. intros Hurn Hid Hhash.
    rewrite Hurn in Hid. cbn [negb andb] in Hid.
    apply rr_removed. unfold resolve_reference.
    now rewrite Href, Hurn, Hid, Hhash.
  - unfold bare_reference.
    intros [[[Hurn Hid]%andb_prop Hhash]%andb_prop Hslash]%andb_prop
      rt id Hsplit Hfmt Hv.
    apply negb_true_iff in Hurn, Hid, Hhash.
    apply rr_removed. unfold resolve_reference.
    now rewrite Href, Hurn, Hid, Hhash, Hslash, Hsplit, Hfmt, Hv.
Qed.

(** C4, as amended: an object whose reference reaches the ResourceType/ID
    branch (it does not start with [urn:uuid:] or [#] and does not hold
    both [?identifier=] and [|]) and whose id part, behind the first [/],
    has the UUID shape, stays, with its reference string as it was.  So it
    is for every canonical reference [<type>/<uuid>] whose type name is
    made of ASCII letters and digits: a second pass changes none of
    them. *)
Theorem uuid_reference_unchanged fuel fields ref_value pk e p c :
  json_wf (JObj fields) = true ->
  json_depth (JObj fields) + 2 <= fuel ->
  dict_get "reference" fields = Some (JStr ref_value) ->
  (forall resource_type id_part,
     bare_reference ref_value = true ->
     split_once "/" ref_value = [resource_type; id_part] ->
     is_uuid_format id_part = true ->
     exists out,
       rr fuel (JObj fields) pk e p c = Some (JObj out) /\
       dict_get "reference" out = Some (JStr ref_value)) /\
  (forall resource_type uuid,
     ref_value = resource_type +:+ String "/" uuid ->
     all_chars ascii_alnum resource_type = true ->
     is_uuid_format uuid = true ->
     exists out,
       rr fuel (JObj fields) pk e p c = Some (JObj out) /\
       dict_get "reference" out = Some (JStr ref_value)).
Proof.
  intros Hwf Hd Href.
  assert (Hmain : forall resource_type id_part,
     bare_reference ref_value = true ->
     split_once "/" ref_value = [resource_type; id_part] ->
     is_uuid_format id_part = true ->
     exists out,
       rr fuel (JObj fields) pk e p c = Some (JObj out) /\
       dict_get "reference" out = Some (JStr ref_value)).
  { intros rt id Hbare Hsplit Hfmt.
    apply (rr_reference_kept fuel fields fields ref_value); auto.
    unfold bare_reference in Hbare.
    apply andb_prop in Hbare
      as [[[Hurn Hid]%andb_prop Hhash]%andb_prop Hslash].
    apply negb_true_iff in Hurn, Hid, Hhash.
    unfold resolve_reference.
    now rewrite Href, Hurn, Hid, Hhash, Hslash, Hsplit, Hfmt. }
  split; [exact Hmain|].
  intros rt u -> Ht Hu.
  destruct (canonical_is_bare rt u Ht Hu) as [Hbare Hsplit].
  now apply (Hmain rt u).
Qed.

(** C6, as amended: for an object whose reference does not start with
    [urn:uuid:] and holds both [?identifier=] and [|]: when the pattern
    matches and the value is a key of the identifier map, the reference
    becomes the mapped type and id; when it matches and the value is not
    a key, the object is [None]; when it does not match, the object
    stays, with its reference string as it was. *)
Theorem identifier_reference_resolved fuel fields ref_value pk e p c :
  json_wf (JObj fields) = true ->
  json_depth (JObj fields) + 2 <= fuel ->
  dict_get "reference" fields = Some (JStr ref_value) ->
  identifier_shaped ref_value = true ->
  (forall resource_type system value mapped_type mapped_id,
     match_identifier_reference unicode_alnum ref_value
     = Some (resource_type, system, value) ->
     identifier_map !! HStr value = Some (mapped_type, mapped_id) ->
     exists out,
       rr fuel (JObj fields) pk e p c = Some (JObj out) /\
       dict_get "reference" out
       = Some (JStr (fmt mapped_type +:+ "/" +:+ fmt mapped_id))) /\
  (forall resource_type system value,
     match_identifier_reference unicode_alnum ref_value
     = Some (resource_type, system, value) ->
     identifier_map !! HStr value = None ->
     rr fuel (JObj fields) pk e p c = Some JNull) /\
  (match_identifier_reference unicode_alnum ref_value = None ->
   exists out,
     rr fuel (JObj fields) pk e p c = Some (JObj out) /\
     dict_get "reference" out = Some (JStr ref_value)).
Proof.
  intros Hwf Hd Href [Hurn Hid]%andb_prop.
  apply negb_true_iff in Hurn.
  assert (Hfuel : exists n, fuel = S n)
    by (destruct fuel; [lia|eauto]).
  repeat split.
  - intros rt sys v mt mid Hm Hv.
    eapply (rr_reference_kept fuel fields); eauto.
    + unfold resolve_reference. now rewrite Href, Hurn, Hid, Hm, Hv.
    + apply dict_get_set_eq.
  - intros rt sys v Hm Hv. destruct Hfuel as [n ->]. apply rr_removed.
    unfold resolve_reference. now rewrite Href, Hurn, Hid, Hm, Hv.
  - intros Hm. apply (rr_reference_kept fuel fields fields ref_value); auto.
    unfold resolve_reference. now rewrite Href, Hurn, Hid, Hm.
Qed.
End ReferenceFacts.

(** ** Tree rewriter: injected references *)

Section InjectedFacts.
Variable py_repr : json -> string.
Variable unicode_alnum : ascii -> bool.
Variable uuid_map : gmap string json.
Variable identifier_map : gmap hkey (json * json).
Variable organization_id : option string.
Variable practitioner_id : option string.

Abbreviation rr :=
  (replace_references py_repr unicode_alnum uuid_map identifier_map
     organization_id practitioner_id).
Abbreviation resolve :=
  (resolve_reference py_repr unicode_alnum uuid_map identifier_map).
Abbreviation prepare := (prepare_fields organization_id practitioner_id).
Abbreviation fmt := (format_value py_repr).

Lemma resolve_organization_reference id :
  resolve [("reference", JStr ("Organization/" +:+ id))]
  = resolve_bare_id py_repr identifier_map ("Organization/" +:+ id) id.
Proof.
  unfold resolve_reference, resolve_bare_id. cbn [dict_get String.eqb Ascii.eqb Bool.eqb].
  change (startswith ("Organization/" +:+ id) "urn:uuid:") with false.
  change (str_contains "?identifier=" ("Organization/" +:+ id))
    with (str_contains "?identifier=" id).
  change (str_contains "|" ("Organization/" +:+ id))
    with (str_contains "|" id).
  change (match_identifier_reference unicode_alnum ("Organization/" +:+ id))
    with (@None (string * string * string)).
  change (startswith ("Organization/" +:+ id) "#") with false.
  replace (str_contains "/" ("Organization/" +:+ id)) with true
    by (destruct id; reflexivity).
  change (split_once "/" ("Organization/" +:+ id))
    with ["Organization"; id].
  cbn [dict_set String.eqb Ascii.eqb Bool.eqb].
  reflexivity.
Qed.

Lemma resolve_practitioner_reference id :
  resolve [("reference", JStr ("Practitioner/" +:+ id))]
  = resolve_bare_id py_repr identifier_map ("Practitioner/" +:+ id) id.
Proof.
  unfold resolve_reference, resolve_bare_id. cbn [dict_get String.eqb Ascii.eqb Bool.eqb].
  change (startswith ("Practitioner/" +:+ id) "urn:uuid:") with false.
  change (str_contains "?identifier=" ("Practitioner/" +:+ id))
    with (str_contains "?identifier=" id).
  change (str_contains "|" ("Practitioner/" +:+ id))
    with (str_contains "|" id).
  change (match_identifier_reference unicode_alnum ("Practitioner/" +:+ id))
    with (@None (string * string * string)).
  change (startswith ("Practitioner/" +:+ id) "#") with false.
  replace (str_contains "/" ("Practitioner/" +:+ id)) with true
    by (destruct id; reflexivity).
  change (split_once "/" ("Practitioner/" +:+ id))
    with ["Practitioner"; id].
  cbn [dict_set String.eqb Ascii.eqb Bool.eqb].
  reflexivity.
Qed.

Lemma field_result_injected rec io icp imr ie ip key x :
  key = "provider" \/ key = "who" ->
  field_result rec io icp imr ie ip (key, x)
  = (result ← rec x (Some key) false false false;
     Some (if is_none result then None else Some (key, result))).
Proof.
  intros [-> | ->]; unfold field_result;
    cbn [String.eqb Ascii.eqb Bool.eqb]; rewrite andb_false_r;
    rewrite passed_value_other by discriminate; reflexivity.
Qed.

Lemma resolve_reference_mem fields f1 k :
  k <> "reference" ->
  resolve fields = Keep f1 -> dict_mem k f1 = dict_mem k fields.
Proof.
  intros Hk H.
  destruct (resolve_reference_cases py_repr unicode_alnum uuid_map
              identifier_map fields) as [H'|[H'|(old & new & _ & H')]];
    rewrite H' in H; try discriminate; injection H as <-; [reflexivity|].
  now apply dict_mem_set_ne.
Qed.

Lemma resolve_bare_id_survives ref_value id :
  match resolve_bare_id py_repr identifier_map ref_value id with
  | Keep _ => true
  | Remove => false
  end
  = (str_contains "?identifier=" id && str_contains "|" id)
    || is_uuid_format id
    || bool_decide (is_Some (identifier_map !! HStr id)).
Proof.
  unfold resolve_bare_id.
  destruct (str_contains "?identifier=" id && str_contains "|" id);
    [reflexivity|].
  destruct (is_uuid_format id); [reflexivity|]. cbn [orb].
  destruct (identifier_map !! HStr id) as [[mt mid]|]; symmetry.
  - apply bool_decide_eq_true. eauto.
  - apply bool_decide_eq_false. now intros [? [=]].
Qed.

(** The field that one pass injects and then goes through. *)
Lemma rr_injected fuel fields f1 pk e p c key ref_value id :
  json_wf (JObj fields) = true ->
  json_depth (JObj fields) + 2 <= fuel ->
  resolve fields = Keep f1 ->
  key = "provider" \/ key = "who" ->
  dict_get key (prepare e p c f1) = Some (reference_object ref_value) ->
  resolve [("reference", JStr ref_value)]
  = resolve_bare_id py_repr identifier_map ref_value id ->
  exists out,
    rr fuel (JObj fields) pk e p c = Some (JObj out) /\
    dict_get key out
    = match resolve_bare_id py_repr identifier_map ref_value id with
      | Keep f => Some (JObj f)
      | Remove => None
      end.
Proof.
  intros Hwf Hd Hr Hkey Hget Hres.
  destruct (rr_total py_repr unicode_alnum uuid_map identifier_map
              organization_id practitioner_id fuel (JObj fields) pk e p c
              Hwf Hd) as [r Hrr].
  destruct fuel as [|[|[|n]]]; try (cbn [json_depth] in Hd; lia).
  apply json_wf_obj in Hwf.
  rewrite (rr_obj py_repr unicode_alnum uuid_map identifier_map
             organization_id practitioner_id) in Hrr |- * by apply Hwf.
  rewrite Hr in Hrr |- *.
  destruct (rewrite_fields _ _ _ _ _ _ _) as [out|] eqn:Eo;
    cbn [mbind option_bind] in Hrr |- *; [|discriminate].
  exists out. split; [reflexivity|].
  assert (Hwf1 := prepare_fields_wf organization_id practitioner_id e p c f1
                    (resolve_reference_wf py_repr unicode_alnum uuid_map
                       identifier_map fields f1 Hwf Hr)).
  rewrite (rewrite_fields_get _ _ _ _ _ _ _ _ _ (proj1 Hwf1) Eo).
  rewrite Hget, (field_result_injected _ _ _ _ _ _ _ _ Hkey).
  rewrite (rr_reference_object py_repr unicode_alnum uuid_map identifier_map
             organization_id practitioner_id), Hres.
  cbn [mbind option_bind].
  now destruct (resolve_bare_id py_repr identifier_map ref_value id).
Qed.

(** C9, as amended: the [provider] object (respectively [who]) is added
    before the loop takes its snapshot of the fields, and the same pass
    goes through it as through any reference node.  The injected field is
    in the result if and only if the id holds both [?identifier=] and
    [|], or has the UUID shape, or is a key of the identifier map;
    otherwise the bare-ID rule removes the injected object again. *)
Theorem injected_reference_survives fuel fields f1 pk :
  json_wf (JObj fields) = true ->
  json_depth (JObj fields) + 2 <= fuel ->
  resolve fields = Keep f1 ->
  (forall org p,
     organization_id = Some org -> org <> "" ->
     dict_mem "provider" fields = false ->
     exists out,
       rr fuel (JObj fields) pk true p false = Some (JObj out) /\
       dict_get "provider" out
       = match resolve [("reference", JStr ("Organization/" +:+ org))] with
         | Keep f => Some (JObj f)
         | Remove => None
         end /\
       dict_mem "provider" out
       = (str_contains "?identifier=" org && str_contains "|" org)
         || is_uuid_format org
         || bool_decide (is_Some (identifier_map !! HStr org))) /\
  (forall prac e c,
     practitioner_id = Some prac -> prac <> "" ->
     dict_mem "who" fields = false ->
     exists out,
       rr fuel (JObj fields) pk e true c = Some (JObj out) /\
       dict_get "who" out
       = match resolve [("reference", JStr ("Practitioner/" +:+ prac))] with
         | Keep f => Some (JObj f)
         | Remove => None
         end /\
       dict_mem "who" out
       = (str_contains "?identifier=" prac && str_contains "|" prac)
         || is_uuid_format prac
         || bool_decide (is_Some (identifier_map !! HStr prac))).
Proof.
  intros Hwf Hd Hr. split.
  - intros org p Horg Hne Hmem.
    destruct (rr_injected fuel fields f1 pk true p false "provider"
                ("Organization/" +:+ org) org Hwf Hd Hr)
      as (out & Hrr & Hget).
    + now left.
    + unfold prepare_fields, add_who, clean_careplan_care_team,
        add_provider.
      rewrite Horg. cbn [andb].
      rewrite (resolve_reference_mem _ _ "provider" ltac:(discriminate) Hr).
      rewrite Hmem. apply String.eqb_neq in Hne. rewrite Hne. cbn [negb andb].
      destruct practitioner_id as [prac|]; [|apply dict_get_set_eq].
      destruct (p && _ && _); [|apply dict_get_set_eq].
      rewrite dict_get_set_ne by discriminate. apply dict_get_set_eq.
    + apply resolve_organization_reference.
    + exists out. rewrite resolve_organization_reference.
      repeat split; [exact Hrr|exact Hget|].
      rewrite <- (resolve_bare_id_survives ("Organization/" +:+ org)).
      unfold dict_mem. rewrite Hget.
      now destruct (resolve_bare_id _ _ _ _).
  - intros prac e c Hprac Hne Hmem.
    destruct (rr_injected fuel fields f1 pk e true c "who"
                ("Practitioner/" +:+ prac) prac Hwf Hd Hr)
      as (out & Hrr & Hget).
    + now right.
    + unfold prepare_fields, add_who. rewrite Hprac. cbn [andb].
      apply String.eqb_neq in Hne. rewrite Hne. cbn [negb andb].
      replace (dict_mem "who" _) with false; [apply dict_get_set_eq|].
      symmetry. unfold clean_careplan_care_team, add_provider.
      assert (Hf1 : dict_mem "who" f1 = false)
        by (now rewrite (resolve_reference_mem _ _ "who"
                           ltac:(discriminate) Hr)).
      assert (Hp : dict_mem "who"
        match organization_id with
        | Some org =>
            if e && negb (String.eqb org "") && negb (dict_mem "provider" f1)
            then dict_set "provider"
                   (JObj [("reference", JStr ("Organization/" +:+ org))]) f1
            else f1
        | None => f1
        end = false).
      { destruct organization_id; [|exact Hf1].
        destruct (_ && _ && _); [|exact Hf1].
        now rewrite dict_mem_set_ne by discriminate. }
      revert Hp. generalize (match organization_id with
        | Some org =>
            if e && negb (String.eqb org "") && negb (dict_mem "provider" f1)
            then dict_set "provider"
                   (JObj [("reference", JStr ("Organization/" +:+ org))]) f1
            else f1
        | None => f1
        end). intros f2 Hp.
      destruct (c && _); [|exact Hp].
      unfold dict_mem in Hp |- *.
      destruct (dict_get "who" f2) eqn:E2; [discriminate|].
      apply dict_get_none_keys in E2.
      replace (dict_get "who" _) with (@None json); [reflexivity|].
      symmetry. apply dict_get_none_keys. intros Hin. apply E2.
      rewrite purge_filter in Hin.
      apply in_map_iff in Hin as (kv & <- & Hkv%List.filter_In).
      apply in_map. tauto.
    + apply resolve_practitioner_reference.
    + exists out. rewrite resolve_practitioner_reference.
      repeat split; [exact Hrr|exact Hget|].
      rewrite <- (resolve_bare_id_survives ("Practitioner/" +:+ prac)).
      unfold dict_mem. rewrite Hget.
      now destruct (resolve_bare_id _ _ _ _).
Qed.
End InjectedFacts.

(** ** Tree rewriter: CarePlan care teams and dosage instructions *)

Lemma In_dict_get {V} k (v : V) d :
  NoDup (map fst d) -> In (k, v) d -> dict_get k d = Some v.
Proof.
  induction d as [|[k0 v0] d IH]; cbn [map fst dict_get]; [intros _ []|].
  intros [Hk Hd]%NoDup_cons [[= -> ->]|Hin].
  - now rewrite String.eqb_refl.
  - destruct (String.eqb_spec k0 k) as [->|Hne]; [|now apply IH].
    exfalso. apply Hk. apply list_elem_of_In. now apply (in_map fst) in Hin.
Qed.

Lemma dict_mem_false_keys {V} k (d : list (string * V)) :
  dict_mem k d = false <-> ~ In k (map fst d).
Proof.
  unfold dict_mem. rewrite <- dict_get_none_keys.
  destruct (dict_get k d); split; congruence.
Qed.

Lemma Forall2_impl_In {A B} (P Q : A -> B -> Prop) l l' :
  (forall a b, In a l -> P a b -> Q a b) -> Forall2 P l l' -> Forall2 Q l l'.
Proof.
  intros H HF. induction HF as [|a b l l' Hab HF IH]; constructor.
  - apply H; [now left|exact Hab].
  - apply IH. intros a' b' Hin. apply H. now right.
Qed.

Section ContextFacts.
Variable py_repr : json -> string.
Variable unicode_alnum : ascii -> bool.
Variable uuid_map : gmap string json.
Variable identifier_map : gmap hkey (json * json).
Variable organization_id : option string.
Variable practitioner_id : option string.

Abbreviation rr :=
  (replace_references py_repr unicode_alnum uuid_map identifier_map
     organization_id practitioner_id).
Abbreviation resolve :=
  (resolve_reference py_repr unicode_alnum uuid_map identifier_map).
Abbreviation prepare := (prepare_fields organization_id practitioner_id).

(** A field of the loop that is not [reference], [provider] or [who] is
    a field of the object as it came in. *)
Lemma prepare_fields_original fields f1 e p c k x :
  fields_wf fields ->
  resolve fields = Keep f1 ->
  k <> "reference" -> k <> "provider" -> k <> "who" ->
  dict_get k (prepare e p c f1) = Some x ->
  dict_get k fields = Some x.
Proof.
  intros Hwf Hr H1 H2 H3 Hget.
  apply dict_get_some_in in Hget.
  apply prepare_fields_In in Hget as [Hin|[[-> _]|[-> _]]];
    try contradiction.
  apply (resolve_reference_In py_repr unicode_alnum uuid_map identifier_map
           _ _ _ _ Hr) in Hin as [Hin|[-> _]]; try contradiction.
  apply In_dict_get; [apply Hwf|exact Hin].
Qed.

(** A call gives an object for an object only. *)
Lemma rr_obj_result n v pk e p c out :
  rr n v pk e p c = Some (JObj out) -> exists fields, v = JObj fields.
Proof.
  destruct n as [|n]; [discriminate|]. cbn [replace_references].
  destruct v as [| | | |items|fields]; cbn [replace_references_body];
    try discriminate; [|eauto].
  destruct (list_loop _ items []); cbn [mbind option_bind]; discriminate.
Qed.

(** The keys of the result are keys that the loop went through. *)
Lemma rr_obj_keys n fields pk e p c out k :
  NoDup (map fst fields) ->
  rr (S n) (JObj fields) pk e p c = Some (JObj out) ->
  In k (map fst out) ->
  exists f1, resolve fields = Keep f1 /\ In k (map fst (prepare e p c f1)).
Proof.
  intros Hnd.
  rewrite (rr_obj py_repr unicode_alnum uuid_map identifier_map
             organization_id practitioner_id) by exact Hnd.
  destruct (resolve fields) as [|f1]; [discriminate|].
  destruct (rewrite_fields _ _ _ _ _ _ _) as [out'|] eqn:Eo;
    cbn [mbind option_bind]; [|discriminate].
  intros [= <-] Hin. exists f1. split; [reflexivity|].
  now apply (rewrite_fields_keys _ _ _ _ _ _ _ _ _ Eo) in Hin as [Hin _].
Qed.

Lemma clean_careplan_care_team_keys f k :
  dict_mem "reference" f = true ->
  In k (map fst (clean_careplan_care_team true f)) ->
  String.eqb k "reference" || String.eqb k "display" = true.
Proof.
  intros Hm. unfold clean_careplan_care_team. cbn [andb]. rewrite Hm.
  rewrite purge_filter.
  intros (kv & <- & [Hin Hkeep]%List.filter_In)%in_map_iff.
  apply negb_true_iff in Hkeep.
  destruct (String.eqb (fst kv) "reference" || String.eqb (fst kv) "display")
    eqn:E; [reflexivity|].
  exfalso.
  assert (Hdel : In (fst kv)
            (List.filter
               (fun k => negb (String.eqb k "reference"
                               || String.eqb k "display")) (dict_keys f))).
  { apply List.filter_In. split; [now apply in_map|now rewrite E]. }
  apply existsb_eqb_In in Hdel. congruence.
Qed.

(** An element of a CarePlan.careTeam list that has a [reference] comes
    out as [None] or with no field but [reference] and [display]. *)
Lemma careplan_care_team_element n fields pk e r :
  json_wf (JObj fields) = true ->
  dict_mem "reference" fields = true ->
  rr n (JObj fields) pk e false true = Some r ->
  r = JNull \/ exists out, r = JObj out /\ care_team_keys out = true.
Proof.
  intros Hwf Hm. destruct n as [|n]; [discriminate|].
  apply json_wf_obj in Hwf.
  rewrite (rr_obj py_repr unicode_alnum uuid_map identifier_map
             organization_id practitioner_id) by apply Hwf.
  destruct (resolve fields) as [|f1] eqn:Er; [intros [= <-]; now left|].
  destruct (rewrite_fields _ _ _ _ _ _ _) as [out|] eqn:Eo;
    cbn [mbind option_bind]; [|discriminate].
  intros [= <-]. right. exists out. split; [reflexivity|].
  unfold care_team_keys. apply forallb_forall. intros k Hin.
  apply (rewrite_fields_keys _ _ _ _ _ _ _ _ _ Eo) in Hin as [Hin _].
  unfold prepare_fields, add_who in Hin. cbn [andb] in Hin.
  assert (Hin' : In k (map fst (clean_careplan_care_team true
                                  (add_provider organization_id e f1))))
    by (now destruct practitioner_id).
  apply clean_careplan_care_team_keys in Hin'; [exact Hin'|].
  assert (Hf1 : dict_mem "reference" f1 = true).
  { destruct (resolve_reference_cases py_repr unicode_alnum uuid_map
                identifier_map fields) as [H'|[H'|(old & new & _ & H')]];
      rewrite H' in Er; try discriminate; injection Er as <-;
      [exact Hm|apply dict_mem_set_eq]. }
  unfold add_provider. destruct organization_id; [|exact Hf1].
  destruct (_ && _ && _); [|exact Hf1].
  now rewrite dict_mem_set_ne by discriminate.
Qed.

(** C3, as amended: the rewrite of a CarePlan resource returns; the
    [careTeam] list of what it returns holds, in order, the results that
    are not [None] of rewriting the elements of the list inside
    CarePlan.careTeam; and the result for an element that is an object
    with a [reference] field is [None] or an object with no field but
    [reference] and [display]. *)
Theorem careplan_care_team_references n fields items pk e p c :
  json_wf (JObj fields) = true ->
  json_depth (JObj fields) <= n ->
  eq_str (py_get "resourceType" fields) "CarePlan" = true ->
  dict_get "careTeam" fields = Some (JList items) ->
  exists r,
    rr (S (S n)) (JObj fields) pk e p c = Some r /\
    forall out v,
      r = JObj out -> dict_get "careTeam" out = Some v ->
      exists results,
        Forall2 (fun item result =>
                   rr n item (Some "careTeam") false false true
                   = Some result /\
                   forall f, item = JObj f ->
                             dict_mem "reference" f = true ->
                             result = JNull \/
                             exists f', result = JObj f' /\
                                        care_team_keys f' = true)
          items results /\
        v = JList (List.filter (fun r => negb (is_none r)) results).
Proof.
  intros Hwf Hd Hcp Hct.
  destruct (rr_total py_repr unicode_alnum uuid_map identifier_map
              organization_id practitioner_id (S (S n)) (JObj fields)
              pk e p c Hwf ltac:(lia)) as [r Hrr].
  exists r. split; [exact Hrr|]. intros out v -> Hv.
  pose proof Hwf as Hwf0. apply json_wf_obj in Hwf.
  rewrite (rr_obj py_repr unicode_alnum uuid_map identifier_map
             organization_id practitioner_id) in Hrr by apply Hwf.
  destruct (resolve fields) as [|f1] eqn:Er; [discriminate|].
  destruct (rewrite_fields _ _ _ _ _ _ _) as [out'|] eqn:Eo;
    cbn [mbind option_bind] in Hrr; [|discriminate].
  injection Hrr as ->.
  assert (Hwf1 := prepare_fields_wf organization_id practitioner_id e p c f1
                    (resolve_reference_wf py_repr unicode_alnum uuid_map
                       identifier_map fields f1 Hwf Er)).
  rewrite (rewrite_fields_get _ _ _ _ _ _ _ _ _ (proj1 Hwf1) Eo) in Hv.
  destruct (dict_get "careTeam" (prepare e p c f1)) as [x|] eqn:Ex;
    [|discriminate].
  apply (prepare_fields_original _ _ _ _ _ _ _ Hwf Er) in Ex;
    try discriminate.
  rewrite Hct in Ex. injection Ex as <-.
  destruct (field_result _ _ _ _ _ _ _) as [[kv'|]|] eqn:Ef;
    try discriminate.
  injection Hv as <-.
  apply field_result_kept in Ef as (_ & _ & _ & Hcall).
  rewrite passed_value_other in Hcall by discriminate.
  rewrite Hcp in Hcall.
  cbn [String.eqb Ascii.eqb Bool.eqb is_list andb] in Hcall.
  assert (Hie : eq_str (py_get "resourceType" (prepare e p c f1))
                  "ExplanationOfBenefit" = false).
  { unfold py_get.
    destruct (dict_get "resourceType" (prepare e p c f1)) as [x|] eqn:Ex;
      [|reflexivity].
    apply (prepare_fields_original _ _ _ _ _ _ _ Hwf Er) in Ex;
      try discriminate.
    unfold py_get in Hcp. rewrite Ex in Hcp.
    destruct x as [| | |s| |]; try discriminate. cbn in Hcp |- *.
    apply String.eqb_eq in Hcp as ->. reflexivity. }
  rewrite Hie in Hcall.
  rewrite (rr_list py_repr unicode_alnum uuid_map identifier_map
             organization_id practitioner_id) in Hcall.
  destruct (rewrite_items _ items) as [out_items|] eqn:Ei;
    cbn [mbind option_bind] in Hcall; [|discriminate].
  injection Hcall as <-.
  apply rewrite_items_results in Ei as (results & Hres & ->).
  exists results. split; [|reflexivity].
  eapply Forall2_impl_In; [|exact Hres].
  intros item result Hin Hcall. split; [exact Hcall|].
  intros f -> Hm.
  eapply careplan_care_team_element; [|exact Hm|exact Hcall].
  destruct Hwf as [_ Hall]. rewrite List.Forall_forall in Hall.
  apply dict_get_some_in in Hct. apply Hall in Hct. cbn [snd] in Hct.
  apply json_wf_list in Hct. rewrite List.Forall_forall in Hct. auto.
Qed.

Lemma dict_del_absent {V} k (d : list (string * V)) :
  dict_mem k d = false -> dict_del k d = d.
Proof.
  intros H%dict_mem_false_keys. unfold dict_del.
  induction d as [|[k0 v0] d IH]; cbn [List.filter fst]; [reflexivity|].
  cbn [map fst] in H.
  destruct (String.eqb_spec k0 k) as [->|Hne].
  - exfalso. apply H. now left.
  - cbn [negb]. rewrite IH; [reflexivity|]. intros Hin. apply H. now right.
Qed.

(** The dosage step takes the field away from each item that is an
    object, and does nothing else. *)
Lemma strip_additional_instruction_items items :
  strip_additional_instruction (JList items)
  = JList (map (without_field "additionalInstruction") items).
Proof.
  cbn [strip_additional_instruction]. f_equal. apply map_ext.
  intros [| | | | |f]; try reflexivity. cbn [without_field].
  destruct (dict_mem "additionalInstruction" f) eqn:E; [reflexivity|].
  now rewrite dict_del_absent.
Qed.

(** With no context flag set, a call adds no key to an object. *)
Lemma rr_plain_lacks n f pk out k :
  json_wf (JObj f) = true ->
  k <> "reference" ->
  dict_mem k f = false ->
  rr n (JObj f) pk false false false = Some (JObj out) ->
  dict_mem k out = false.
Proof.
  intros Hwf Hk Hm Hrr. destruct n as [|n]; [discriminate|].
  apply json_wf_obj in Hwf.
  apply dict_mem_false_keys. intros Hin.
  destruct (rr_obj_keys n f pk false false false out k (proj1 Hwf) Hrr Hin)
    as (f1 & Hr & Hin1).
  rewrite (prepare_fields_plain organization_id practitioner_id) in Hin1.
  assert (Hm1 : dict_mem k f1 = false).
  { destruct (resolve_reference_cases py_repr unicode_alnum uuid_map
                identifier_map f) as [H'|[H'|(old & new & _ & H')]];
      rewrite H' in Hr; try discriminate; injection Hr as <-;
      [exact Hm|now rewrite dict_mem_set_ne]. }
  now apply dict_mem_false_keys in Hm1.
Qed.

(** C2, as amended: in a MedicationRequest whose [dosageInstruction] is a
    list, the dosage step removes [additionalInstruction] from each item
    that is an object and goes no deeper than the items; the list then gets
    the rewrite that the value of every field gets, dosage items included.
    The rewrite returns, and no object in the [dosageInstruction] list of
    what it returns has the field. *)
Theorem dosage_additional_instruction_removed n fields items pk e p c :
  json_wf (JObj fields) = true ->
  json_depth (JObj fields) + 1 <= n ->
  eq_str (py_get "resourceType" fields) "MedicationRequest" = true ->
  dict_get "dosageInstruction" fields = Some (JList items) ->
  exists r,
    rr (S n) (JObj fields) pk e p c = Some r /\
    forall out v,
      r = JObj out -> dict_get "dosageInstruction" out = Some v ->
      rr n (JList (map (without_field "additionalInstruction") items))
        (Some "dosageInstruction") false false false = Some v /\
      exists items',
        v = JList items' /\
        items_lack "additionalInstruction" items' = true.
Proof.
  intros Hwf Hd Hmr Hdi.
  destruct (rr_total py_repr unicode_alnum uuid_map identifier_map
              organization_id practitioner_id (S n) (JObj fields)
              pk e p c Hwf ltac:(lia)) as [r Hrr].
  exists r. split; [exact Hrr|]. intros out v -> Hv.
  apply json_wf_obj in Hwf.
  rewrite (rr_obj py_repr unicode_alnum uuid_map identifier_map
             organization_id practitioner_id) in Hrr by apply Hwf.
  destruct (resolve fields) as [|f1] eqn:Er; [discriminate|].
  destruct (rewrite_fields _ _ _ _ _ _ _) as [out'|] eqn:Eo;
    cbn [mbind option_bind] in Hrr; [|discriminate].
  injection Hrr as ->.
  assert (Hwf1 := prepare_fields_wf organization_id practitioner_id e p c f1
                    (resolve_reference_wf py_repr unicode_alnum uuid_map
                       identifier_map fields f1 Hwf Er)).
  rewrite (rewrite_fields_get _ _ _ _ _ _ _ _ _ (proj1 Hwf1) Eo) in Hv.
  destruct (dict_get "dosageInstruction" (prepare e p c f1)) as [x|] eqn:Ex;
    [|discriminate].
  apply (prepare_fields_original _ _ _ _ _ _ _ Hwf Er) in Ex;
    try discriminate.
  rewrite Hdi in Ex. injection Ex as <-.
  destruct (field_result _ _ _ _ _ _ _) as [[kv'|]|] eqn:Ef;
    try discriminate.
  injection Hv as <-.
  apply field_result_kept in Ef as (_ & _ & _ & Hcall).
  unfold passed_value in Hcall. rewrite Hmr in Hcall.
  cbn [String.eqb Ascii.eqb Bool.eqb is_list andb] in Hcall.
  rewrite strip_additional_instruction_items in Hcall.
  cbn [is_list andb] in Hcall.
  split; [exact Hcall|].
  destruct n as [|n]; [discriminate|].
  rewrite (rr_list py_repr unicode_alnum uuid_map identifier_map
             organization_id practitioner_id) in Hcall.
  destruct (rewrite_items _ _) as [items'|] eqn:Ei;
    cbn [mbind option_bind] in Hcall; [|discriminate].
  injection Hcall as Hv. exists items'. split; [now symmetry|].
  apply forallb_forall. intros r Hin.
  apply rewrite_items_kept in Ei. rewrite List.Forall_forall in Ei.
  destruct (Ei r Hin) as (_ & item & Hitem & Hr).
  destruct r as [| | | | |f']; try reflexivity.
  apply negb_true_iff.
  destruct (rr_obj_result _ _ _ _ _ _ _ Hr) as [fs ->].
  apply in_map_iff in Hitem as (item0 & Hw & Hin0).
  destruct item0 as [| | | | |f0]; try discriminate.
  cbn [without_field] in Hw. injection Hw as <-.
  apply (rr_plain_lacks _ _ _ _ "additionalInstruction") in Hr;
    [exact Hr| |discriminate|].
  - apply json_wf_obj.
    apply (fields_wf_purge ["additionalInstruction"] f0).
    apply json_wf_obj.
    destruct Hwf as [_ Hall]. rewrite List.Forall_forall in Hall.
    apply dict_get_some_in in Hdi. apply Hall in Hdi. cbn [snd] in Hdi.
    apply json_wf_list in Hdi. rewrite List.Forall_forall in Hdi. auto.
  - unfold dict_mem. now rewrite dict_get_del_eq.
Qed.
End ContextFacts.

(** ** Tree rewriter: the fuel does not matter *)

Section FuelFacts.
Variable py_repr : json -> string.
Variable unicode_alnum : ascii -> bool.
Variable uuid_map : gmap string json.
Variable identifier_map : gmap hkey (json * json).
Variable organization_id : option string.
Variable practitioner_id : option string.

Abbreviation rr :=
  (replace_references py_repr unicode_alnum uuid_map identifier_map
     organization_id practitioner_id).

Lemma field_step_extends rec rec' io icp imr st kv st' :
  extends rec rec' ->
  field_step rec io icp imr st kv = Some st' ->
  field_step rec' io icp imr st kv = Some st'.
Proof.
  intros Hext. unfold field_step. destruct st as [obj dels], kv as [key value].
  destruct (String.eqb key "period"); [auto|].
  destruct (io && _); [auto|].
  destruct (if imr && String.eqb key "dosageInstruction" && is_list value
            then _ else _) as [value1 obj1].
  destruct (rec value1 _ _ _ _) as [result|] eqn:Er;
    cbn [mbind option_bind]; [|discriminate].
  now rewrite (Hext _ _ _ _ _ _ Er).
Qed.

Lemma fields_loop_extends rec rec' io icp imr snapshot : forall st st',
  extends rec rec' ->
  fields_loop rec io icp imr snapshot st = Some st' ->
  fields_loop rec' io icp imr snapshot st = Some st'.
Proof.
  induction snapshot as [|kv rest IH]; intros st st' Hext; cbn [fields_loop];
    [auto|].
  destruct (field_step rec io icp imr st kv) as [st1|] eqn:E1;
    cbn [mbind option_bind]; [|discriminate].
  rewrite (field_step_extends _ _ _ _ _ _ _ _ Hext E1).
  cbn [mbind option_bind]. now apply IH.
Qed.

Lemma list_loop_extends (rec1 rec1' : json -> option json) items :
  forall new_list out,
  (forall item r, rec1 item = Some r -> rec1' item = Some r) ->
  list_loop rec1 items new_list = Some out ->
  list_loop rec1' items new_list = Some out.
Proof.
  induction items as [|item rest IH]; intros new_list out Hext;
    cbn [list_loop]; [auto|].
  destruct (rec1 item) as [result|] eqn:E1; cbn [mbind option_bind];
    [|discriminate].
  rewrite (Hext _ _ E1). cbn [mbind option_bind]. now apply IH.
Qed.

Lemma replace_references_body_extends rec rec' v pk e p c r :
  extends rec rec' ->
  replace_references_body py_repr unicode_alnum uuid_map identifier_map
    organization_id practitioner_id rec v pk e p c = Some r ->
  replace_references_body py_repr unicode_alnum uuid_map identifier_map
    organization_id practitioner_id rec' v pk e p c = Some r.
Proof.
  intros Hext. destruct v as [| | | |items|fields];
    cbn [replace_references_body]; auto.
  - destruct (list_loop _ items []) as [out|] eqn:El;
      cbn [mbind option_bind]; [|discriminate].
    rewrite (list_loop_extends _ (fun item => rec' item pk e p c) _ _ _
               (fun item r => Hext item pk e p c r) El).
    auto.
  - destruct (resolve_reference _ _ _ _ fields) as [|f1]; [auto|].
    destruct (fields_loop rec _ _ _ _ _) as [st|] eqn:El;
      cbn [mbind option_bind]; [|discriminate].
    now rewrite (fields_loop_extends _ _ _ _ _ _ _ _ Hext El).
Qed.

(** More fuel gives the same result. *)
Lemma rr_fuel_S n : extends (rr n) (rr (S n)).
Proof.
  induction n as [|n IH]; intros v pk e p c r; [discriminate|].
  intros H. cbn [replace_references] in H |- *.
  eapply replace_references_body_extends; [exact IH|exact H].
Qed.

Lemma rr_fuel_le n m v pk e p c r :
  n <= m -> rr n v pk e p c = Some r -> rr m v pk e p c = Some r.
Proof.
  induction 1 as [|m Hle IH]; [auto|].
  intros H. now apply rr_fuel_S, IH.
Qed.

(** The rewrite of a document is the result at any fuel that is two more
    than its depth, or more. *)
Lemma rr_fuel_independent n m v pk e p c :
  json_wf v = true ->
  json_depth v + 2 <= n -> json_depth v + 2 <= m ->
  rr n v pk e p c = rr m v pk e p c.
Proof.
  intros Hwf Hn Hm.
  destruct (rr_total py_repr unicode_alnum uuid_map identifier_map
              organization_id practitioner_id (json_depth v + 2) v pk e p c
              Hwf (le_n _)) as [r Hr].
  rewrite (rr_fuel_le _ n _ _ _ _ _ _ Hn Hr).
  now rewrite (rr_fuel_le _ m _ _ _ _ _ _ Hm Hr).
Qed.
End FuelFacts.

(** ** The statements on examples *)

(** C8 on a resource with [period] fields at two depths. *)
Lemma period_removed_everywhere_witness :
  exists r,
    replace_references repr_unused ascii_only ∅ ∅ None None 6
      (JObj [("resourceType", JStr "Encounter");
             ("period", JObj [("start", JStr "2020-01-01")]);
             ("participant",
              JList [JObj [("period", JObj [("end", JStr "2020-01-02")]);
                           ("type", JStr "PPRF")]])])
      None false false false = Some r /\
    no_period r = true.
Proof.
  apply period_removed_everywhere; [reflexivity|vm_compute; lia].
Defined.

(** C5 on a reference to a UUID that no entry of the bundle carries. *)
Lemma unresolved_urn_uuid_kept_witness :
  exists out,
    replace_references repr_unused ascii_only ∅ ∅ None None 3
      (JObj [("reference", JStr ("urn:uuid:" +:+ sample_uuid));
             ("display", JStr "Dr. A")])
      None false false false = Some (JObj out) /\
    dict_get "reference" out = Some (JStr ("urn:uuid:" +:+ sample_uuid)).
Proof.
  apply (proj1 (unresolved_urn_uuid_kept repr_unused ascii_only ∅ ∅ None None
                  3 [("reference", JStr ("urn:uuid:" +:+ sample_uuid));
                     ("display", JStr "Dr. A")]
                  ("urn:uuid:" +:+ sample_uuid) None false false false
                  eq_refl ltac:(vm_compute; lia) eq_refl));
    reflexivity.
Defined.

(** C4 fails as stated: the [#] branch comes before the ResourceType/ID
    branch, and removes an object whose id part has the UUID shape. *)
Lemma uuid_reference_removed :
  let ref_value := "#a/" +:+ sample_uuid in
  str_contains "/" ref_value = true /\
  split_once "/" ref_value = ["#a"; sample_uuid] /\
  strict_uuid sample_uuid = true /\
  replace_references repr_unused ascii_only ∅ ∅ None None 3
    (JObj [("reference", JStr ref_value)]) None false false false
  = Some JNull.
Proof. repeat split; reflexivity. Qed.

(** C4, as amended, on a canonical reference. *)
Lemma uuid_reference_unchanged_witness :
  exists out,
    replace_references repr_unused ascii_only ∅ ∅ None None 3
      (JObj [("reference", JStr ("Patient/" +:+ sample_uuid))])
      None false false false = Some (JObj out) /\
    dict_get "reference" out = Some (JStr ("Patient/" +:+ sample_uuid)).
Proof.
  apply (proj2 (uuid_reference_unchanged repr_unused ascii_only ∅ ∅ None None
                  3 [("reference", JStr ("Patient/" +:+ sample_uuid))]
                  ("Patient/" +:+ sample_uuid) None false false false
                  eq_refl ltac:(vm_compute; lia) eq_refl)
           "Patient" sample_uuid eq_refl eq_refl eq_refl).
Defined.

(** C6 fails as stated: the [urn:uuid:] branch comes before the identifier
    branch, and rewrites a reference that holds [?identifier=] and [|] and
    that the pattern does not match. *)
Lemma identifier_reference_rewritten :
  let ref_value := "urn:uuid:a?identifier=b|c" in
  str_contains "?identifier=" ref_value && str_contains "|" ref_value = true /\
  match_identifier_reference ascii_only ref_value = None /\
  replace_references repr_unused ascii_only
    {[ "a?identifier=b|c" := JStr "Patient" ]} ∅ None None 3
    (JObj [("reference", JStr ref_value)]) None false false false
  = Some (JObj [("reference", JStr "Patient/a?identifier=b|c")]).
Proof. repeat split; reflexivity. Qed.

(** C6, as amended, on the scenario of the specification. *)
Lemma identifier_reference_resolved_witness :
  exists out,
    replace_references repr_unused ascii_only ∅
      {[ HStr "ORG-42" := (JStr "Organization", JStr "org-uuid-9") ]}
      None None 3
      (JObj [("reference", JStr "Organization?identifier=http://x|ORG-42")])
      None false false false = Some (JObj out) /\
    dict_get "reference" out = Some (JStr "Organization/org-uuid-9").
Proof.
  apply (proj1 (identifier_reference_resolved repr_unused ascii_only ∅
                  {[ HStr "ORG-42" := (JStr "Organization", JStr "org-uuid-9") ]}
                  None None 3
                  [("reference",
                    JStr "Organization?identifier=http://x|ORG-42")]
                  "Organization?identifier=http://x|ORG-42"
                  None false false false
                  eq_refl ltac:(vm_compute; lia) eq_refl eq_refl)
           "Organization" "http://x" "ORG-42"
           (JStr "Organization") (JStr "org-uuid-9"));
    reflexivity.
Defined.

(** C9 fails as stated: an organization id that holds [?identifier=] and
    [|] has not the UUID shape and is no key of the identifier map, and
    the injected [provider] stays. *)
Lemma injected_provider_stays :
  let org := "x?identifier=y|z" in
  is_uuid_format org = false /\
  (∅ : gmap hkey (json * json)) !! HStr org = None /\
  replace_references repr_unused ascii_only ∅ ∅ (Some org) None 3
    (JObj [("role", JStr "primary")]) (Some "careTeam") true false false
  = Some (JObj [("role", JStr "primary");
                ("provider",
                 JObj [("reference", JStr "Organization/x?identifier=y|z")])]).
Proof. repeat split; reflexivity. Qed.

(** C9, as amended, on an organization id that is no UUID and no key: the
    injected [provider] is removed again. *)
Lemma injected_reference_survives_witness :
  exists out,
    replace_references repr_unused ascii_only ∅ ∅ (Some "org-1") None 3
      (JObj [("role", JStr "primary")]) (Some "careTeam") true false false
    = Some (JObj out) /\
    dict_get "provider" out
    = match resolve_reference repr_unused ascii_only ∅ ∅
              [("reference", JStr "Organization/org-1")] with
      | Keep f => Some (JObj f)
      | Remove => None
      end /\
    dict_mem "provider" out = false.
Proof.
  apply (proj1 (injected_reference_survives repr_unused ascii_only ∅ ∅
                  (Some "org-1") None 3 [("role", JStr "primary")]
                  [("role", JStr "primary")] (Some "careTeam")
                  eq_refl ltac:(vm_compute; lia) eq_refl)
           "org-1" false eq_refl ltac:(discriminate) eq_refl).
Defined.

(** C3 fails as stated: an element of CarePlan.careTeam without a
    [reference] keeps all its fields. *)
Lemma care_team_element_keeps_fields :
  replace_references repr_unused ascii_only ∅ ∅ None None 5
    (JObj [("resourceType", JStr "CarePlan");
           ("careTeam", JList [JObj [("display", JStr "Team A");
                                     ("role", JStr "lead")]])])
    None false false false
  = Some (JObj [("resourceType", JStr "CarePlan");
                ("careTeam", JList [JObj [("display", JStr "Team A");
                                          ("role", JStr "lead")]])]) /\
  care_team_keys [("display", JStr "Team A"); ("role", JStr "lead")] = false.
Proof. split; reflexivity. Qed.

(** C3, as amended, on a CarePlan with one care-team reference. *)
Lemma careplan_care_team_references_witness :
  exists r,
    replace_references repr_unused ascii_only ∅ ∅ None None 5
      (JObj [("resourceType", JStr "CarePlan");
             ("careTeam",
              JList [JObj [("reference", JStr ("CareTeam/" +:+ sample_uuid));
                           ("role", JStr "lead")]])])
      None false false false = Some r /\
    forall out v,
      r = JObj out -> dict_get "careTeam" out = Some v ->
      exists results,
        Forall2 (fun item result =>
                   replace_references repr_unused ascii_only ∅ ∅ None None 3
                     item (Some "careTeam") false false true = Some result /\
                   forall f, item = JObj f ->
                             dict_mem "reference" f = true ->
                             result = JNull \/
                             exists f', result = JObj f' /\
                                        care_team_keys f' = true)
          [JObj [("reference", JStr ("CareTeam/" +:+ sample_uuid));
                 ("role", JStr "lead")]] results /\
        v = JList (List.filter (fun r => negb (is_none r)) results).
Proof.
  apply (careplan_care_team_references repr_unused ascii_only ∅ ∅ None None 3
           [("resourceType", JStr "CarePlan");
            ("careTeam",
             JList [JObj [("reference", JStr ("CareTeam/" +:+ sample_uuid));
                          ("role", JStr "lead")]])]);
    [reflexivity|vm_compute; lia|reflexivity..].
Defined.

(** C2 fails as stated: after the dosage step the list is rewritten like
    any other field, and the rewrite goes into the dosage items; here it
    takes a [period] out of one. *)
Lemma dosage_items_rewritten :
  replace_references repr_unused ascii_only ∅ ∅ None None 7
    (JObj [("resourceType", JStr "MedicationRequest");
           ("dosageInstruction",
            JList [JObj [("text", JStr "twice daily");
                         ("timing",
                          JObj [("repeat",
                                 JObj [("frequency", JNum 2);
                                       ("period", JNum 1)])])]])])
    None false false false
  = Some (JObj [("resourceType", JStr "MedicationRequest");
                ("dosageInstruction",
                 JList [JObj [("text", JStr "twice daily");
                              ("timing",
                               JObj [("repeat",
                                      JObj [("frequency", JNum 2)])])]])]).
Proof. reflexivity. Qed.

(** C2, as amended, on a MedicationRequest with one dosage instruction. *)
Lemma dosage_additional_instruction_removed_witness :
  exists r,
    replace_references repr_unused ascii_only ∅ ∅ None None 7
      (JObj [("resourceType", JStr "MedicationRequest");
             ("dosageInstruction",
              JList [JObj [("sequence", JNum 1);
                           ("additionalInstruction",
                            JList [JObj [("text", JStr "with food")]])]])])
      None false false false = Some r /\
    forall out v,
      r = JObj out -> dict_get "dosageInstruction" out = Some v ->
      replace_references repr_unused ascii_only ∅ ∅ None None 6
        (JList (map (without_field "additionalInstruction")
                  [JObj [("sequence", JNum 1);
                         ("additionalInstruction",
                          JList [JObj [("text", JStr "with food")]])]]))
        (Some "dosageInstruction") false false false = Some v /\
      exists items',
        v = JList items' /\ items_lack "additionalInstruction" items' = true.
Proof.
  apply (dosage_additional_instruction_removed repr_unused ascii_only ∅ ∅
           None None 6
           [("resourceType", JStr "MedicationRequest");
            ("dosageInstruction",
             JList [JObj [("sequence", JNum 1);
                          ("additionalInstruction",
                           JList [JObj [("text", JStr "with food")]])]])]);
    [reflexivity|vm_compute; lia|reflexivity..].
Defined.

(** C7 fails as stated: the patient of the Coverage entries is the first
    Patient resource of the entry list, not any Patient resource of the
    Bundle.  With a first Patient that has no id nothing is inserted,
    though a Patient with the id [P2] follows; with two Patients the
    beneficiary is the first. *)
Lemma later_patient_ignored :
  let patient id :=
    JObj [("resource", JObj (("resourceType", JStr "Patient") :: id))] in
  let eob :=
    JObj [("resource", JObj [("resourceType", JStr "ExplanationOfBenefit")])] in
  let bundle entries :=
    JObj [("resourceType", JStr "Bundle"); ("entry", JList entries)] in
  add_coverage_resources repr_unused sample_uuid4
    (bundle [patient []; patient [("id", JStr "P2")]; eob]) "org-1"
  = Ok (bundle [patient []; patient [("id", JStr "P2")]; eob]) /\
  exists coverage eob',
    add_coverage_resources repr_unused sample_uuid4
      (bundle [patient [("id", JStr "P1")]; patient [("id", JStr "P2")]; eob])
      "org-1"
    = Ok (bundle [patient [("id", JStr "P1")]; patient [("id", JStr "P2")];
                  coverage; eob']) /\
    get_path ["resource"; "beneficiary"; "reference"] coverage
    = JStr "Patient/P1".
Proof.
  split; [reflexivity|]. eexists _, _. split; reflexivity.
Qed.

(** C7, as amended, on the scenario of the specification: one Patient, one
    claim. *)
Lemma coverage_before_each_eob_witness :
  let patient :=
    JObj [("fullUrl", JStr "urn:uuid:p");
          ("resource", JObj [("resourceType", JStr "Patient");
                             ("id", JStr "P1")])] in
  let eob :=
    JObj [("fullUrl", JStr "urn:uuid:e");
          ("resource", JObj [("resourceType", JStr "ExplanationOfBenefit");
                             ("id", JStr "E1")])] in
  let d := [("resourceType", JStr "Bundle"); ("entry", JList [patient; eob])] in
  exists out,
    add_coverage_resources repr_unused sample_uuid4 (JObj d) "org-1"
    = Ok (JObj (dict_set "entry" (JList out) d)) /\
    injected sample_uuid4 "P1" "org-1" 1 [patient; eob] out.
Proof.
  intros patient eob d.
  apply (proj1 (coverage_before_each_eob repr_unused sample_uuid4 d
                  [patient; eob] "org-1" eq_refl eq_refl eq_refl)
           (JStr "P1") eq_refl eq_refl).
Defined.

(** C10 on a Bundle whose first Patient has no id and whose second has
    one. *)
Lemma first_patient_decides_witness :
  let anonymous :=
    JObj [("resource", JObj [("resourceType", JStr "Patient")])] in
  let named :=
    JObj [("resource", JObj [("resourceType", JStr "Patient");
                             ("id", JStr "P2")])] in
  let eob :=
    JObj [("resource", JObj [("resourceType", JStr "ExplanationOfBenefit")])] in
  let d := [("resourceType", JStr "Bundle");
            ("entry", JList [anonymous; named; eob])] in
  add_coverage_resources repr_unused sample_uuid4 (JObj d) "org-1"
  = Ok (JObj d).
Proof.
  intros anonymous named eob d.
  apply (proj1 (first_patient_decides repr_unused sample_uuid4 d []
                  anonymous [named; eob] "org-1"));
    reflexivity.
Defined.

(** ** Tree rewriter: what one pass keeps, adds and prunes *)

Lemma field_result_kept_observation rec io icp imr ie ip key value kv' :
  field_result rec io icp imr ie ip (key, value) = Some (Some kv') ->
  io = true -> key <> "valueCodeableConcept".
Proof.
  unfold field_result. destruct (String.eqb key "period"); [discriminate|].
  intros H -> ->. cbn in H. discriminate.
Qed.

Lemma dict_set_keys_In {V} k (v : V) d k' :
  In k' (map fst (dict_set k v d)) -> In k' (map fst d) \/ k' = k.
Proof.
  intros (kv & <- & Hin)%in_map_iff. destruct kv as [k0 x].
  apply dict_set_In in Hin as [Hin|[-> _]]; [left|now right].
  now apply (in_map fst) in Hin.
Qed.

Section PassProperties.
Variable py_repr : json -> string.
Variable unicode_alnum : ascii -> bool.
Variable uuid_map : gmap string json.
Variable identifier_map : gmap hkey (json * json).
Variable organization_id : option string.
Variable practitioner_id : option string.

Abbreviation rr :=
  (replace_references py_repr unicode_alnum uuid_map identifier_map
     organization_id practitioner_id).
Abbreviation resolve :=
  (resolve_reference py_repr unicode_alnum uuid_map identifier_map).
Abbreviation prepare := (prepare_fields organization_id practitioner_id).
Abbreviation fmt := (format_value py_repr).

(** The keys that the loop goes through: those of the object, and the two
    that the injections add under their flags. *)
Lemma prepare_fields_keys e p c f k :
  In k (map fst (prepare e p c f)) ->
  In k (map fst f) \/ (k = "provider" /\ e = true) \/ (k = "who" /\ p = true).
Proof.
  unfold prepare_fields, add_who, clean_careplan_care_team, add_provider.
  intros H.
  assert (H1 : In k (map fst
      (clean_careplan_care_team c (add_provider organization_id e f))) \/
      (k = "who" /\ p = true)).
  { unfold clean_careplan_care_team, add_provider.
    destruct practitioner_id as [prac|]; [|now left].
    destruct p; [|now left]. cbn [andb] in H.
    destruct (negb (String.eqb prac "") && _); [|now left].
    apply dict_set_keys_In in H as [H| ->]; [now left|now right]. }
  destruct H1 as [H1|H1]; [|now (right; right)].
  assert (H2 : In k (map fst (add_provider organization_id e f))).
  { unfold clean_careplan_care_team in H1.
    destruct (c && _); [|exact H1]. rewrite purge_filter in H1.
    apply in_map_iff in H1 as (kv & <- & Hkv%List.filter_In).
    apply in_map. tauto. }
  unfold add_provider in H2. destruct organization_id as [org|]; [|now left].
  destruct e; [|now left]. cbn [andb] in H2.
  destruct (negb (String.eqb org "") && _); [|now left].
  apply dict_set_keys_In in H2 as [H2| ->]; [now left|right; now left].
Qed.

Lemma resolve_reference_keys fields f1 k :
  resolve fields = Keep f1 -> In k (map fst f1) -> In k (map fst fields).
Proof.
  intros H Hin.
  destruct (resolve_reference_cases py_repr unicode_alnum uuid_map
              identifier_map fields) as [H'|[H'|(old & new & Hold & H')]];
    rewrite H' in H; try discriminate; injection H as <-; [exact Hin|].
  rewrite dict_set_keys_present in Hin; [exact Hin|].
  apply dict_get_some_in in Hold. now apply (in_map fst) in Hold.
Qed.

(** X1: the rewrite adds no field but [provider], inside an
    ExplanationOfBenefit.careTeam list, and [who], inside a Provenance.agent
    list: every other key of the object that it returns is a key of the
    object that it was given, and none is [period]. *)
Theorem rewrite_adds_no_other_key n fields pk e p c out k :
  json_wf (JObj fields) = true ->
  rr n (JObj fields) pk e p c = Some (JObj out) ->
  In k (map fst out) ->
  k <> "period" /\
  (In k (map fst fields) \/
   (k = "provider" /\ e = true) \/ (k = "who" /\ p = true)).
Proof.
  intros Hwf Hrr Hin. destruct n as [|n]; [discriminate|].
  apply json_wf_obj in Hwf.
  rewrite (rr_obj py_repr unicode_alnum uuid_map identifier_map
             organization_id practitioner_id) in Hrr by apply Hwf.
  destruct (resolve fields) as [|f1] eqn:Er; [discriminate|].
  destruct (rewrite_fields _ _ _ _ _ _ _) as [out'|] eqn:Eo;
    cbn [mbind option_bind] in Hrr; [|discriminate].
  injection Hrr as ->.
  apply (rewrite_fields_keys _ _ _ _ _ _ _ _ _ Eo) in Hin as [Hin Hp].
  split; [exact Hp|].
  apply prepare_fields_keys in Hin as [Hin|Hin]; [left|now right].
  eapply resolve_reference_keys; eassumption.
Qed.

(** The rewrite keeps the keys of every object distinct. *)
Lemma rr_wf n : forall v pk e p c r,
  json_wf v = true -> rr n v pk e p c = Some r -> json_wf r = true.
Proof.
  induction n as [|n IH]; intros v pk e p c r Hwf; [discriminate|].
  destruct v as [| | | |items|fields]; try (cbn; now intros [= <-]).
  - rewrite (rr_list py_repr unicode_alnum uuid_map identifier_map
               organization_id practitioner_id).
    destruct (rewrite_items _ items) as [out|] eqn:Eo;
      cbn [mbind option_bind]; [|discriminate].
    intros [= <-]. apply json_wf_list. apply List.Forall_forall. intros r Hin.
    apply rewrite_items_kept in Eo. rewrite List.Forall_forall in Eo.
    destruct (Eo r Hin) as (_ & item & Hitem & Hr).
    apply IH in Hr; [exact Hr|].
    apply json_wf_list in Hwf. rewrite List.Forall_forall in Hwf. auto.
  - apply json_wf_obj in Hwf.
    rewrite (rr_obj py_repr unicode_alnum uuid_map identifier_map
               organization_id practitioner_id) by apply Hwf.
    destruct (resolve fields) as [|f1] eqn:Er; [now intros [= <-]|].
    destruct (rewrite_fields _ _ _ _ _ _ _) as [out|] eqn:Eo;
      cbn [mbind option_bind]; [|discriminate].
    intros [= <-]. apply json_wf_obj.
    pose proof (prepare_fields_wf organization_id practitioner_id e p c f1
                  (resolve_reference_wf py_repr unicode_alnum uuid_map
                     identifier_map fields f1 Hwf Er)) as [Hnd Hall].
    split; [eapply rewrite_fields_NoDup; eassumption|].
    apply List.Forall_forall. intros kv' Hin.
    apply rewrite_fields_kept in Eo. rewrite List.Forall_forall in Eo.
    destruct (Eo kv' Hin) as (value & Hv & Hr).
    apply field_result_kept in Hr as (_ & _ & _ & Hr).
    apply IH in Hr; [exact Hr|]. apply passed_value_wf.
    rewrite List.Forall_forall in Hall. apply (Hall _ Hv).
Qed.

(** Nothing that the rewrite returns holds a [null] below its root. *)
Lemma rr_no_null n : forall v pk e p c r,
  json_wf v = true -> rr n v pk e p c = Some r -> no_null_inside r = true.
Proof.
  induction n as [|n IH]; intros v pk e p c r Hwf; [discriminate|].
  destruct v as [| | | |items|fields]; try (cbn; now intros [= <-]).
  - rewrite (rr_list py_repr unicode_alnum uuid_map identifier_map
               organization_id practitioner_id).
    destruct (rewrite_items _ items) as [out|] eqn:Eo;
      cbn [mbind option_bind]; [|discriminate].
    intros [= <-]. cbn [no_null_inside]. apply forallb_forall. intros r Hin.
    apply rewrite_items_kept in Eo. rewrite List.Forall_forall in Eo.
    destruct (Eo r Hin) as (Hn & item & Hitem & Hr). rewrite Hn. cbn [negb andb].
    apply IH in Hr; [exact Hr|].
    apply json_wf_list in Hwf. rewrite List.Forall_forall in Hwf. auto.
  - apply json_wf_obj in Hwf.
    rewrite (rr_obj py_repr unicode_alnum uuid_map identifier_map
               organization_id practitioner_id) by apply Hwf.
    destruct (resolve fields) as [|f1] eqn:Er; [now intros [= <-]|].
    destruct (rewrite_fields _ _ _ _ _ _ _) as [out|] eqn:Eo;
      cbn [mbind option_bind]; [|discriminate].
    intros [= <-]. cbn [no_null_inside]. apply forallb_forall. intros kv' Hin.
    apply rewrite_fields_kept in Eo. rewrite List.Forall_forall in Eo.
    destruct (Eo kv' Hin) as (value & Hv & Hr).
    apply field_result_kept in Hr as (_ & _ & Hn & Hr). rewrite Hn.
    cbn [negb andb]. apply IH in Hr; [exact Hr|]. apply passed_value_wf.
    pose proof (prepare_fields_wf organization_id practitioner_id e p c f1
                  (resolve_reference_wf py_repr unicode_alnum uuid_map
                     identifier_map fields f1 Hwf Er)) as [_ Hall].
    rewrite List.Forall_forall in Hall. apply (Hall _ Hv).
Qed.

(** X2: [None] is how a call says "remove", and JSON [null] is [None]: the
    rewrite deletes every field whose value is [null] and drops every
    [null] item, so that what it returns holds no [null] below its root;
    and it keeps the keys of each object distinct. *)
Theorem rewrite_prunes_null fuel obj pk e p c :
  json_wf obj = true ->
  json_depth obj + 2 <= fuel ->
  exists r,
    rr fuel obj pk e p c = Some r /\
    no_null_inside r = true /\ json_wf r = true.
Proof.
  intros Hwf Hd.
  destruct (rr_total py_repr unicode_alnum uuid_map identifier_map
              organization_id practitioner_id fuel obj pk e p c Hwf Hd)
    as [r Hr].
  exists r. split; [exact Hr|].
  split; [eapply rr_no_null|eapply rr_wf]; eassumption.
Qed.

(** X3: an Observation resource comes out without a field
    [valueCodeableConcept] at its top level. *)
Theorem observation_value_removed fuel fields pk e p c :
  json_wf (JObj fields) = true ->
  json_depth (JObj fields) + 2 <= fuel ->
  eq_str (py_get "resourceType" fields) "Observation" = true ->
  exists r,
    rr fuel (JObj fields) pk e p c = Some r /\
    forall out, r = JObj out -> dict_mem "valueCodeableConcept" out = false.
Proof.
  intros Hwf Hd Hobs.
  destruct (rr_total py_repr unicode_alnum uuid_map identifier_map
              organization_id practitioner_id fuel (JObj fields) pk e p c
              Hwf Hd) as [r Hrr].
  exists r. split; [exact Hrr|]. intros out ->.
  destruct fuel as [|n]; [discriminate|].
  apply json_wf_obj in Hwf.
  rewrite (rr_obj py_repr unicode_alnum uuid_map identifier_map
             organization_id practitioner_id) in Hrr by apply Hwf.
  destruct (resolve fields) as [|f1] eqn:Er; [discriminate|].
  destruct (rewrite_fields _ _ _ _ _ _ _) as [out'|] eqn:Eo;
    cbn [mbind option_bind] in Hrr; [|discriminate].
  injection Hrr as ->.
  apply dict_mem_false_keys.
  intros (kv' & Hk & Hin)%in_map_iff.
  apply rewrite_fields_kept in Eo. rewrite List.Forall_forall in Eo.
  destruct (Eo kv' Hin) as (value & _ & Hr). rewrite Hk in Hr.
  now apply field_result_kept_observation in Hr.
Qed.

(** X4: a [urn:uuid:] reference whose UUID is in the UUID map becomes the
    mapped resource type, [/], and the UUID; the object stays. *)
Theorem urn_uuid_reference_resolved fuel fields ref_value resource_type
    pk e p c :
  json_wf (JObj fields) = true ->
  json_depth (JObj fields) + 2 <= fuel ->
  dict_get "reference" fields = Some (JStr ref_value) ->
  startswith ref_value "urn:uuid:" = true ->
  uuid_map !! str_replace "urn:uuid:" "" ref_value = Some resource_type ->
  exists out,
    rr fuel (JObj fields) pk e p c = Some (JObj out) /\
    dict_get "reference" out
    = Some (JStr (fmt resource_type +:+ "/"
                  +:+ str_replace "urn:uuid:" "" ref_value)).
Proof.
  intros Hwf Hd Href Hurn Hmap.
  eapply (rr_reference_kept py_repr unicode_alnum uuid_map identifier_map
            organization_id practitioner_id fuel fields); eauto.
  - unfold resolve_reference. now rewrite Href, Hurn, Hmap.
  - apply dict_get_set_eq.
Qed.

(** X5: a ResourceType/ID reference whose id part has not the UUID shape
    and is a key of the identifier map becomes the mapped type and id, the
    type in front of the [/] being ignored; the object stays. *)
Theorem bare_id_reference_resolved fuel fields ref_value resource_type
    id_part mapped_type mapped_id pk e p c :
  json_wf (JObj fields) = true ->
  json_depth (JObj fields) + 2 <= fuel ->
  dict_get "reference" fields = Some (JStr ref_value) ->
  bare_reference ref_value = true ->
  split_once "/" ref_value = [resource_type; id_part] ->
  is_uuid_format id_part = false ->
  identifier_map !! HStr id_part = Some (mapped_type, mapped_id) ->
  exists out,
    rr fuel (JObj fields) pk e p c = Some (JObj out) /\
    dict_get "reference" out
    = Some (JStr (fmt mapped_type +:+ "/" +:+ fmt mapped_id)).
Proof.
  intros Hwf Hd Href Hbare Hsplit Hfmt Hmap.
  unfold bare_reference in Hbare.
  apply andb_prop in Hbare as [[[Hurn Hid]%andb_prop Hhash]%andb_prop Hslash].
  apply negb_true_iff in Hurn, Hid, Hhash.
  eapply (rr_reference_kept py_repr unicode_alnum uuid_map identifier_map
            organization_id practitioner_id fuel fields); eauto.
  - unfold resolve_reference.
    now rewrite Href, Hurn, Hid, Hhash, Hslash, Hsplit, Hfmt, Hmap.
  - apply dict_get_set_eq.
Qed.

(** X6: a list comes back as a list, never as [None]: the call on a list
    returns, and what it returns holds, in their order, the results of the
    calls on its items, under the flags of the list itself, that are not
    [None]; it is no longer than the list was. *)
Theorem list_items_filtered n items pk e p c :
  json_wf (JList items) = true ->
  json_depth (JList items) + 1 <= n ->
  exists results,
    Forall2 (fun item result => rr n item pk e p c = Some result)
      items results /\
    rr (S n) (JList items) pk e p c
    = Some (JList (List.filter (fun x => negb (is_none x)) results)) /\
    length (List.filter (fun x => negb (is_none x)) results) <= length items.
Proof.
  intros Hwf Hd.
  rewrite (rr_list py_repr unicode_alnum uuid_map identifier_map
             organization_id practitioner_id).
  destruct (rewrite_items_total (fun item => rr n item pk e p c) items)
    as [out Eo].
  { apply List.Forall_forall. intros item Hin.
    apply (rr_total py_repr unicode_alnum uuid_map identifier_map
             organization_id practitioner_id).
    - apply json_wf_list in Hwf. rewrite List.Forall_forall in Hwf. auto.
    - apply json_depth_item in Hin. lia. }
  rewrite Eo. cbn [mbind option_bind].
  apply rewrite_items_results in Eo as (results & Hres & ->).
  exists results. repeat split; [exact Hres|].
  rewrite (Forall2_length _ _ _ Hres). apply List.filter_length_le.
Qed.
End PassProperties.

(** ** Tree rewriter: the lists that set a context flag *)

Lemma eq_str_true v s : eq_str v s = true -> v = JStr s.
Proof.
  destruct v as [| | |s'| |]; try discriminate. cbn.
  now intros ->%String.eqb_eq.
Qed.

Section ListFieldFacts.
Variable py_repr : json -> string.
Variable unicode_alnum : ascii -> bool.
Variable uuid_map : gmap string json.
Variable identifier_map : gmap hkey (json * json).
Variable organization_id : option string.
Variable practitioner_id : option string.

Abbreviation rr :=
  (replace_references py_repr unicode_alnum uuid_map identifier_map
     organization_id practitioner_id).
Abbreviation resolve :=
  (resolve_reference py_repr unicode_alnum uuid_map identifier_map).
Abbreviation prepare := (prepare_fields organization_id practitioner_id).

Lemma resolve_reference_get fields f1 k :
  k <> "reference" ->
  resolve fields = Keep f1 -> dict_get k f1 = dict_get k fields.
Proof.
  intros Hk H.
  destruct (resolve_reference_cases py_repr unicode_alnum uuid_map
              identifier_map fields) as [H'|[H'|(old & new & _ & H')]];
    rewrite H' in H; try discriminate; injection H as <-; [reflexivity|].
  now apply dict_get_set_ne.
Qed.

(** When a field other than [reference], [display], [provider] and [who]
    is among those that the loop goes through, the CarePlan cleaning has
    not run, and the fields of the object are all there. *)
Lemma prepare_fields_uncleaned e p c f1 k x k' :
  dict_get k (prepare e p c f1) = Some x ->
  k <> "reference" -> k <> "display" -> k <> "provider" -> k <> "who" ->
  k' <> "provider" -> k' <> "who" ->
  dict_get k' (prepare e p c f1) = dict_get k' f1.
Proof.
  intros Hget H1 H2 H3 H4 H5 H6.
  assert (Hp : forall f q, q <> "provider" ->
            dict_get q (add_provider organization_id e f) = dict_get q f).
  { intros f q Hq. unfold add_provider.
    destruct organization_id; [|reflexivity].
    destruct (_ && _ && _); [|reflexivity]. now apply dict_get_set_ne. }
  assert (Hw : forall f q, q <> "who" ->
            dict_get q (add_who practitioner_id p f) = dict_get q f).
  { intros f q Hq. unfold add_who.
    destruct practitioner_id; [|reflexivity].
    destruct (_ && _ && _); [|reflexivity]. now apply dict_get_set_ne. }
  unfold prepare_fields in Hget |- *. rewrite Hw in Hget |- * by assumption.
  destruct (c && dict_mem "reference" (add_provider organization_id e f1))
    eqn:Ec.
  - exfalso. apply andb_prop in Ec as [-> Hm].
    apply dict_get_some_in, (in_map fst) in Hget. cbn [fst] in Hget.
    apply clean_careplan_care_team_keys in Hget; [|exact Hm].
    apply orb_prop in Hget as [Hk%String.eqb_eq|Hk%String.eqb_eq];
      contradiction.
  - unfold clean_careplan_care_team. rewrite Ec. now apply Hp.
Qed.

(** The list under a key of a resource, after the rewrite: the results of
    the calls on its items that are not [None], the flags of the calls
    being set by the key and the type of the resource. *)
Lemma rr_list_field n fields items pk e p c out k v :
  json_wf (JObj fields) = true ->
  dict_get k fields = Some (JList items) ->
  k <> "reference" -> k <> "display" -> k <> "provider" -> k <> "who" ->
  k <> "dosageInstruction" ->
  rr (S (S n)) (JObj fields) pk e p c = Some (JObj out) ->
  dict_get k out = Some v ->
  exists results,
    Forall2 (fun item result =>
               rr n item (Some k)
                 (String.eqb k "careTeam"
                  && eq_str (py_get "resourceType" fields)
                       "ExplanationOfBenefit")
                 (String.eqb k "agent"
                  && eq_str (py_get "resourceType" fields) "Provenance")
                 (String.eqb k "careTeam"
                  && eq_str (py_get "resourceType" fields) "CarePlan")
               = Some result)
      items results /\
    v = JList (List.filter (fun r => negb (is_none r)) results).
Proof.
  intros Hwf Hk H1 H2 H3 H4 H5 Hrr Hv.
  apply json_wf_obj in Hwf.
  rewrite (rr_obj py_repr unicode_alnum uuid_map identifier_map
             organization_id practitioner_id) in Hrr by apply Hwf.
  destruct (resolve fields) as [|f1] eqn:Er; [discriminate|].
  destruct (rewrite_fields _ _ _ _ _ _ _) as [out'|] eqn:Eo;
    cbn [mbind option_bind] in Hrr; [|discriminate].
  injection Hrr as ->.
  assert (Hwf1 := prepare_fields_wf organization_id practitioner_id e p c f1
                    (resolve_reference_wf py_repr unicode_alnum uuid_map
                       identifier_map fields f1 Hwf Er)).
  rewrite (rewrite_fields_get _ _ _ _ _ _ _ _ _ (proj1 Hwf1) Eo) in Hv.
  destruct (dict_get k (prepare e p c f1)) as [x|] eqn:Ex; [|discriminate].
  assert (Hrt : py_get "resourceType" (prepare e p c f1)
                = py_get "resourceType" fields).
  { unfold py_get.
    rewrite (prepare_fields_uncleaned e p c f1 k x "resourceType" Ex)
      by (assumption || discriminate).
    now rewrite (resolve_reference_get fields f1 "resourceType"
                   ltac:(discriminate) Er). }
  rewrite (prepare_fields_uncleaned e p c f1 k x k Ex) in Ex by assumption.
  rewrite (resolve_reference_get fields f1 k H1 Er), Hk in Ex.
  injection Ex as <-.
  destruct (field_result _ _ _ _ _ _ _) as [[kv'|]|] eqn:Ef;
    try discriminate.
  injection Hv as <-.
  apply field_result_kept in Ef as (_ & _ & _ & Hcall).
  rewrite passed_value_other in Hcall by assumption.
  rewrite Hrt in Hcall. cbn [is_list] in Hcall.
  rewrite !andb_true_r in Hcall.
  rewrite (rr_list py_repr unicode_alnum uuid_map identifier_map
             organization_id practitioner_id) in Hcall.
  destruct (rewrite_items _ items) as [out_items|] eqn:Ei;
    cbn [mbind option_bind] in Hcall; [|discriminate].
  injection Hcall as <-.
  apply rewrite_items_results in Ei as (results & Hres & ->).
  now exists results.
Qed.

Lemma json_wf_list_field fields k items item :
  json_wf (JObj fields) = true ->
  dict_get k fields = Some (JList items) ->
  In item items -> json_wf item = true.
Proof.
  intros [_ Hall]%json_wf_obj Hk Hin. rewrite List.Forall_forall in Hall.
  apply dict_get_some_in in Hk. apply Hall in Hk. cbn [snd] in Hk.
  apply json_wf_list in Hk. rewrite List.Forall_forall in Hk. auto.
Qed.

Lemma json_depth_list_field fields k items item :
  dict_get k fields = Some (JList items) ->
  In item items -> json_depth item + 2 <= json_depth (JObj fields).
Proof.
  intros Hk Hin. apply dict_get_some_in, json_depth_field in Hk.
  apply json_depth_item in Hin. lia.
Qed.

(** An element without [provider], under the ExplanationOfBenefit flag and
    an organization id of the UUID shape: [None], or an object with the
    provider reference. *)
Lemma eob_care_team_element n f pk org r :
  organization_id = Some org -> org <> "" -> is_uuid_format org = true ->
  json_wf (JObj f) = true ->
  json_depth (JObj f) + 2 <= n ->
  dict_mem "provider" f = false ->
  rr n (JObj f) pk true false false = Some r ->
  r = JNull \/
  exists f', r = JObj f' /\
             dict_get "provider" f'
             = Some (reference_object ("Organization/" +:+ org)).
Proof.
  intros Horg Hne Hu Hwf Hd Hm Hr.
  destruct (resolve f) as [|f1] eqn:Er.
  { destruct n as [|n]; [discriminate|].
    rewrite (rr_removed py_repr unicode_alnum uuid_map identifier_map
               organization_id practitioner_id n f pk true false false Er)
      in Hr.
    left. congruence. }
  right.
  destruct (rr_injected py_repr unicode_alnum uuid_map identifier_map
              organization_id practitioner_id n f f1 pk true false false
              "provider" ("Organization/" +:+ org) org Hwf Hd Er)
    as (out & Hrr & Hget).
  - now left.
  - unfold prepare_fields, add_who, clean_careplan_care_team, add_provider.
    rewrite Horg. cbn [andb].
    rewrite (resolve_reference_mem py_repr unicode_alnum uuid_map
               identifier_map _ _ "provider" ltac:(discriminate) Er).
    rewrite Hm. apply String.eqb_neq in Hne. rewrite Hne. cbn [negb andb].
    destruct practitioner_id; apply dict_get_set_eq.
  - apply resolve_organization_reference.
  - rewrite Hr in Hrr. injection Hrr as ->. exists out. split; [reflexivity|].
    rewrite Hget. unfold resolve_bare_id. rewrite Hu.
    now destruct (_ && _).
Qed.

(** X7: in an ExplanationOfBenefit resource, each object of the [careTeam]
    list that has no [provider] gets one before it is rewritten.  With an
    organization id of the UUID shape the rewrite of the resource returns,
    and each such object is [None] (its own reference was removed) or comes
    out with [provider] equal to the reference to the organization. *)
Theorem eob_care_team_gets_provider n fields items pk e p c org :
  organization_id = Some org -> org <> "" -> is_uuid_format org = true ->
  json_wf (JObj fields) = true ->
  json_depth (JObj fields) <= n ->
  eq_str (py_get "resourceType" fields) "ExplanationOfBenefit" = true ->
  dict_get "careTeam" fields = Some (JList items) ->
  exists r,
    rr (S (S n)) (JObj fields) pk e p c = Some r /\
    forall out v,
      r = JObj out -> dict_get "careTeam" out = Some v ->
      exists results,
        Forall2 (fun item result =>
                   rr n item (Some "careTeam") true false false
                   = Some result /\
                   forall f, item = JObj f ->
                             dict_mem "provider" f = false ->
                             result = JNull \/
                             exists f',
                               result = JObj f' /\
                               dict_get "provider" f'
                               = Some (reference_object
                                         ("Organization/" +:+ org)))
          items results /\
        v = JList (List.filter (fun r => negb (is_none r)) results).
Proof.
  intros Horg Hne Hu Hwf Hd Heob Hct.
  destruct (rr_total py_repr unicode_alnum uuid_map identifier_map
              organization_id practitioner_id (S (S n)) (JObj fields)
              pk e p c Hwf ltac:(lia)) as [r Hrr].
  exists r. split; [exact Hrr|]. intros out v -> Hv.
  destruct (rr_list_field n fields items pk e p c out "careTeam" v Hwf Hct)
    as (results & Hres & ->); try discriminate; try assumption.
  exists results. split; [|reflexivity].
  rewrite Heob in Hres. apply eq_str_true in Heob. rewrite Heob in Hres.
  cbn in Hres.
  eapply Forall2_impl_In; [|exact Hres].
  intros item result Hin Hcall. split; [exact Hcall|].
  intros f -> Hm.
  eapply (eob_care_team_element n f); eauto.
  - eapply json_wf_list_field; eassumption.
  - pose proof (json_depth_list_field _ _ _ _ Hct Hin). lia.
Qed.

(** An element without [who], under the Provenance flag and a practitioner
    id of the UUID shape. *)
Lemma provenance_agent_element n f pk prac r :
  practitioner_id = Some prac -> prac <> "" -> is_uuid_format prac = true ->
  json_wf (JObj f) = true ->
  json_depth (JObj f) + 2 <= n ->
  dict_mem "who" f = false ->
  rr n (JObj f) pk false true false = Some r ->
  r = JNull \/
  exists f', r = JObj f' /\
             dict_get "who" f'
             = Some (reference_object ("Practitioner/" +:+ prac)).
Proof.
  intros Hprac Hne Hu Hwf Hd Hm Hr.
  destruct (resolve f) as [|f1] eqn:Er.
  { destruct n as [|n]; [discriminate|].
    rewrite (rr_removed py_repr unicode_alnum uuid_map identifier_map
               organization_id practitioner_id n f pk false true false Er)
      in Hr.
    left. congruence. }
  right.
  destruct (rr_injected py_repr unicode_alnum uuid_map identifier_map
              organization_id practitioner_id n f f1 pk false true false
              "who" ("Practitioner/" +:+ prac) prac Hwf Hd Er)
    as (out & Hrr & Hget).
  - now right.
  - unfold prepare_fields, add_who, clean_careplan_care_team, add_provider.
    rewrite Hprac. cbn [andb].
    replace (match organization_id with Some _ => f1 | None => f1 end)
      with f1 by (now destruct organization_id).
    rewrite (resolve_reference_mem py_repr unicode_alnum uuid_map
               identifier_map _ _ "who" ltac:(discriminate) Er).
    rewrite Hm. apply String.eqb_neq in Hne. rewrite Hne. cbn [negb andb].
    apply dict_get_set_eq.
  - apply resolve_practitioner_reference.
  - rewrite Hr in Hrr. injection Hrr as ->. exists out. split; [reflexivity|].
    rewrite Hget. unfold resolve_bare_id. rewrite Hu.
    now destruct (_ && _).
Qed.

(** X8: in a Provenance resource, each object of the [agent] list that has
    no [who] gets one before it is rewritten.  With a practitioner id of
    the UUID shape the rewrite of the resource returns, and each such
    object is [None] or comes out with [who] equal to the reference to the
    practitioner. *)
Theorem provenance_agent_gets_who n fields items pk e p c prac :
  practitioner_id = Some prac -> prac <> "" -> is_uuid_format prac = true ->
  json_wf (JObj fields) = true ->
  json_depth (JObj fields) <= n ->
  eq_str (py_get "resourceType" fields) "Provenance" = true ->
  dict_get "agent" fields = Some (JList items) ->
  exists r,
    rr (S (S n)) (JObj fields) pk e p c = Some r /\
    forall out v,
      r = JObj out -> dict_get "agent" out = Some v ->
      exists results,
        Forall2 (fun item result =>
                   rr n item (Some "agent") false true false = Some result /\
                   forall f, item = JObj f ->
                             dict_mem "who" f = false ->
                             result = JNull \/
                             exists f',
                               result = JObj f' /\
                               dict_get "who" f'
                               = Some (reference_object
                                         ("Practitioner/" +:+ prac)))
          items results /\
        v = JList (List.filter (fun r => negb (is_none r)) results).
Proof.
  intros Hprac Hne Hu Hwf Hd Hprov Hag.
  destruct (rr_total py_repr unicode_alnum uuid_map identifier_map
              organization_id practitioner_id (S (S n)) (JObj fields)
              pk e p c Hwf ltac:(lia)) as [r Hrr].
  exists r. split; [exact Hrr|]. intros out v -> Hv.
  destruct (rr_list_field n fields items pk e p c out "agent" v Hwf Hag)
    as (results & Hres & ->); try discriminate; try assumption.
  exists results. split; [|reflexivity].
  rewrite Hprov in Hres. cbn in Hres.
  eapply Forall2_impl_In; [|exact Hres].
  intros item result Hin Hcall. split; [exact Hcall|].
  intros f -> Hm.
  eapply (provenance_agent_element n f); eauto.
  - eapply json_wf_list_field; eassumption.
  - pose proof (json_depth_list_field _ _ _ _ Hag Hin). lia.
Qed.
End ListFieldFacts.

(** ** The UUID pattern *)

Lemma append_empty_r s : s +:+ EmptyString = s.
Proof.
  induction s as [|a s IH]; [reflexivity|]. now rewrite append_cons, IH.
Qed.

Lemma append_assoc s1 s2 s3 : (s1 +:+ s2) +:+ s3 = s1 +:+ (s2 +:+ s3).
Proof.
  induction s1 as [|a s IH]; [reflexivity|]. now rewrite !append_cons, IH.
Qed.

Lemma length_append s1 s2 :
  String.length (s1 +:+ s2) = String.length s1 + String.length s2.
Proof.
  induction s1 as [|a s IH]; [reflexivity|].
  rewrite append_cons. cbn [String.length]. now rewrite IH.
Qed.

(** The class of the pattern is the set of the hexadecimal digits. *)
Lemma is_hex_digit c : is_hex c = existsb (Ascii.eqb c) hex_digits.
Proof. destruct c as [[] [] [] [] [] [] [] []]; reflexivity. Qed.

Lemma hex_group_cons n a s :
  hex_group (S n) (String a s) = is_hex a && hex_group n s.
Proof.
  unfold hex_group. cbn [String.length Nat.eqb list_ascii_of_string forallb].
  rewrite is_hex_digit.
  destruct (existsb (Ascii.eqb a) hex_digits);
    destruct (Nat.eqb (String.length s) n); reflexivity.
Qed.

(** [take_hex n] takes a group of [n] digits off the front, and nothing
    else. *)
Lemma take_hex_split n : forall s r,
  take_hex n s = Some r -> exists g, hex_group n g = true /\ s = g +:+ r.
Proof.
  induction n as [|n IH]; intros s r; cbn [take_hex].
  - intros [= ->]. now exists EmptyString.
  - destruct s as [|a s]; [discriminate|].
    destruct (is_hex a) eqn:Ea; [|discriminate].
    intros (g & Hg & ->)%IH. exists (String a g).
    split; [now rewrite hex_group_cons, Ea|reflexivity].
Qed.

Lemma take_hex_app n : forall g r,
  hex_group n g = true -> take_hex n (g +:+ r) = Some r.
Proof.
  induction n as [|n IH]; intros g r.
  - destruct g; [reflexivity|discriminate].
  - destruct g as [|a g]; [discriminate|].
    rewrite hex_group_cons. intros [Ha Hg]%andb_prop.
    rewrite append_cons. cbn [take_hex]. rewrite Ha. now apply IH.
Qed.

Lemma take_hyphen_split s r :
  take_hyphen s = Some r -> s = "-" +:+ r.
Proof.
  destruct s as [|a s]; [discriminate|]. cbn [take_hyphen].
  destruct (Ascii.eqb_spec a "-") as [->|]; [|discriminate].
  now intros [= ->].
Qed.

Lemma take_hyphen_app r : take_hyphen ("-" +:+ r) = Some r.
Proof. reflexivity. Qed.

(** The five groups in front of a string. *)
Lemma uuid_groups_split s r :
  uuid_groups s = Some r -> exists u, uuid_shaped u /\ s = u +:+ r.
Proof.
  unfold uuid_groups.
  destruct (take_hex 8 s) as [r1|] eqn:E1; cbn [mbind option_bind];
    [|discriminate].
  destruct (take_hyphen r1) as [r2|] eqn:E2; cbn [mbind option_bind];
    [|discriminate].
  destruct (take_hex 4 r2) as [r3|] eqn:E3; cbn [mbind option_bind];
    [|discriminate].
  destruct (take_hyphen r3) as [r4|] eqn:E4; cbn [mbind option_bind];
    [|discriminate].
  destruct (take_hex 4 r4) as [r5|] eqn:E5; cbn [mbind option_bind];
    [|discriminate].
  destruct (take_hyphen r5) as [r6|] eqn:E6; cbn [mbind option_bind];
    [|discriminate].
  destruct (take_hex 4 r6) as [r7|] eqn:E7; cbn [mbind option_bind];
    [|discriminate].
  destruct (take_hyphen r7) as [r8|] eqn:E8; cbn [mbind option_bind];
    [|discriminate].
  intros E9.
  apply take_hex_split in E1 as (g1 & H1 & ->).
  apply take_hyphen_split in E2 as ->.
  apply take_hex_split in E3 as (g2 & H2 & ->).
  apply take_hyphen_split in E4 as ->.
  apply take_hex_split in E5 as (g3 & H3 & ->).
  apply take_hyphen_split in E6 as ->.
  apply take_hex_split in E7 as (g4 & H4 & ->).
  apply take_hyphen_split in E8 as ->.
  apply take_hex_split in E9 as (g5 & H5 & ->).
  exists (g1 +:+ "-" +:+ g2 +:+ "-" +:+ g3 +:+ "-" +:+ g4 +:+ "-" +:+ g5).
  split; [now exists g1, g2, g3, g4, g5|].
  now rewrite !append_assoc.
Qed.

Lemma uuid_groups_app u r :
  uuid_shaped u -> uuid_groups (u +:+ r) = Some r.
Proof.
  intros (g1 & g2 & g3 & g4 & g5 & H1 & H2 & H3 & H4 & H5 & ->).
  unfold uuid_groups. rewrite !append_assoc.
  rewrite (take_hex_app 8 g1) by exact H1. cbn [mbind option_bind].
  rewrite take_hyphen_app. cbn [mbind option_bind].
  rewrite (take_hex_app 4 g2) by exact H2. cbn [mbind option_bind].
  rewrite take_hyphen_app. cbn [mbind option_bind].
  rewrite (take_hex_app 4 g3) by exact H3. cbn [mbind option_bind].
  rewrite take_hyphen_app. cbn [mbind option_bind].
  rewrite (take_hex_app 4 g4) by exact H4. cbn [mbind option_bind].
  rewrite take_hyphen_app. cbn [mbind option_bind].
  now apply take_hex_app.
Qed.

(** X9: [is_uuid_format] accepts the strings made of five groups of 8, 4,
    4, 4 and 12 hexadecimal digits joined by hyphens, and those strings
    followed by one line feed, which the [$] of the pattern lets through;
    and nothing else. *)
Theorem is_uuid_format_accepts s :
  is_uuid_format s = true <->
  exists u,
    uuid_shaped u /\ (s = u \/ s = u +:+ String "010" EmptyString).
Proof.
  unfold is_uuid_format. split.
  - destruct (uuid_groups s) as [r|] eqn:E; [|discriminate].
    apply uuid_groups_split in E as (u & Hu & ->).
    intros H. exists u. split; [exact Hu|].
    destruct r as [|c [|? ?]]; try discriminate.
    + left. now rewrite append_empty_r.
    + right. now apply Ascii.eqb_eq in H as ->.
  - intros (u & Hu & [->| ->]).
    + rewrite <- (append_empty_r u) at 1.
      now rewrite (uuid_groups_app u EmptyString Hu).
    + rewrite (uuid_groups_app u _ Hu). reflexivity.
Qed.

(** ** Index builder and aggregator: what the maps hold *)

Lemma hash_key_truthy v k :
  truthy v = true -> hash_key v = Ok k -> truthy_key k.
Proof.
  destruct v as [|b|n|s| |]; cbn; try discriminate.
  - intros -> [= <-]. cbn. lia.
  - intros H [= <-]. cbn. intros ->. discriminate.
  - intros H [= <-]. cbn. intros ->. discriminate.
Qed.

Lemma record_identifiers_truthy resource_type resource_id identifiers :
  forall m,
  truthy resource_type = true -> truthy resource_id = true ->
  identifier_bindings_truthy m ->
  identifier_bindings_truthy
    (fst (record_identifiers resource_type resource_id identifiers m)).
Proof.
  induction identifiers as [|identifier rest IH]; intros m Ht Hi Hm;
    cbn [record_identifiers]; [exact Hm|].
  destruct identifier as [| | | | |f]; try (now apply IH).
  destruct (truthy (py_get "value" f)) eqn:Ev; [|now apply IH].
  destruct (hash_key (py_get "value" f)) as [k|err] eqn:Ek; [|exact Hm].
  apply IH; try assumption.
  apply map_Forall_insert_2; [|exact Hm].
  split; [eapply hash_key_truthy; eassumption|now split].
Qed.

Lemma resource_identifiers_truthy resource_type resource_id resource m :
  identifier_bindings_truthy m ->
  identifier_bindings_truthy
    (fst (resource_identifiers resource_type resource_id resource m)).
Proof.
  intros Hm. unfold resource_identifiers.
  destruct (truthy resource_type) eqn:Et; [|exact Hm].
  destruct (truthy resource_id) eqn:Ei; [|exact Hm]. cbn [andb].
  destruct (py_iter _) as [identifiers|err]; [|exact Hm].
  now apply record_identifiers_truthy.
Qed.

Lemma aggregate_entries_truthy entries : forall m,
  identifier_bindings_truthy m ->
  identifier_bindings_truthy (fst (aggregate_entries m entries)).
Proof.
  induction entries as [|entry rest IH]; intros m Hm;
    cbn [aggregate_entries]; [exact Hm|].
  assert (H1 : identifier_bindings_truthy (fst (aggregate_entry m entry))).
  { unfold aggregate_entry. destruct (as_dict entry) as [e|]; [|exact Hm].
    destruct (as_dict _) as [r|]; [|exact Hm].
    now apply resource_identifiers_truthy. }
  destruct (aggregate_entry m entry) as [m1 [err|]]; [exact H1|].
  now apply IH.
Qed.

Lemma aggregate_document_truthy m data :
  identifier_bindings_truthy m ->
  identifier_bindings_truthy (fst (aggregate_document m data)).
Proof.
  intros Hm. unfold aggregate_document.
  destruct (as_dict data) as [d|]; [|exact Hm].
  destruct (_ && _); [|exact Hm].
  destruct (py_iter _) as [entries|]; [|exact Hm].
  now apply aggregate_entries_truthy.
Qed.

(** X10: every binding of the global identifier map has a truthy key (no
    empty string), resource type and resource id, whatever the files hold;
    so a reference with an empty id part is never resolved. *)
Theorem global_identifier_map_truthy json_files :
  identifier_bindings_truthy (build_global_identifier_map json_files) /\
  build_global_identifier_map json_files !! HStr "" = None.
Proof.
  assert (H : forall m, identifier_bindings_truthy m ->
    identifier_bindings_truthy
      (build_global_identifier_map_from m json_files)).
  { induction json_files as [|[data|] rest IH]; intros m Hm;
      cbn [build_global_identifier_map_from]; auto.
    apply IH. now apply aggregate_document_truthy. }
  assert (H0 : identifier_bindings_truthy
                 (build_global_identifier_map json_files))
    by (apply H, map_Forall_empty).
  split; [exact H0|].
  destruct (build_global_identifier_map json_files !! HStr "")
    as [v|] eqn:E; [|reflexivity].
  apply H0 in E as [Hk _]. now cbn in Hk.
Qed.

Lemma index_entry_bindings um im entry um' im' :
  index_entry (um, im) entry = Ok (um', im') ->
  (identifier_bindings_truthy im -> identifier_bindings_truthy im') /\
  (forall uuid resource_type,
     um' !! uuid = Some resource_type ->
     um !! uuid = Some resource_type \/
     uuid_binding_of entry uuid resource_type).
Proof.
  unfold index_entry, mbind, result_bind.
  destruct entry as [| | | | |e]; try discriminate. cbn [as_dict].
  destruct (py_get_default "fullUrl" (JStr "") e) as [| | |u| |] eqn:Eu;
    try discriminate. cbn [as_str].
  destruct (startswith u "urn:uuid:") eqn:Es;
    [|intros [= <- <-]; split; auto].
  destruct (py_get_default "resource" (JObj []) e) as [| | | | |r] eqn:Er;
    try discriminate. cbn [as_dict].
  pose proof (resource_identifiers_truthy (py_get "resourceType" r)
                (py_get "id" r) r im) as Hri.
  destruct (resource_identifiers _ _ r im) as [m [err|]]; [discriminate|].
  intros [= <- <-]. split; [exact Hri|].
  intros uuid t Hl.
  destruct (truthy (py_get "resourceType" r)) eqn:Et; [|now left].
  destruct (decide (str_replace "urn:uuid:" "" u = uuid)) as [<-|Hne].
  - rewrite lookup_insert_eq in Hl. injection Hl as <-. right.
    exists e, u, r. repeat split; assumption.
  - rewrite lookup_insert_ne in Hl by exact Hne. now left.
Qed.

Lemma index_entries_bindings entries : forall um im um' im',
  index_entries (um, im) entries = Ok (um', im') ->
  (identifier_bindings_truthy im -> identifier_bindings_truthy im') /\
  (forall uuid resource_type,
     um' !! uuid = Some resource_type ->
     um !! uuid = Some resource_type \/
     exists entry, In entry entries /\
                   uuid_binding_of entry uuid resource_type).
Proof.
  induction entries as [|entry rest IH]; intros um im um' im'.
  - intros [= <- <-]. split; auto.
  - change (index_entries (um, im) (entry :: rest))
      with (match index_entry (um, im) entry with
            | Ok st' => index_entries st' rest
            | Raise e => Raise e
            end).
    destruct (index_entry (um, im) entry) as [[um1 im1]|err] eqn:E;
      [|discriminate].
    intros H. apply index_entry_bindings in E as [E1 E2].
    apply IH in H as [H1 H2]. split; [auto|].
    intros uuid t Hl. apply H2 in Hl as [Hl|(entry' & Hin & Hb)].
    + apply E2 in Hl as [Hl|Hb]; [now left|right].
      exists entry. split; [now left|exact Hb].
    + right. exists entry'. split; [now right|exact Hb].
Qed.

(** X11: when the builder returns, every binding of its UUID map comes from
    an entry whose [fullUrl] starts with [urn:uuid:] and whose resource has
    a truthy [resourceType], the key being the [fullUrl] without
    [urn:uuid:]; and every binding of its identifier map has a truthy key,
    resource type and resource id. *)
Theorem index_maps_sound data uuid_map identifier_map :
  build_uuid_to_resource_type_map data = Ok (uuid_map, identifier_map) ->
  identifier_bindings_truthy identifier_map /\
  forall uuid resource_type,
    uuid_map !! uuid = Some resource_type ->
    exists d entries entry,
      data = JObj d /\ eq_str (py_get "resourceType" d) "Bundle" = true /\
      py_iter (py_get "entry" d) = Ok entries /\
      In entry entries /\ uuid_binding_of entry uuid resource_type.
Proof.
  unfold build_uuid_to_resource_type_map, mbind, result_bind.
  destruct data as [| | | | |d]; try discriminate. cbn [as_dict].
  destruct (eq_str (py_get "resourceType" d) "Bundle") eqn:Eb; cbn [andb].
  2: { intros [= <- <-]. split; [apply map_Forall_empty|].
       intros uuid t Hl. now rewrite lookup_empty in Hl. }
  destruct (dict_mem "entry" d).
  2: { intros [= <- <-]. split; [apply map_Forall_empty|].
       intros uuid t Hl. now rewrite lookup_empty in Hl. }
  destruct (py_iter (py_get "entry" d)) as [entries|] eqn:Ei; [|discriminate].
  intros [H1 H2]%index_entries_bindings.
  split; [apply H1, map_Forall_empty|].
  intros uuid t Hl. apply H2 in Hl as [Hl|(entry & Hin & Hb)].
  - now rewrite lookup_empty in Hl.
  - exists d, entries, entry. repeat split; assumption.
Qed.

(** *** The aggregator only adds *)

Lemma record_identifiers_keeps resource_type resource_id identifiers k :
  forall m,
  is_Some (m !! k) ->
  is_Some (fst (record_identifiers resource_type resource_id identifiers m)
           !! k).
Proof.
  induction identifiers as [|identifier rest IH]; intros m Hm;
    cbn [record_identifiers]; [exact Hm|].
  destruct identifier as [| | | | |f]; try (now apply IH).
  destruct (truthy (py_get "value" f)); [|now apply IH].
  destruct (hash_key (py_get "value" f)) as [k'|err]; [|exact Hm].
  apply IH. rewrite lookup_insert_is_Some. destruct (decide (k' = k)); auto.
Qed.

Lemma aggregate_document_keeps m data k :
  is_Some (m !! k) -> is_Some (fst (aggregate_document m data) !! k).
Proof.
  intros Hm. unfold aggregate_document.
  destruct (as_dict data) as [d|]; [|exact Hm].
  destruct (_ && _); [|exact Hm].
  destruct (py_iter _) as [entries|]; [|exact Hm].
  revert m Hm. induction entries as [|entry rest IH]; intros m Hm;
    cbn [aggregate_entries]; [exact Hm|].
  assert (H1 : is_Some (fst (aggregate_entry m entry) !! k)).
  { unfold aggregate_entry. destruct (as_dict entry) as [e|]; [|exact Hm].
    destruct (as_dict _) as [r|]; [|exact Hm].
    unfold resource_identifiers. destruct (_ && _); [|exact Hm].
    destruct (py_iter _) as [identifiers|]; [|exact Hm].
    now apply record_identifiers_keeps. }
  destruct (aggregate_entry m entry) as [m1 [err|]]; [exact H1|].
  now apply IH.
Qed.

Lemma build_global_identifier_map_from_app files1 : forall m files2,
  build_global_identifier_map_from m (files1 ++ files2)
  = build_global_identifier_map_from
      (build_global_identifier_map_from m files1) files2.
Proof.
  induction files1 as [|[data|] rest IH]; intros m files2;
    cbn [app build_global_identifier_map_from]; auto.
Qed.

Lemma build_global_identifier_map_from_keeps files k : forall m,
  is_Some (m !! k) ->
  is_Some (build_global_identifier_map_from m files !! k).
Proof.
  induction files as [|[data|] rest IH]; intros m Hm;
    cbn [build_global_identifier_map_from]; auto.
  apply IH. now apply aggregate_document_keeps.
Qed.

(** X12: the aggregator goes through the files in order and only adds to
    its map or overwrites in it: a key bound after some files is bound
    after any more files; a file that cannot be read, or whose root is no
    object, changes nothing, and the files behind it are still read. *)
Theorem aggregator_only_adds files1 files2 :
  (forall k,
     is_Some (build_global_identifier_map files1 !! k) ->
     is_Some (build_global_identifier_map (files1 ++ files2) !! k)) /\
  build_global_identifier_map (files1 ++ None :: files2)
  = build_global_identifier_map (files1 ++ files2) /\
  (forall data,
     is_dict data = false ->
     build_global_identifier_map (files1 ++ Some data :: files2)
     = build_global_identifier_map (files1 ++ files2)).
Proof.
  unfold build_global_identifier_map. repeat split.
  - intros k Hk. rewrite build_global_identifier_map_from_app.
    now apply build_global_identifier_map_from_keeps.
  - now rewrite !build_global_identifier_map_from_app.
  - intros data Hd. rewrite !build_global_identifier_map_from_app.
    cbn [build_global_identifier_map_from].
    destruct data as [| | | | |d]; try reflexivity. discriminate.
Qed.

(** ** Tree rewriter: the trees that a pass leaves alone *)

Lemma rewrite_items_same rec1 items :
  (forall item, In item items ->
                rec1 item = Some item /\ is_none item = false) ->
  rewrite_items rec1 items = Some items.
Proof.
  induction items as [|item rest IH]; intros H; [reflexivity|].
  cbn [rewrite_items]. destruct (H item (or_introl eq_refl)) as [Hr Hn].
  rewrite Hr. cbn [mbind option_bind].
  rewrite IH by (intros x Hx; apply H; now right).
  cbn [mbind option_bind]. now rewrite Hn.
Qed.

Lemma rewrite_fields_same rec fields :
  (forall k v, In (k, v) fields ->
     k <> "period" /\ is_none v = false /\
     rec v (Some k) false false false = Some v) ->
  rewrite_fields rec false false false false false fields = Some fields.
Proof.
  induction fields as [|[k v] rest IH]; intros H; [reflexivity|].
  cbn [rewrite_fields field_result].
  destruct (H k v (or_introl eq_refl)) as (Hk & Hn & Hr).
  destruct (String.eqb_spec k "period"); [contradiction|].
  cbn [andb]. unfold passed_value. cbn [andb].
  rewrite !andb_false_r, Hr. cbn [mbind option_bind]. rewrite Hn.
  rewrite IH by (intros k' v' Hin; apply H; now right).
  reflexivity.
Qed.

Lemma plain_resource_flags fields :
  plain_resource fields = true ->
  eq_str (py_get "resourceType" fields) "Observation" = false /\
  eq_str (py_get "resourceType" fields) "CarePlan" = false /\
  eq_str (py_get "resourceType" fields) "MedicationRequest" = false /\
  eq_str (py_get "resourceType" fields) "ExplanationOfBenefit" = false /\
  eq_str (py_get "resourceType" fields) "Provenance" = false.
Proof.
  unfold plain_resource. cbv zeta. rewrite negb_true_iff, !orb_false_iff.
  tauto.
Qed.

Section InertFacts.
Variable py_repr : json -> string.
Variable unicode_alnum : ascii -> bool.
Variable uuid_map : gmap string json.
Variable identifier_map : gmap hkey (json * json).
Variable organization_id : option string.
Variable practitioner_id : option string.

Abbreviation rr :=
  (replace_references py_repr unicode_alnum uuid_map identifier_map
     organization_id practitioner_id).
Abbreviation resolve :=
  (resolve_reference py_repr unicode_alnum uuid_map identifier_map).
Abbreviation still :=
  (inert py_repr unicode_alnum uuid_map identifier_map).

Lemma inert_item items item :
  fold_right (fun item P => still item /\ P) True items ->
  In item items -> still item.
Proof.
  induction items as [|x rest IH]; intros H []; cbn in H.
  - subst. apply H.
  - now apply IH.
Qed.

Lemma inert_field (fields : obj_fields) k v :
  fold_right (fun kv P => still (snd kv) /\ P) True fields ->
  In (k, v) fields -> still v.
Proof.
  induction fields as [|x rest IH]; intros H []; cbn in H.
  - subst. apply H.
  - now apply IH.
Qed.

Lemma inert_not_none v : still v -> is_none v = false.
Proof. now destruct v. Qed.

(** One call on a tree with nothing to rewrite. *)
Lemma rr_inert fuel : forall v pk,
  json_wf v = true -> still v -> json_depth v < fuel ->
  rr fuel v pk false false false = Some v.
Proof.
  induction fuel as [|n IH]; intros v pk Hwf Hin Hd; [lia|].
  destruct v as [| | | |items|fields]; try reflexivity.
  - rewrite (rr_list py_repr unicode_alnum uuid_map identifier_map
               organization_id practitioner_id).
    rewrite rewrite_items_same; [reflexivity|].
    intros item Hitem. pose proof (inert_item _ _ Hin Hitem) as Hs.
    split; [|now apply inert_not_none].
    apply IH; [|exact Hs|].
    + apply json_wf_list in Hwf. rewrite List.Forall_forall in Hwf. auto.
    + apply json_depth_item in Hitem. lia.
  - apply json_wf_obj in Hwf. destruct Hwf as [Hnd Hall].
    rewrite (rr_obj py_repr unicode_alnum uuid_map identifier_map
               organization_id practitioner_id) by exact Hnd.
    cbn [inert] in Hin. destruct Hin as (Hres & Hplain & Hper & Hfs).
    rewrite Hres, (prepare_fields_plain organization_id practitioner_id).
    destruct (plain_resource_flags _ Hplain) as (-> & -> & -> & -> & ->).
    rewrite rewrite_fields_same; [reflexivity|].
    intros k v Hkv. pose proof (inert_field _ _ _ Hfs Hkv) as Hs.
    split; [|split; [now apply inert_not_none|]].
    + intros ->. apply dict_mem_false_keys in Hper. apply Hper.
      now apply (in_map fst) in Hkv.
    + apply IH; [|exact Hs|].
      * rewrite List.Forall_forall in Hall. apply (Hall (k, v) Hkv).
      * apply json_depth_field in Hkv. lia.
Qed.

(** X13: a tree with nothing to rewrite (no [null], no [period], objects
    of plain types only, every reference one that the checks keep as it
    is) comes back from the rewriter as it went in, under any parent key;
    so a second pass over it changes nothing either. *)
Theorem inert_tree_unchanged fuel v pk pk' :
  json_wf v = true -> still v -> json_depth v + 2 <= fuel ->
  rr fuel v pk false false false = Some v /\
  (r ← rr fuel v pk false false false; rr fuel r pk' false false false)
  = Some v.
Proof.
  intros Hwf Hs Hd.
  rewrite !rr_inert by (assumption || lia). cbn [mbind option_bind].
  now rewrite rr_inert by (assumption || lia).
Qed.
End InertFacts.

(** ** The injected Coverage under the rewriter *)

Section CoverageFacts.
Variable py_repr : json -> string.
Variable unicode_alnum : ascii -> bool.
Variable uuid_map : gmap string json.
Variable identifier_map : gmap hkey (json * json).
Variable organization_id : option string.
Variable practitioner_id : option string.

Abbreviation rr :=
  (replace_references py_repr unicode_alnum uuid_map identifier_map
     organization_id practitioner_id).
Abbreviation resolve :=
  (resolve_reference py_repr unicode_alnum uuid_map identifier_map).
Abbreviation still :=
  (inert py_repr unicode_alnum uuid_map identifier_map).

(** The reference checks keep a reference [<Type>/<uuid>] as it is. *)
Lemma resolve_canonical fields t u :
  dict_get "reference" fields = Some (JStr (t +:+ String "/" u)) ->
  all_chars ascii_alnum t = true ->
  is_uuid_format u = true ->
  resolve fields = Keep fields.
Proof.
  intros Hg Ht Hu. destruct (canonical_is_bare t u Ht Hu) as [Hb Hs].
  unfold bare_reference in Hb.
  apply andb_prop in Hb as [[[H1 H2]%andb_prop H3]%andb_prop H4].
  apply negb_true_iff in H1, H2, H3.
  unfold resolve_reference. now rewrite Hg, H1, H2, H3, H4, Hs, Hu.
Qed.

Lemma resolve_no_reference fields :
  dict_get "reference" fields = None -> resolve fields = Keep fields.
Proof. intros H. unfold resolve_reference. now rewrite H. Qed.

Lemma coverage_entry_inert coverage_id patient_id org :
  is_uuid_format patient_id = true ->
  is_uuid_format org = true ->
  still (coverage_entry py_repr coverage_id (JStr patient_id) org).
Proof.
  intros Hp Ho. unfold coverage_entry. cbn [format_value inert fold_right snd].
  repeat split; try (now apply resolve_no_reference).
  - apply (resolve_canonical _ "Patient" patient_id);
      [reflexivity|reflexivity|exact Hp].
  - apply (resolve_canonical _ "Organization" org);
      [reflexivity|reflexivity|exact Ho].
Qed.

Lemma insurance_inert coverage_id :
  is_uuid_format coverage_id = true -> still (insurance coverage_id).
Proof.
  intros Hc. unfold insurance. cbn [inert fold_right snd].
  repeat split; try (now apply resolve_no_reference).
  apply (resolve_canonical _ "Coverage" coverage_id);
    [reflexivity|reflexivity|exact Hc].
Qed.

(** X14: the Coverage entry that the injector builds for a patient and an
    organization with UUID-shaped ids, and the [insurance] link that it
    puts on the ExplanationOfBenefit, go through the rewriter unchanged. *)
Theorem injected_coverage_unchanged fuel coverage_id patient_id org pk :
  is_uuid_format coverage_id = true ->
  is_uuid_format patient_id = true ->
  is_uuid_format org = true ->
  5 <= fuel ->
  rr fuel (coverage_entry py_repr coverage_id (JStr patient_id) org) pk
     false false false
  = Some (coverage_entry py_repr coverage_id (JStr patient_id) org) /\
  rr fuel (insurance coverage_id) (Some "insurance") false false false
  = Some (insurance coverage_id).
Proof.
  intros Hc Hp Ho Hf. split.
  - apply rr_inert.
    + reflexivity.
    + now apply coverage_entry_inert.
    + cbn. lia.
  - apply rr_inert.
    + reflexivity.
    + now apply insurance_inert.
    + cbn. lia.
Qed.
End CoverageFacts.

(** ** Coverage injector: shape of the result *)

Lemma json_wf_py_get k d : fields_wf d -> json_wf (py_get k d) = true.
Proof.
  intros [_ Hall]. unfold py_get.
  destruct (dict_get k d) as [v|] eqn:E; [|reflexivity].
  apply dict_get_some_in in E. rewrite List.Forall_forall in Hall.
  apply (Hall (k, v) E).
Qed.

Lemma json_wf_py_get_default k dflt d :
  json_wf dflt = true -> fields_wf d ->
  json_wf (py_get_default k dflt d) = true.
Proof.
  intros Hd [_ Hall]. unfold py_get_default.
  destruct (dict_get k d) as [v|] eqn:E; [|exact Hd].
  apply dict_get_some_in in E. rewrite List.Forall_forall in Hall.
  apply (Hall (k, v) E).
Qed.

Lemma json_wf_chars s : Forall (fun v => json_wf v = true) (chars s).
Proof. induction s; cbn [chars]; constructor; auto. Qed.

Lemma json_wf_py_iter v l :
  json_wf v = true -> py_iter v = Ok l ->
  Forall (fun x => json_wf x = true) l.
Proof.
  destruct v as [| | |s|items|f]; cbn [py_iter]; try discriminate;
    intros Hwf [= <-].
  - apply json_wf_chars.
  - now apply json_wf_list.
  - apply List.Forall_forall. now intros x (kv & <- & _)%in_map_iff.
Qed.

Section InjectorShape.
Variable py_repr : json -> string.
Variable uuid4 : nat -> string.

Lemma insert_coverage_wf patient_id organization_id entries :
  forall new_entries n out,
  Forall (fun x => json_wf x = true) entries ->
  Forall (fun x => json_wf x = true) new_entries ->
  insert_coverage py_repr uuid4 patient_id organization_id entries
    new_entries n = Ok out ->
  Forall (fun x => json_wf x = true) out.
Proof.
  induction entries as [|entry rest IH]; intros acc n out Hes Hacc.
  - now intros [= <-].
  - cbn [insert_coverage]. inversion Hes as [|? ? Hentry Hrest]; subst.
    destruct entry as [| | | | |e]; try discriminate. result_simpl.
    destruct (py_get_default "resource" (JObj []) e) as [| | | | |r] eqn:Er;
      try discriminate. result_simpl.
    apply json_wf_obj in Hentry.
    assert (Hr : fields_wf r).
    { apply json_wf_obj. rewrite <- Er.
      now apply json_wf_py_get_default. }
    destruct (eq_str (py_get "resourceType" r) "ExplanationOfBenefit").
    + apply IH; [exact Hrest|].
      apply Forall_app. split; [apply Forall_app; split|].
      * exact Hacc.
      * constructor; [reflexivity|constructor].
      * constructor; [|constructor]. apply json_wf_obj.
        apply fields_wf_set; [|exact Hentry].
        apply json_wf_obj. now apply fields_wf_set.
    + apply IH; [exact Hrest|].
      apply Forall_app. split; [exact Hacc|].
      constructor; [now apply json_wf_obj|constructor].
Qed.

(** The injector keeps the keys of every object distinct. *)
Lemma add_coverage_resources_wf data organization_id out :
  json_wf data = true ->
  add_coverage_resources py_repr uuid4 data organization_id = Ok out ->
  json_wf out = true.
Proof.
  intros Hwf. unfold add_coverage_resources.
  destruct data as [| | | | |d]; try discriminate. result_simpl.
  destruct (negb _ || negb _); [now intros [= <-]|].
  destruct (py_iter (py_get "entry" d)) as [entries|] eqn:Ei;
    [|discriminate]. result_simpl.
  destruct (find_patient_id entries) as [patient_id|]; [|discriminate].
  result_simpl.
  destruct (negb (truthy patient_id)); [now intros [= <-]|].
  destruct (insert_coverage _ _ _ _ _ _ _) as [new_entries|] eqn:Ein;
    [|discriminate]. result_simpl.
  intros [= <-]. apply json_wf_obj in Hwf. apply json_wf_obj.
  apply fields_wf_set; [|exact Hwf]. apply json_wf_list.
  eapply insert_coverage_wf; [| |exact Ein]; [|constructor].
  eapply json_wf_py_iter; [|exact Ei]. now apply json_wf_py_get.
Qed.

(** X15: the injector changes nothing of the document but the value of
    [entry]: what it returns is an object with the keys of its argument in
    their order and, under every key other than [entry], the value that was
    there; and the keys of every object of it are still distinct. *)
Theorem injector_touches_entry_only data organization_id out :
  json_wf data = true ->
  add_coverage_resources py_repr uuid4 data organization_id = Ok out ->
  json_wf out = true /\
  exists d d',
    data = JObj d /\ out = JObj d' /\
    map fst d' = map fst d /\
    forall k, k <> "entry" -> dict_get k d' = dict_get k d.
Proof.
  intros Hwf Hout. split; [eapply add_coverage_resources_wf; eassumption|].
  clear Hwf. revert Hout. unfold add_coverage_resources.
  destruct data as [| | | | |d]; try discriminate. result_simpl.
  destruct (negb _ || negb (dict_mem "entry" d)) eqn:Eg.
  { intros [= <-]. now exists d, d. }
  apply orb_false_iff in Eg as [_ Hm%negb_false_iff].
  destruct (py_iter (py_get "entry" d)) as [entries|]; [|discriminate].
  result_simpl.
  destruct (find_patient_id entries) as [patient_id|]; [|discriminate].
  result_simpl.
  destruct (negb (truthy patient_id)).
  { intros [= <-]. now exists d, d. }
  destruct (insert_coverage _ _ _ _ _ _ _) as [new_entries|];
    [|discriminate]. result_simpl.
  intros [= <-]. exists d, (dict_set "entry" (JList new_entries) d).
  repeat split.
  - apply dict_set_keys_present.
    destruct (in_dec string_dec "entry" (map fst d)) as [Hin|Hnin];
      [exact Hin|].
    apply dict_get_none_keys in Hnin. unfold dict_mem in Hm.
    rewrite Hnin in Hm. discriminate.
  - intros k Hk. now apply dict_get_set_ne.
Qed.

Lemma insert_coverage_length patient_id organization_id entries :
  forall new_entries n out,
  insert_coverage py_repr uuid4 patient_id organization_id entries
    new_entries n = Ok out ->
  length out
  = length new_entries + length entries
    + count_resources "ExplanationOfBenefit" entries /\
  (count_resources "ExplanationOfBenefit" entries = 0 ->
   out = new_entries ++ entries).
Proof.
  unfold count_resources.
  induction entries as [|entry rest IH]; intros acc n out.
  - intros [= <-]. cbn. split; [lia|now rewrite app_nil_r].
  - cbn [insert_coverage List.filter].
    destruct entry as [| | | | |e]; try discriminate. result_simpl.
    destruct (py_get_default "resource" (JObj []) e) as [| | | | |r] eqn:Er;
      try discriminate. result_simpl.
    rewrite (is_resource_of_obj _ _ _ Er).
    destruct (eq_str (py_get "resourceType" r) "ExplanationOfBenefit").
    + intros [Hl _]%IH. rewrite Hl, !length_app. cbn [length].
      split; [lia|discriminate].
    + intros [Hl Hz]%IH. rewrite Hl, length_app. cbn [length].
      split; [lia|]. intros H0. rewrite (Hz H0).
      now rewrite <- app_assoc.
Qed.

(** X16: when the injector returns for a Bundle whose [entry] is a list
    and whose first Patient has a usable id, the new list has one entry
    more for each ExplanationOfBenefit; a Bundle without one comes back as
    it was. *)
Theorem injector_adds_one_per_eob d entries organization_id out patient_id :
  eq_str (py_get "resourceType" d) "Bundle" = true ->
  dict_get "entry" d = Some (JList entries) ->
  find_patient_id entries = Ok patient_id ->
  truthy patient_id = true ->
  add_coverage_resources py_repr uuid4 (JObj d) organization_id = Ok out ->
  exists new_entries,
    out = JObj (dict_set "entry" (JList new_entries) d) /\
    length new_entries
    = length entries + count_resources "ExplanationOfBenefit" entries /\
    (count_resources "ExplanationOfBenefit" entries = 0 -> out = JObj d).
Proof.
  intros Hb He Hp Ht.
  rewrite (add_coverage_resources_bundle _ _ _ _ _ Hb He), Hp, Ht.
  destruct (insert_coverage _ _ _ _ _ _ _) as [new_entries|] eqn:Ein;
    [|discriminate].
  intros [= <-]. exists new_entries.
  apply insert_coverage_length in Ein as [Hl Hz].
  split; [reflexivity|]. split; [exact Hl|].
  intros H0. rewrite (Hz H0). cbn [app]. now rewrite (dict_set_same _ _ _ He).
Qed.
End InjectorShape.

(** ** One file: index, inject, rewrite *)

Lemma organization_bundle_indexed organization_id :
  exists uuid_map identifier_map,
    build_uuid_to_resource_type_map (organization_bundle organization_id)
    = Ok (uuid_map, identifier_map).
Proof.
  unfold build_uuid_to_resource_type_map, organization_bundle.
  result_simpl.
  change (eq_str (py_get "resourceType" _) "Bundle" && dict_mem "entry" _)
    with true.
  cbv iota.
  cbn [py_iter py_get dict_get String.eqb Ascii.eqb Bool.eqb].
  result_simpl. cbn [index_entries index_entry]. result_simpl.
  cbn [py_get_default dict_get String.eqb Ascii.eqb Bool.eqb]. result_simpl.
  change (startswith ("urn:uuid:" +:+ organization_id) "urn:uuid:")
    with (String.prefix "" organization_id).
  rewrite prefix_empty.
  cbv iota. result_simpl.
  cbn [py_get dict_get String.eqb Ascii.eqb Bool.eqb].
  unfold resource_identifiers.
  cbn [py_get_default dict_get String.eqb Ascii.eqb Bool.eqb py_iter].
  destruct (truthy (JStr "Organization") && truthy (JStr organization_id));
    cbn [record_identifiers truthy String.eqb negb]; result_simpl; eauto.
Qed.

Lemma merged_identifier_map_union
    (global_identifier_map local_identifier_map : gmap hkey (json * json)) :
  merged_identifier_map global_identifier_map local_identifier_map
  = local_identifier_map ∪ global_identifier_map.
Proof.
  unfold merged_identifier_map.
  destruct (decide (size global_identifier_map = 0)) as [E|E];
    [|reflexivity].
  apply map_size_empty_iff in E. subst.
  symmetry. apply (right_id_L ∅ (∪)).
Qed.

(** X17: an identifier that the file binds itself resolves to the binding
    of the file, whatever the other files bind it to; the other identifiers
    resolve as the global map says, and an empty global map is no map. *)
Theorem local_identifier_takes_precedence
    (global_identifier_map local_identifier_map : gmap hkey (json * json))
    k :
  merged_identifier_map global_identifier_map local_identifier_map !! k
  = match local_identifier_map !! k with
    | Some binding => Some binding
    | None => global_identifier_map !! k
    end.
Proof.
  rewrite merged_identifier_map_union, lookup_union.
  now destruct (local_identifier_map !! k), (global_identifier_map !! k).
Qed.

Section PipelineFacts.
Variable py_repr : json -> string.
Variable unicode_alnum : ascii -> bool.
Variable uuid4 : nat -> string.

Abbreviation process :=
  (process_json_file py_repr unicode_alnum uuid4).
Abbreviation inject := (add_coverage_resources py_repr uuid4).

(** X18: for a parsed file, nothing is written exactly when the index
    builder or the injector raises; the rewriter itself always returns.
    What is written has no field [period], no [null] below its root, and
    distinct keys in every object. *)
Theorem process_json_file_writes data global_identifier_map
    organization_id practitioner_id :
  json_wf data = true ->
  (process (Some data) global_identifier_map organization_id practitioner_id
   = None <->
   (exists err, build_uuid_to_resource_type_map data = Raise err) \/
   (exists err, inject data organization_id = Raise err)) /\
  (forall out,
     process (Some data) global_identifier_map organization_id
       practitioner_id = Some out ->
     no_period out = true /\ no_null_inside out = true /\
     json_wf out = true).
Proof.
  intros Hwf. unfold process_json_file.
  destruct (build_uuid_to_resource_type_map data) as [[um lm]|err].
  2: { split; [|discriminate]. split; [eauto|reflexivity]. }
  destruct (inject data organization_id) as [data'|err] eqn:Ei.
  2: { split; [|discriminate]. split; [eauto|reflexivity]. }
  pose proof (add_coverage_resources_wf _ _ _ _ _ Hwf Ei) as Hwf'.
  split.
  - destruct (rr_total py_repr unicode_alnum um
                (merged_identifier_map global_identifier_map lm)
                (Some organization_id) (Some practitioner_id)
                (json_depth data' + 2) data' None false false false
                Hwf' (le_n _)) as [r ->].
    split; [discriminate|]. now intros [[? [=]]|[? [=]]].
  - intros out Hout. repeat split.
    + eapply rr_no_period; eassumption.
    + eapply rr_no_null; eassumption.
    + eapply rr_wf; eassumption.
Qed.

(** X19: a file whose root is an object but no Bundle with entries is
    rewritten and written back all the same: nothing is indexed or
    injected, and what is written is the rewrite of the document with an
    empty UUID map and the global identifier map alone, which returns; no
    [period] is left in it. *)
Theorem non_bundle_file_rewritten d global_identifier_map organization_id
    practitioner_id :
  json_wf (JObj d) = true ->
  eq_str (py_get "resourceType" d) "Bundle" && dict_mem "entry" d = false ->
  exists out,
    process (Some (JObj d)) global_identifier_map organization_id
      practitioner_id = Some out /\
    replace_references py_repr unicode_alnum ∅ global_identifier_map
      (Some organization_id) (Some practitioner_id)
      (json_depth (JObj d) + 2) (JObj d) None false false false
    = Some out /\
    no_period out = true.
Proof.
  intros Hwf H.
  destruct (rr_total py_repr unicode_alnum ∅ global_identifier_map
              (Some organization_id) (Some practitioner_id)
              (json_depth (JObj d) + 2) (JObj d) None false false false
              Hwf (le_n _)) as [out Hout].
  exists out. split; [|split; [exact Hout|]].
  - unfold process_json_file, build_uuid_to_resource_type_map.
    result_simpl. rewrite H.
    unfold add_coverage_resources. result_simpl.
    replace (negb (eq_str (py_get "resourceType" d) "Bundle")
             || negb (dict_mem "entry" d)) with true
      by (destruct (eq_str _ _), (dict_mem _ _); try reflexivity;
          discriminate).
    rewrite merged_identifier_map_union.
    now rewrite (left_id_L ∅ (∪)).
  - eapply rr_no_period; eassumption.
Qed.

(** X20: the Organization file that [create_organization_file] writes is
    one that [process_json_file] writes back as it is, whatever the ids
    and the global map of that run. *)
Theorem organization_file_is_stable file_exists organization_id written
    global_identifier_map organization_id' practitioner_id :
  create_organization_file file_exists organization_id = Some written ->
  process (Some written) global_identifier_map organization_id'
    practitioner_id
  = Some written.
Proof.
  unfold create_organization_file.
  destruct file_exists; [discriminate|]. intros [= <-].
  unfold process_json_file.
  destruct (organization_bundle_indexed organization_id)
    as (um & lm & ->).
  change (inject (organization_bundle organization_id) organization_id')
    with (Ok (organization_bundle organization_id)).
  apply rr_inert; [reflexivity| |lia].
  unfold organization_bundle. cbn [inert fold_right snd].
  repeat split; now apply resolve_no_reference.
Qed.
End PipelineFacts.

(** ** One file: the injected Coverage entries are written *)

Lemma rewrite_items_In rec1 items : forall out item,
  rewrite_items rec1 items = Some out ->
  In item items -> rec1 item = Some item -> is_none item = false ->
  In item out.
Proof.
  induction items as [|x rest IH]; intros out item; [now intros _ []|].
  cbn [rewrite_items].
  destruct (rec1 x) as [r|] eqn:Er; cbn [mbind option_bind]; [|discriminate].
  destruct (rewrite_items rec1 rest) as [rest'|];
    cbn [mbind option_bind]; [|discriminate].
  intros [= <-] [->|Hin] Hitem Hn.
  - rewrite Hitem in Er. injection Er as <-. rewrite Hn. now left.
  - specialize (IH rest' item eq_refl Hin Hitem Hn).
    destruct (is_none r); [exact IH|now right].
Qed.

Lemma is_uuid_format_truthy s :
  is_uuid_format s = true -> truthy (JStr s) = true.
Proof. destruct s; [discriminate|reflexivity]. Qed.

Section CoverageWritten.
Variable py_repr : json -> string.
Variable unicode_alnum : ascii -> bool.
Variable uuid4 : nat -> string.

Abbreviation process :=
  (process_json_file py_repr unicode_alnum uuid4).
Abbreviation inject := (add_coverage_resources py_repr uuid4).

Lemma insert_coverage_members patient_id organization_id entries :
  forall new_entries n out,
  insert_coverage py_repr uuid4 patient_id organization_id entries
    new_entries n = Ok out ->
  (forall x, In x new_entries -> In x out) /\
  (forall i, i < count_resources "ExplanationOfBenefit" entries ->
     In (coverage_entry py_repr (uuid4 (n + i)) patient_id organization_id)
       out).
Proof.
  unfold count_resources.
  induction entries as [|entry rest IH]; intros acc n out.
  - intros [= <-]. split; [auto|]. cbn. lia.
  - cbn [insert_coverage List.filter].
    destruct entry as [| | | | |e]; try discriminate. result_simpl.
    destruct (py_get_default "resource" (JObj []) e) as [| | | | |r] eqn:Er;
      try discriminate. result_simpl.
    rewrite (is_resource_of_obj _ _ _ Er).
    destruct (eq_str (py_get "resourceType" r) "ExplanationOfBenefit").
    + intros [Hacc Hcov]%IH. split.
      * intros x Hx. apply Hacc. rewrite !in_app_iff. auto.
      * intros [|i] Hi.
        -- rewrite Nat.add_0_r. apply Hacc. rewrite !in_app_iff.
           left. right. now left.
        -- replace (n + S i) with (S n + i) by lia. apply Hcov.
           cbn [length] in Hi. lia.
    + intros [Hacc Hcov]%IH. split; [|exact Hcov].
      intros x Hx. apply Hacc. rewrite in_app_iff. auto.
Qed.

(** X21: from reading to writing back.  For a Bundle whose entries the
    injector can read, whose first Patient and whose organization have
    UUID-shaped ids, and which has no [reference] of its own, the file is
    written, and the [entry] list that is written holds one Coverage entry
    for each ExplanationOfBenefit entry, as the injector built it: the
    rewriter, which runs after the injector, leaves it as it is. *)
Theorem injected_coverage_is_written d entries patient_id
    global_identifier_map organization_id practitioner_id
    uuid_map local_identifier_map :
  eq_str (py_get "resourceType" d) "Bundle" = true ->
  dict_get "entry" d = Some (JList entries) ->
  dict_get "reference" d = None ->
  json_wf (JObj d) = true ->
  forallb well_shaped_entry entries = true ->
  first_patient_id entries = Some (JStr patient_id) ->
  is_uuid_format patient_id = true ->
  is_uuid_format organization_id = true ->
  build_uuid_to_resource_type_map (JObj d)
  = Ok (uuid_map, local_identifier_map) ->
  exists out written,
    process (Some (JObj d)) global_identifier_map organization_id
      practitioner_id = Some (JObj out) /\
    dict_get "entry" out = Some (JList written) /\
    forall i,
      i < count_resources "ExplanationOfBenefit" entries ->
      In (coverage_entry py_repr (uuid4 (1 + i)) (JStr patient_id)
            organization_id) written.
Proof.
  intros Hb He Href Hwf Hws Hp Hpu Hou Hbuild.
  destruct (insert_coverage_injected py_repr uuid4 (JStr patient_id)
              organization_id entries [] 1 Hws) as (new & Hins & _).
  cbn [app] in Hins.
  assert (Hinj : inject (JObj d) organization_id
                 = Ok (JObj (dict_set "entry" (JList new) d))).
  { rewrite (add_coverage_resources_bundle _ _ _ _ _ Hb He).
    rewrite (find_patient_id_first _ Hws), Hp.
    now rewrite (is_uuid_format_truthy _ Hpu), Hins. }
  pose proof (add_coverage_resources_wf _ _ _ _ _ Hwf Hinj) as Hwf'.
  apply insert_coverage_members in Hins as [_ Hcov].
  unfold process_json_file. rewrite Hbuild, Hinj.
  set (d' := dict_set "entry" (JList new) d) in *.
  set (im := merged_identifier_map global_identifier_map
               local_identifier_map).
  assert (He' : dict_get "entry" d' = Some (JList new))
    by apply dict_get_set_eq.
  assert (Hd1 : json_depth (JList new) < json_depth (JObj d'))
    by (eapply json_depth_field, dict_get_some_in, He').
  replace (json_depth (JObj d') + 2) with (S (S (json_depth (JObj d'))))
    by lia.
  destruct (rr_total py_repr unicode_alnum uuid_map im
              (Some organization_id) (Some practitioner_id)
              (S (S (json_depth (JObj d')))) (JObj d') None
              false false false Hwf' ltac:(lia)) as [r Hr].
  apply json_wf_obj in Hwf'. destruct Hwf' as [Hnd Hall].
  rewrite (rr_obj py_repr unicode_alnum uuid_map im) in Hr |- *
    by exact Hnd.
  rewrite (resolve_no_reference py_repr unicode_alnum uuid_map im)
    in Hr |- *
    by (unfold d'; now rewrite dict_get_set_ne by discriminate).
  rewrite prepare_fields_plain in Hr |- *.
  assert (Hlist : json_wf (JList new) = true).
  { rewrite List.Forall_forall in Hall.
    apply (Hall _ (dict_get_some_in _ _ _ He')). }
  destruct (rr_total py_repr unicode_alnum uuid_map im
              (Some organization_id) (Some practitioner_id)
              (S (json_depth (JObj d'))) (JList new) (Some "entry")
              false false false Hlist ltac:(lia)) as [r2 Hr2].
  pose proof Hr2 as Hr2'.
  rewrite (rr_list py_repr unicode_alnum uuid_map im) in Hr2'.
  destruct (rewrite_items _ new) as [written|] eqn:Ew;
    cbn [mbind option_bind] in Hr2'; [|discriminate].
  injection Hr2' as <-.
  destruct (rewrite_fields _ _ _ _ _ _ _) as [out|] eqn:Eo;
    cbn [mbind option_bind] in Hr; [|discriminate].
  cbn [mbind option_bind]. exists out, written.
  split; [reflexivity|]. split.
  - rewrite (rewrite_fields_get _ _ _ _ _ _ _ _ _ Hnd Eo), He'.
    cbn [field_result String.eqb Ascii.eqb Bool.eqb].
    rewrite andb_false_r, passed_value_other by discriminate.
    cbn [andb]. rewrite Hr2. reflexivity.
  - intros i Hi. eapply rewrite_items_In; [exact Ew| | |reflexivity].
    + now apply Hcov.
    + apply rr_inert; [reflexivity|now apply coverage_entry_inert|].
      specialize (Hcov i Hi). apply json_depth_item in Hcov. lia.
Qed.
End CoverageWritten.

(** ** Tree rewriter: the references that no branch takes *)

Section OtherReferences.
Variable py_repr : json -> string.
Variable unicode_alnum : ascii -> bool.
Variable uuid_map : gmap string json.
Variable identifier_map : gmap hkey (json * json).
Variable organization_id : option string.
Variable practitioner_id : option string.

Abbreviation rr :=
  (replace_references py_repr unicode_alnum uuid_map identifier_map
     organization_id practitioner_id).
Abbreviation resolve :=
  (resolve_reference py_repr unicode_alnum uuid_map identifier_map).

(** X22: a reference string that does not start with [urn:uuid:] or [#]
    and has no [/], and one that holds [?identifier=] and [|] but not in
    the shape of the pattern, is looked up nowhere: the object stays, with
    the reference string as it was. *)
Theorem unmatched_reference_kept fuel fields ref_value pk e p c :
  json_wf (JObj fields) = true ->
  json_depth (JObj fields) + 2 <= fuel ->
  dict_get "reference" fields = Some (JStr ref_value) ->
  startswith ref_value "urn:uuid:" = false ->
  (identifier_shaped ref_value = true /\
   match_identifier_reference unicode_alnum ref_value = None) \/
  (identifier_shaped ref_value = false /\
   startswith ref_value "#" = false /\
   str_contains "/" ref_value = false) ->
  exists out,
    rr fuel (JObj fields) pk e p c = Some (JObj out) /\
    dict_get "reference" out = Some (JStr ref_value).
Proof.
  intros Hwf Hd Href Hurn Hcase.
  apply (rr_reference_kept py_repr unicode_alnum uuid_map identifier_map
           organization_id practitioner_id fuel fields fields);
    [assumption|assumption| |assumption].
  unfold resolve_reference, identifier_shaped in *.
  rewrite Href, Hurn. rewrite Hurn in Hcase. cbn [negb andb] in Hcase.
  destruct Hcase as [[-> ->]|(-> & -> & ->)]; reflexivity.
Qed.
End OtherReferences.

(** ** The further properties on examples *)

(** X1 on the [provider] that a careTeam element gets. *)
Lemma rewrite_adds_no_other_key_witness :
  "provider" <> "period" /\
  (In "provider" (map fst [("role", JStr "primary")]) \/
   ("provider" = "provider" /\ true = true) \/
   ("provider" = "who" /\ false = true)).
Proof.
  apply (rewrite_adds_no_other_key repr_unused ascii_only ∅ ∅
           (Some sample_uuid) None 3 [("role", JStr "primary")]
           (Some "careTeam") true false false
           [("role", JStr "primary");
            ("provider",
             JObj [("reference", JStr ("Organization/" +:+ sample_uuid))])]
           "provider" eq_refl eq_refl).
  cbn. auto.
Defined.

(** X2 on a document with a [null] field and a [null] item. *)
Lemma rewrite_prunes_null_witness :
  exists r,
    replace_references repr_unused ascii_only ∅ ∅ None None 4
      (JObj [("a", JNull); ("b", JList [JNull; JStr "x"])])
      None false false false = Some r /\
    no_null_inside r = true /\ json_wf r = true.
Proof.
  apply rewrite_prunes_null; [reflexivity|vm_compute; lia].
Defined.

(** X3 on an Observation with a coded value. *)
Lemma observation_value_removed_witness :
  exists r,
    replace_references repr_unused ascii_only ∅ ∅ None None 4
      (JObj [("resourceType", JStr "Observation");
             ("valueCodeableConcept", JObj [("text", JStr "positive")]);
             ("status", JStr "final")])
      None false false false = Some r /\
    forall out, r = JObj out -> dict_mem "valueCodeableConcept" out = false.
Proof.
  apply observation_value_removed;
    [reflexivity|vm_compute; lia|reflexivity].
Defined.

(** X4 on a reference to the Patient of the bundle. *)
Lemma urn_uuid_reference_resolved_witness :
  exists out,
    replace_references repr_unused ascii_only
      {[ sample_uuid := JStr "Patient" ]} ∅ None None 3
      (JObj [("reference", JStr ("urn:uuid:" +:+ sample_uuid))])
      None false false false = Some (JObj out) /\
    dict_get "reference" out = Some (JStr ("Patient/" +:+ sample_uuid)).
Proof.
  apply (urn_uuid_reference_resolved repr_unused ascii_only
           {[ sample_uuid := JStr "Patient" ]} ∅ None None 3
           [("reference", JStr ("urn:uuid:" +:+ sample_uuid))]
           ("urn:uuid:" +:+ sample_uuid) (JStr "Patient")
           None false false false
           eq_refl ltac:(vm_compute; lia) eq_refl eq_refl eq_refl).
Defined.

(** X5 on a reference by a record number. *)
Lemma bare_id_reference_resolved_witness :
  exists out,
    replace_references repr_unused ascii_only ∅
      {[ HStr "MRN-1" := (JStr "Patient", JStr sample_uuid) ]} None None 3
      (JObj [("reference", JStr "Person/MRN-1")])
      None false false false = Some (JObj out) /\
    dict_get "reference" out = Some (JStr ("Patient/" +:+ sample_uuid)).
Proof.
  apply (bare_id_reference_resolved repr_unused ascii_only ∅
           {[ HStr "MRN-1" := (JStr "Patient", JStr sample_uuid) ]}
           None None 3 [("reference", JStr "Person/MRN-1")]
           "Person/MRN-1" "Person" "MRN-1" (JStr "Patient")
           (JStr sample_uuid) None false false false
           eq_refl ltac:(vm_compute; lia) eq_refl eq_refl eq_refl eq_refl
           eq_refl).
Defined.

(** X6 on a list with an internal reference. *)
Lemma list_items_filtered_witness :
  exists results,
    Forall2 (fun item result =>
               replace_references repr_unused ascii_only ∅ ∅ None None 3
                 item None false false false = Some result)
      [JObj [("reference", JStr "#med1")]; JStr "a"] results /\
    replace_references repr_unused ascii_only ∅ ∅ None None 4
      (JList [JObj [("reference", JStr "#med1")]; JStr "a"])
      None false false false
    = Some (JList (List.filter (fun x => negb (is_none x)) results)) /\
    length (List.filter (fun x => negb (is_none x)) results) <= 2.
Proof.
  apply (list_items_filtered repr_unused ascii_only ∅ ∅ None None 3
           [JObj [("reference", JStr "#med1")]; JStr "a"]
           None false false false eq_refl ltac:(vm_compute; lia)).
Defined.

(** X7 on an ExplanationOfBenefit with one careTeam member. *)
Lemma eob_care_team_gets_provider_witness :
  exists r,
    replace_references repr_unused ascii_only ∅ ∅ (Some sample_uuid) None 5
      (JObj [("resourceType", JStr "ExplanationOfBenefit");
             ("careTeam", JList [JObj [("role", JStr "primary")]])])
      None false false false = Some r /\
    forall out v,
      r = JObj out -> dict_get "careTeam" out = Some v ->
      exists results,
        Forall2 (fun item result =>
                   replace_references repr_unused ascii_only ∅ ∅
                     (Some sample_uuid) None 3 item (Some "careTeam")
                     true false false = Some result /\
                   forall f, item = JObj f ->
                             dict_mem "provider" f = false ->
                             result = JNull \/
                             exists f',
                               result = JObj f' /\
                               dict_get "provider" f'
                               = Some (reference_object
                                         ("Organization/" +:+ sample_uuid)))
          [JObj [("role", JStr "primary")]] results /\
        v = JList (List.filter (fun r => negb (is_none r)) results).
Proof.
  apply (eob_care_team_gets_provider repr_unused ascii_only ∅ ∅
           (Some sample_uuid) None 3
           [("resourceType", JStr "ExplanationOfBenefit");
            ("careTeam", JList [JObj [("role", JStr "primary")]])]
           [JObj [("role", JStr "primary")]] None false false false
           sample_uuid eq_refl ltac:(discriminate) eq_refl eq_refl
           ltac:(vm_compute; lia) eq_refl eq_refl).
Defined.

(** X8 on a Provenance with one agent. *)
Lemma provenance_agent_gets_who_witness :
  exists r,
    replace_references repr_unused ascii_only ∅ ∅ None (Some sample_uuid) 5
      (JObj [("resourceType", JStr "Provenance");
             ("agent", JList [JObj [("type", JStr "author")]])])
      None false false false = Some r /\
    forall out v,
      r = JObj out -> dict_get "agent" out = Some v ->
      exists results,
        Forall2 (fun item result =>
                   replace_references repr_unused ascii_only ∅ ∅
                     None (Some sample_uuid) 3 item (Some "agent")
                     false true false = Some result /\
                   forall f, item = JObj f ->
                             dict_mem "who" f = false ->
                             result = JNull \/
                             exists f',
                               result = JObj f' /\
                               dict_get "who" f'
                               = Some (reference_object
                                         ("Practitioner/" +:+ sample_uuid)))
          [JObj [("type", JStr "author")]] results /\
        v = JList (List.filter (fun r => negb (is_none r)) results).
Proof.
  apply (provenance_agent_gets_who repr_unused ascii_only ∅ ∅
           None (Some sample_uuid) 3
           [("resourceType", JStr "Provenance");
            ("agent", JList [JObj [("type", JStr "author")]])]
           [JObj [("type", JStr "author")]] None false false false
           sample_uuid eq_refl ltac:(discriminate) eq_refl eq_refl
           ltac:(vm_compute; lia) eq_refl eq_refl).
Defined.

(** X9 on a UUID followed by a line feed. *)
Lemma is_uuid_format_accepts_witness :
  is_uuid_format (sample_uuid +:+ String "010" EmptyString) = true.
Proof.
  apply (proj2 (is_uuid_format_accepts
                  (sample_uuid +:+ String "010" EmptyString))).
  exists sample_uuid. split; [|right; reflexivity].
  exists "6c0b7f20", "5c92", "efd9", "779b", "c9ac40656b44".
  repeat split; reflexivity.
Defined.

(** X11 on the sample bundle. *)
Lemma index_maps_sound_witness :
  identifier_bindings_truthy
    {[ HStr "MRN-1" := (JStr "Patient", JStr sample_uuid) ]} /\
  forall uuid resource_type,
    ({[ sample_uuid := JStr "Patient";
        "3fa85f64-5717-4562-b3fc-2c963f66afa6"
          := JStr "ExplanationOfBenefit" ]} : gmap string json) !! uuid
    = Some resource_type ->
    exists d entries entry,
      sample_bundle = JObj d /\
      eq_str (py_get "resourceType" d) "Bundle" = true /\
      py_iter (py_get "entry" d) = Ok entries /\
      In entry entries /\ uuid_binding_of entry uuid resource_type.
Proof.
  apply (index_maps_sound sample_bundle). vm_compute. reflexivity.
Defined.

(** X12 on the sample bundle followed by a file that cannot be read. *)
Lemma aggregator_only_adds_witness :
  is_Some (build_global_identifier_map ([Some sample_bundle] ++ [None])
           !! HStr "MRN-1").
Proof.
  apply (proj1 (aggregator_only_adds [Some sample_bundle] [None])).
  exists (JStr "Patient", JStr sample_uuid). vm_compute. reflexivity.
Defined.

(** X13 on a Patient with a canonical reference. *)
Lemma inert_tree_unchanged_witness :
  let v :=
    JObj [("resourceType", JStr "Patient");
          ("name", JList [JObj [("family", JStr "Doe")]]);
          ("managingOrganization",
           JObj [("reference", JStr ("Organization/" +:+ sample_uuid))])] in
  replace_references repr_unused ascii_only ∅ ∅ None None 5 v None
    false false false = Some v /\
  (r ← replace_references repr_unused ascii_only ∅ ∅ None None 5 v None
         false false false;
   replace_references repr_unused ascii_only ∅ ∅ None None 5 r
     (Some "resource") false false false) = Some v.
Proof.
  apply (inert_tree_unchanged repr_unused ascii_only ∅ ∅ None None 5).
  - reflexivity.
  - cbn [inert fold_right snd]. repeat split; reflexivity.
  - vm_compute. lia.
Defined.

(** X14 on the first Coverage of a run. *)
Lemma injected_coverage_unchanged_witness :
  replace_references repr_unused ascii_only ∅ ∅ None None 5
    (coverage_entry repr_unused (sample_uuid4 1) (JStr sample_uuid)
       sample_uuid)
    (Some "entry") false false false
  = Some (coverage_entry repr_unused (sample_uuid4 1) (JStr sample_uuid)
            sample_uuid) /\
  replace_references repr_unused ascii_only ∅ ∅ None None 5
    (insurance (sample_uuid4 1)) (Some "insurance") false false false
  = Some (insurance (sample_uuid4 1)).
Proof.
  apply (injected_coverage_unchanged repr_unused ascii_only ∅ ∅ None None
           5 (sample_uuid4 1) sample_uuid sample_uuid (Some "entry")
           eq_refl eq_refl eq_refl (le_n 5)).
Defined.

(** X15 on the sample bundle. *)
Lemma injector_touches_entry_only_witness :
  exists out,
    add_coverage_resources repr_unused sample_uuid4 sample_bundle
      sample_uuid = Ok out /\
    json_wf out = true /\
    exists d d',
      sample_bundle = JObj d /\ out = JObj d' /\
      map fst d' = map fst d /\
      forall k, k <> "entry" -> dict_get k d' = dict_get k d.
Proof.
  eexists. split; [reflexivity|].
  apply (injector_touches_entry_only repr_unused sample_uuid4 sample_bundle
           sample_uuid); reflexivity.
Defined.

(** X16 on the sample bundle: one ExplanationOfBenefit, one entry more. *)
Lemma injector_adds_one_per_eob_witness :
  exists out,
    add_coverage_resources repr_unused sample_uuid4 sample_bundle
      sample_uuid = Ok out /\
    exists new_entries,
      out = JObj (dict_set "entry" (JList new_entries)
                    sample_bundle_fields) /\
      length new_entries
      = 2 + count_resources "ExplanationOfBenefit"
              [sample_patient_entry; sample_claim_entry] /\
      (count_resources "ExplanationOfBenefit"
         [sample_patient_entry; sample_claim_entry] = 0 ->
       out = JObj sample_bundle_fields).
Proof.
  eexists. split; [reflexivity|].
  apply (injector_adds_one_per_eob repr_unused sample_uuid4
           sample_bundle_fields [sample_patient_entry; sample_claim_entry]
           sample_uuid _ (JStr sample_uuid)); reflexivity.
Defined.

(** X18 on the sample bundle. *)
Lemma process_json_file_writes_witness :
  (process_json_file repr_unused ascii_only sample_uuid4
     (Some sample_bundle) ∅ sample_uuid sample_uuid = None <->
   (exists err, build_uuid_to_resource_type_map sample_bundle = Raise err) \/
   (exists err,
      add_coverage_resources repr_unused sample_uuid4 sample_bundle
        sample_uuid = Raise err)) /\
  (forall out,
     process_json_file repr_unused ascii_only sample_uuid4
       (Some sample_bundle) ∅ sample_uuid sample_uuid = Some out ->
     no_period out = true /\ no_null_inside out = true /\
     json_wf out = true).
Proof.
  apply (process_json_file_writes repr_unused ascii_only sample_uuid4
           sample_bundle ∅ sample_uuid sample_uuid eq_refl).
Defined.

(** X19 on a file that holds a single resource. *)
Lemma non_bundle_file_rewritten_witness :
  exists out,
    process_json_file repr_unused ascii_only sample_uuid4
      (Some (JObj [("resourceType", JStr "Patient");
                   ("period", JObj [("start", JStr "2020-01-01")])]))
      ∅ sample_uuid sample_uuid = Some out /\
    replace_references repr_unused ascii_only ∅ ∅
      (Some sample_uuid) (Some sample_uuid) 4
      (JObj [("resourceType", JStr "Patient");
             ("period", JObj [("start", JStr "2020-01-01")])])
      None false false false = Some out /\
    no_period out = true.
Proof.
  apply (non_bundle_file_rewritten repr_unused ascii_only sample_uuid4
           [("resourceType", JStr "Patient");
            ("period", JObj [("start", JStr "2020-01-01")])]
           ∅ sample_uuid sample_uuid eq_refl eq_refl).
Defined.

(** X20 on a run that finds no Organization file. *)
Lemma organization_file_is_stable_witness :
  process_json_file repr_unused ascii_only sample_uuid4
    (Some (organization_bundle sample_uuid)) ∅ sample_uuid sample_uuid
  = Some (organization_bundle sample_uuid).
Proof.
  apply (organization_file_is_stable repr_unused ascii_only sample_uuid4
           false sample_uuid (organization_bundle sample_uuid) ∅
           sample_uuid sample_uuid eq_refl).
Defined.

(** X21 on the sample bundle. *)
Lemma injected_coverage_is_written_witness :
  exists out written,
    process_json_file repr_unused ascii_only sample_uuid4
      (Some sample_bundle) ∅ sample_uuid sample_uuid = Some (JObj out) /\
    dict_get "entry" out = Some (JList written) /\
    forall i,
      i < count_resources "ExplanationOfBenefit"
            [sample_patient_entry; sample_claim_entry] ->
      In (coverage_entry repr_unused (sample_uuid4 (1 + i))
            (JStr sample_uuid) sample_uuid) written.
Proof.
  apply (injected_coverage_is_written repr_unused ascii_only sample_uuid4
           sample_bundle_fields [sample_patient_entry; sample_claim_entry]
           sample_uuid ∅ sample_uuid sample_uuid
           {[ sample_uuid := JStr "Patient";
              "3fa85f64-5717-4562-b3fc-2c963f66afa6"
                := JStr "ExplanationOfBenefit" ]}
           {[ HStr "MRN-1" := (JStr "Patient", JStr sample_uuid) ]});
    vm_compute; reflexivity.
Defined.

(** X22 on a reference that is a bare word. *)
Lemma unmatched_reference_kept_witness :
  exists out,
    replace_references repr_unused ascii_only ∅ ∅ None None 3
      (JObj [("reference", JStr "unknown"); ("display", JStr "Dr. A")])
      None false false false = Some (JObj out) /\
    dict_get "reference" out = Some (JStr "unknown").
Proof.
  apply (unmatched_reference_kept repr_unused ascii_only ∅ ∅ None None 3
           [("reference", JStr "unknown"); ("display", JStr "Dr. A")]
           "unknown" None false false false
           eq_refl ltac:(vm_compute; lia) eq_refl eq_refl
           (or_intror (conj eq_refl (conj eq_refl eq_refl)))).
Defined.
